(** * Recruiter-Scraper: the extraction-and-filtering pipeline

    A shallow embedding of the text classifiers ([profile.py], [filters.py],
    [utils.py]), the panel extractor and page traversal
    ([profile_navigation.py]) and the pagination engine with its incremental
    checkpoint file ([search.py]), followed by the properties of the
    specification stated over them.

    Text.  A Python [str] is represented by a Rocq [string] holding the UTF-8
    encoding of the text.  Substring tests, concatenation and equality on the
    encoding agree with the same operations on code points.  Case mapping,
    word characters, digits and whitespace are those of ASCII: a character
    outside ASCII is kept as it is by [lower] and is neither a word character
    nor whitespace, which is what Python does for the punctuation that occurs
    in the scraped text (the middle dot, the dashes). *)

From Stdlib Require Import ZArith List Bool Ascii String Lia DecimalString.
From Stdlib Require DecimalPos DecimalFacts.
Import ListNotations.
Open Scope string_scope.

(* ================================================================== *)
(** ** Python string primitives *)
(* ================================================================== *)

Module PyStr.

Definition code (c : ascii) : nat := nat_of_ascii c.

Definition in_range (lo hi : nat) (c : ascii) : bool :=
  (lo <=? code c)%nat && (code c <=? hi)%nat.

Definition is_upper : ascii -> bool := in_range 65 90.
Definition is_lower : ascii -> bool := in_range 97 122.
Definition is_digit : ascii -> bool := in_range 48 57.

(** [\w] of the [re] module: alphanumeric or underscore. *)
Definition is_word (c : ascii) : bool :=
  is_upper c || is_lower c || is_digit c || (code c =? 95)%nat.

(** [str.isspace] on ASCII: TAB, LF, VT, FF, CR, FS, GS, RS, US and space. *)
Definition is_space (c : ascii) : bool :=
  in_range 9 13 c || in_range 28 32 c.

Definition lower_char (c : ascii) : ascii :=
  if is_upper c then ascii_of_nat (code c + 32) else c.

(** [s.lower()] *)
Fixpoint lower (s : string) : string :=
  match s with
  | EmptyString => EmptyString
  | String c s' => String (lower_char c) (lower s')
  end.

(** [sub in s] *)
Fixpoint contains (sub s : string) : bool :=
  prefix sub s ||
  match s with
  | EmptyString => false
  | String _ s' => contains sub s'
  end.

Fixpoint rev (s : string) : string :=
  match s with
  | EmptyString => EmptyString
  | String c s' => rev s' ++ String c EmptyString
  end.

Fixpoint lstrip_by (drop : ascii -> bool) (s : string) : string :=
  match s with
  | EmptyString => EmptyString
  | String c s' => if drop c then lstrip_by drop s' else s
  end.

Definition strip_by (drop : ascii -> bool) (s : string) : string :=
  rev (lstrip_by drop (rev (lstrip_by drop s))).

(** [s.strip()] *)
Definition strip : string -> string := strip_by is_space.

Fixpoint mem_char (c : ascii) (chars : string) : bool :=
  match chars with
  | EmptyString => false
  | String d chars' => Ascii.eqb c d || mem_char c chars'
  end.

(** [s.strip(chars)] *)
Definition strip_chars (chars : string) : string -> string :=
  strip_by (fun c => mem_char c chars).

(** [s.split(sep)] for a one-character separator. *)
Fixpoint split_on (sep : ascii) (s : string) : list string :=
  match s with
  | EmptyString => [EmptyString]
  | String c s' =>
      if Ascii.eqb c sep then EmptyString :: split_on sep s'
      else match split_on sep s' with
           | [] => [String c EmptyString]
           | part :: parts => String c part :: parts
           end
  end.

(** [sep.join(parts)] *)
Fixpoint join (sep : string) (parts : list string) : string :=
  match parts with
  | [] => EmptyString
  | [p] => p
  | p :: ps => p ++ sep ++ join sep ps
  end.

(** [str(n)] for an integer. *)
Definition str_of_Z (n : Z) : string := NilZero.string_of_int (Z.to_int n).

(** [int(s)] on a string of decimal digits. *)
Definition int_of_digits (s : string) : Z :=
  let fix go (acc : Z) (s : string) : Z :=
    match s with
    | EmptyString => acc
    | String c s' => go (10 * acc + Z.of_nat (code c - 48))%Z s'
    end in
  go 0%Z s.

Definition head (s : string) : option ascii :=
  match s with
  | EmptyString => None
  | String c _ => Some c
  end.

Definition opt_word (c : option ascii) : bool :=
  match c with
  | Some c => is_word c
  | None => false
  end.

(** [\b]: exactly one of the neighbouring characters is a word character;
    the outside of the string counts as a non-word character. *)
Definition word_boundary (prev next : option ascii) : bool :=
  xorb (opt_word prev) (opt_word next).

End PyStr.

(* ================================================================== *)
(** ** profile.py: the degree/year parser *)
(* ================================================================== *)

Module Profile.
Import PyStr.

Definition BACHELORS_KW : list string :=
  [ "bachelor"; "b.s."; "b.s"; "b.a."; "b.a"; "b.sc"; "b.eng";
    "b.e."; "btech"; "b.tech"; "(bs)"; "(ba)"; "bs "; "ba " ].

Definition skip_patterns : list string :=
  [ "master"; "m.s."; "m.s"; "m.a."; "m.a"; "mba"; "m.b.a";
    "ph.d"; "phd"; "doctor"; "associate"; "a.s."; "a.a.";
    "high school"; "diploma"; "certificate"; "bootcamp";
    "hack reactor"; "app academy"; "flatiron"; "general assembly";
    "graddip"; "postgrad" ].

(** One attempt of [\b(19|20)\d{2}\b] at the current position; [prev] is the
    character before it.  The value is what group 1 captured. *)
Definition year_re_match (prev : option ascii) (s : string) : option string :=
  match s with
  | String a (String b (String c (String d rest))) =>
      let g := String a (String b EmptyString) in
      if word_boundary prev (Some a)
         && ((g =? "19") || (g =? "20"))
         && is_digit c && is_digit d
         && word_boundary (Some d) (head rest)
      then Some g else None
  | _ => None
  end.

(** [re.findall(r'\b(19|20)\d{2}\b', text)]: the pattern has one capturing
    group, so the list holds what the group captured at each match, scanning
    left to right and resuming after the end of a match ([skip] counts the
    characters of the current match still to be passed). *)
Fixpoint findall_year_re (prev : option ascii) (skip : nat) (s : string)
  : list string :=
  match s with
  | EmptyString => []
  | String c s' =>
      match skip with
      | S k => findall_year_re (Some c) k s'
      | O =>
          match year_re_match prev s with
          | Some g => g :: findall_year_re (Some c) 3 s'
          | None => findall_year_re (Some c) 0 s'
          end
      end
  end.

Definition _parse_bachelors_year_from_text (text : string) : option Z :=
  if text =? "" then None else
  let text_lower := lower text in
  if existsb (fun skip => contains skip text_lower) skip_patterns then None else
  let has_bachelors := existsb (fun kw => contains kw text_lower) BACHELORS_KW in
  if negb has_bachelors then None else
  let years := findall_year_re None 0 text in
  match years with
  | [] => None
  | _ :: _ => Some (int_of_digits (last years EmptyString))
  end.

End Profile.

(* ================================================================== *)
(** ** filters.py: the title matcher *)
(* ================================================================== *)

Module Filters.
Import PyStr.

(** Hard excludes.  The source holds them in a [frozenset]; the verdict of the
    loop over it does not depend on the iteration order. *)
Definition TITLE_BLACKLIST : list string :=
  [ "director"; "vice president"; "vp"; "advocate"; "advocacy";
    "merchandising"; "operations"; "professional services" ].

(** Soft flags. *)
Definition TITLE_REVIEW_FLAGS : list string := [ "head of" ].

(** A title whitelist: [None] is Python's [None], [Some l] a set of phrases. *)
Definition whitelist := option (list string).

(** Truth value of [whitelist] in [if whitelist and ...]: [None] and the
    empty set are false. *)
Definition truthy (wl : whitelist) : bool :=
  match wl with
  | Some (_ :: _) => true
  | _ => false
  end.

Definition phrases (wl : whitelist) : list string :=
  match wl with
  | Some l => l
  | None => []
  end.

Definition title_matches_whitelist (title : string) (wl : whitelist)
  : bool * string :=
  let title_lower := lower title in
  (* Hard blacklist: overrides whitelist *)
  if existsb (fun phrase => contains phrase title_lower) TITLE_BLACKLIST
  then (false, "")
  (* Whitelist check *)
  else if truthy wl
          && negb (existsb (fun phrase => contains phrase title_lower) (phrases wl))
  then (false, "")
  (* Soft review flags *)
  else match find (fun phrase => contains phrase title_lower) TITLE_REVIEW_FLAGS with
       | Some phrase => (true, "title: '" ++ phrase ++ "' — review")
       | None => (true, "")
       end.

End Filters.

(* ================================================================== *)
(** ** utils.py: the location normalizer *)
(* ================================================================== *)

Module Utils.
Import PyStr.

Definition NYC_ALIASES : list string :=
  [ "new york"; "brooklyn"; "queens"; "bronx"; "manhattan";
    "staten island"; "jersey city"; "hoboken"; "newark";
    "yonkers"; "white plains"; "stamford"; "new rochelle" ].

Definition SF_ALIASES : list string :=
  [ "san francisco"; "san jose"; "oakland"; "berkeley";
    "palo alto"; "mountain view"; "sunnyvale"; "santa clara";
    "redwood city"; "menlo park"; "cupertino"; "fremont";
    "san mateo"; "daly city"; "south san francisco";
    "hayward"; "milpitas"; "campbell"; "san ramon" ].

Definition normalize_location (raw : string) : string :=
  let lowered := strip (lower raw) in
  if existsb (fun alias => contains alias lowered) NYC_ALIASES then "NYC"
  else if existsb (fun alias => contains alias lowered) SF_ALIASES then "SF"
  else match split_on "," raw with
       | part :: _ => strip part
       | [] => strip raw
       end.

End Utils.

(* ================================================================== *)
(** ** The fragment of [re] used by the education classifier *)
(* ================================================================== *)

Module PyRe.
Import PyStr.

(** One alternative of a pattern: a literal, matched ignoring case, with an
    optional [\b] in front of it and after it. *)
Record alternative := Alt {
  wb_before : bool;
  literal : string;
  wb_after : bool
}.

(** Match the literal at the head of [s]; the result is the last character
    consumed (or [prev] when nothing was) and what is left of [s]. *)
Fixpoint match_literal (lit : string) (prev : option ascii) (s : string)
  : option (option ascii * string) :=
  match lit with
  | EmptyString => Some (prev, s)
  | String a lit' =>
      match s with
      | String b s' =>
          if Ascii.eqb (lower_char a) (lower_char b)
          then match_literal lit' (Some b) s'
          else None
      | EmptyString => None
      end
  end.

Definition match_alt (prev : option ascii) (s : string) (a : alternative) : bool :=
  (negb (wb_before a) || word_boundary prev (head s))
  && match match_literal (literal a) prev s with
     | Some (last_c, rest) => negb (wb_after a) || word_boundary last_c (head rest)
     | None => false
     end.

(** [pattern.search(s)] as a truth value, for a pattern that is an
    alternation of such literals compiled with [re.IGNORECASE]. *)
Fixpoint search_from (alts : list alternative) (prev : option ascii) (s : string)
  : bool :=
  existsb (match_alt prev s) alts
  || match s with
     | EmptyString => false
     | String c s' => search_from alts (Some c) s'
     end.

Definition search (alts : list alternative) (s : string) : bool :=
  search_from alts None s.

End PyRe.

(* ================================================================== *)
(** ** Python dictionaries with string keys *)
(* ================================================================== *)

Module PyDict.

(** A [dict] as its items in insertion order. *)
Definition dict (A : Type) := list (string * A).

(** [d[k] = v]: a key already present keeps its place. *)
Fixpoint dict_set {A : Type} (k : string) (v : A) (d : dict A) : dict A :=
  match d with
  | [] => [(k, v)]
  | (k', v') :: d' => if k' =? k then (k, v) :: d' else (k', v') :: dict_set k v d'
  end.

(** [d.get(k)] *)
Fixpoint dict_get {A : Type} (k : string) (d : dict A) : option A :=
  match d with
  | [] => None
  | (k', v') :: d' => if k' =? k then Some v' else dict_get k d'
  end.

Definition keys {A : Type} (d : dict A) : list string := map fst d.

End PyDict.

(* ================================================================== *)
(** ** The [json] module: [dumps(obj, ensure_ascii=False)] and [loads] *)
(* ================================================================== *)

Module Json.
Import PyStr.

(** The Python values [json] reads and writes.  A float is kept as the text
    of its literal; a [dict] as its items in insertion order. *)
#[warnings="-register-all"]
Inductive value :=
| JNull
| JBool (b : bool)
| JInt (n : Z)
| JFloat (literal : string)
| JStr (s : string)
| JArr (items : list value)
| JObj (members : list (string * value)).

Definition chr (n : nat) : ascii := ascii_of_nat n.
Definition dquote : ascii := chr 34.
Definition backslash : ascii := chr 92.
Definition str1 (c : ascii) : string := String c EmptyString.

Definition hex_digit (n : nat) : ascii :=
  if (n <? 10)%nat then chr (48 + n) else chr (87 + n).

(** *** Encoder *)

(** [ESCAPE_DCT] of [json.encoder], applied by [py_encode_basestring]: the
    quote, the backslash and the characters below U+0020 are escaped; every
    other character is written as it is. *)
Definition escape_char (c : ascii) : string :=
  let n := code c in
  if (n =? 34)%nat then String backslash (str1 dquote)
  else if (n =? 92)%nat then String backslash (str1 backslash)
  else if (n =? 10)%nat then String backslash "n"
  else if (n =? 13)%nat then String backslash "r"
  else if (n =? 9)%nat then String backslash "t"
  else if (n =? 12)%nat then String backslash "f"
  else if (n =? 8)%nat then String backslash "b"
  else if (n <? 32)%nat
       then String backslash
              ("u00" ++ String (hex_digit (n / 16)) (str1 (hex_digit (n mod 16))))
  else str1 c.

Fixpoint escape (s : string) : string :=
  match s with
  | EmptyString => EmptyString
  | String c s' => escape_char c ++ escape s'
  end.

Definition encode_str (s : string) : string :=
  String dquote (escape s ++ str1 dquote).

Fixpoint dumps (v : value) : string :=
  match v with
  | JNull => "null"
  | JBool true => "true"
  | JBool false => "false"
  | JInt n => str_of_Z n
  | JFloat literal => literal
  | JStr s => encode_str s
  | JArr items => "[" ++ join ", " (map dumps items) ++ "]"
  | JObj members =>
      "{" ++ join ", " (map (fun kv => encode_str (fst kv) ++ ": " ++ dumps (snd kv))
                            members) ++ "}"
  end.

(** *** Decoder *)

Inductive decoded (A : Type) :=
| Parsed (a : A) (rest : string)
| Malformed                      (* [json.JSONDecodeError] *)
| OutOfFuel.
Arguments Parsed {A} a rest.
Arguments Malformed {A}.
Arguments OutOfFuel {A}.

Definition is_ws (c : ascii) : bool :=
  let n := code c in
  (n =? 32)%nat || (n =? 9)%nat || (n =? 10)%nat || (n =? 13)%nat.

Definition skip_ws : string -> string := lstrip_by is_ws.

Definition hex_value (c : ascii) : option N :=
  let n := code c in
  if is_digit c then Some (N.of_nat (n - 48))
  else if in_range 97 102 c then Some (N.of_nat (n - 87))
  else if in_range 65 70 c then Some (N.of_nat (n - 55))
  else None.

Definition hex4 (a b c d : ascii) : option N :=
  match hex_value a, hex_value b, hex_value c, hex_value d with
  | Some x, Some y, Some z, Some w => Some (((x * 16 + y) * 16 + z) * 16 + w)%N
  | _, _, _, _ => None
  end.

Definition byte (n : N) : ascii := ascii_of_N n.

(** UTF-8 encoding of one code point.  (A lone surrogate, which a Python
    [str] can hold, is given the three bytes of the general scheme.) *)
Definition utf8 (cp : N) : string :=
  (if cp <? 128 then str1 (byte cp)
   else if cp <? 2048 then
     String (byte (192 + cp / 64)) (str1 (byte (128 + cp mod 64)))
   else if cp <? 65536 then
     String (byte (224 + cp / 4096))
       (String (byte (128 + (cp / 64) mod 64)) (str1 (byte (128 + cp mod 64))))
   else
     String (byte (240 + cp / 262144))
       (String (byte (128 + (cp / 4096) mod 64))
          (String (byte (128 + (cp / 64) mod 64)) (str1 (byte (128 + cp mod 64))))))%N.

Definition simple_escape (c : ascii) : option ascii :=
  let n := code c in
  if (n =? 34)%nat || (n =? 92)%nat || (n =? 47)%nat then Some c
  else if (n =? 98)%nat then Some (chr 8)
  else if (n =? 102)%nat then Some (chr 12)
  else if (n =? 110)%nat then Some (chr 10)
  else if (n =? 114)%nat then Some (chr 13)
  else if (n =? 116)%nat then Some (chr 9)
  else None.

Definition is_high_surrogate (n : N) : bool := ((55296 <=? n) && (n <=? 56319))%N.
Definition is_low_surrogate (n : N) : bool := ((56320 <=? n) && (n <=? 57343))%N.

(** What a string literal is made of: a character written as it is (or by a
    one-letter escape), or a [\uXXXX] escape. *)
Inductive str_item :=
| Chr (c : ascii)
| Esc (n : N).

Definition cons_item (i : str_item) (r : option (list str_item * string))
  : option (list str_item * string) :=
  match r with
  | Some (items, rest) => Some (i :: items, rest)
  | None => None
  end.

(** The items of a string literal, from just after its opening quote, and
    what follows its closing quote (strict mode: a raw control character is
    an error). *)
Fixpoint scan_str_items (s : string) : option (list str_item * string) :=
  match s with
  | EmptyString => None                           (* unterminated string *)
  | String c s' =>
      if Ascii.eqb c dquote then Some ([], s')
      else if Ascii.eqb c backslash then
        match s' with
        | EmptyString => None
        | String e s'' =>
            if Ascii.eqb e "u" then
              match s'' with
              | String h1 (String h2 (String h3 (String h4 rest))) =>
                  match hex4 h1 h2 h3 h4 with
                  | Some n => cons_item (Esc n) (scan_str_items rest)
                  | None => None
                  end
              | _ => None
              end
            else match simple_escape e with
                 | Some d => cons_item (Chr d) (scan_str_items s'')
                 | None => None
                 end
        end
      else if (code c <? 32)%nat then None         (* control character *)
      else cons_item (Chr c) (scan_str_items s')
  end.

(** The text the items stand for: a high surrogate escape directly followed
    by a low surrogate escape is one code point. *)
Fixpoint decode_items (items : list str_item) : string :=
  match items with
  | [] => EmptyString
  | Chr c :: items' => String c (decode_items items')
  | Esc hi :: items' =>
      match items' with
      | Esc lo :: items'' =>
          if is_high_surrogate hi && is_low_surrogate lo
          then utf8 (65536 + (hi - 55296) * 1024 + (lo - 56320))%N
                 ++ decode_items items''
          else utf8 hi ++ decode_items items'
      | _ => utf8 hi ++ decode_items items'
      end
  end.

(** [scanstring], from just after the opening quote. *)
Definition scanstring (s : string) : option (string * string) :=
  match scan_str_items s with
  | Some (items, rest) => Some (decode_items items, rest)
  | None => None
  end.

(** The longest run of decimal digits at the head of [s]. *)
Fixpoint digits (s : string) : string * string :=
  match s with
  | String c s' =>
      if is_digit c then let (d, rest) := digits s' in (String c d, rest)
      else (EmptyString, s)
  | EmptyString => (EmptyString, EmptyString)
  end.

(** [NUMBER_RE]: an optional minus sign, then [0] or a run of digits that
    does not start with [0]; an optional fraction (a dot and digits); an
    optional exponent ([e] or [E], an optional sign, digits).  Each part is
    given with what follows it. *)
Definition scan_sign (s : string) : string * string :=
  match s with
  | String c s' => if Ascii.eqb c "-" then ("-", s') else (EmptyString, s)
  | EmptyString => (EmptyString, s)
  end.

Definition scan_int (s : string) : option (string * string) :=
  match s with
  | String c s' =>
      if Ascii.eqb c "0" then Some ("0", s')
      else if is_digit c then Some (digits s)
      else None
  | EmptyString => None
  end.

Definition scan_frac (s : string) : string * string :=
  match s with
  | String c s' =>
      if Ascii.eqb c "." then
        match digits s' with
        | (EmptyString, _) => (EmptyString, s)
        | (d, rest) => (String c d, rest)
        end
      else (EmptyString, s)
  | EmptyString => (EmptyString, s)
  end.

Definition scan_exp (s : string) : string * string :=
  match s with
  | String c s' =>
      if Ascii.eqb c "e" || Ascii.eqb c "E" then
        let (sg, s'') :=
          match s' with
          | String g t =>
              if Ascii.eqb g "-" || Ascii.eqb g "+" then (str1 g, t)
              else (EmptyString, s')
          | EmptyString => (EmptyString, s')
          end in
        match digits s'' with
        | (EmptyString, _) => (EmptyString, s)
        | (d, rest) => (String c (sg ++ d), rest)
        end
      else (EmptyString, s)
  | EmptyString => (EmptyString, s)
  end.

(** A number at the head of [s]: an [int] when it has neither fraction nor
    exponent, a [float] otherwise; [None] when no number starts here. *)
Definition scan_number (s : string) : option (value * string) :=
  let (sign, s1) := scan_sign s in
  match scan_int s1 with
  | None => None
  | Some (ip, s2) =>
      let (frac, s3) := scan_frac s2 in
      let (expo, s4) := scan_exp s3 in
      match frac, expo with
      | EmptyString, EmptyString =>
          Some (JInt (if sign =? "-" then - int_of_digits ip else int_of_digits ip), s4)
      | _, _ => Some (JFloat (sign ++ ip ++ frac ++ expo), s4)
      end
  end.

(** [s] without its prefix [p], when it starts with [p]. *)
Fixpoint drop_prefix (p s : string) : option string :=
  match p with
  | EmptyString => Some s
  | String a p' =>
      match s with
      | String b s' => if Ascii.eqb a b then drop_prefix p' s' else None
      | EmptyString => None
      end
  end.

Definition keyword (s : string) : option (value * string) :=
  match drop_prefix "null" s with Some r => Some (JNull, r) | None =>
  match drop_prefix "true" s with Some r => Some (JBool true, r) | None =>
  match drop_prefix "false" s with Some r => Some (JBool false, r) | None =>
  match drop_prefix "NaN" s with Some r => Some (JFloat "NaN", r) | None =>
  match drop_prefix "Infinity" s with Some r => Some (JFloat "Infinity", r) | None =>
  match drop_prefix "-Infinity" s with Some r => Some (JFloat "-Infinity", r) | None =>
  None end end end end end end.

(** [scan_once]: one JSON value at the head of [s]. *)
Fixpoint scan_once (fuel : nat) (s : string) : decoded value :=
  match fuel with
  | O => OutOfFuel
  | S fuel =>
      match s with
      | EmptyString => Malformed
      | String c s' =>
          if Ascii.eqb c dquote then
            match scanstring s' with
            | Some (str, rest) => Parsed (JStr str) rest
            | None => Malformed
            end
          else if Ascii.eqb c "{" then
            match skip_ws s' with
            | String d rest =>
                if Ascii.eqb d "}" then Parsed (JObj []) rest
                else scan_members fuel [] (String d rest)
            | EmptyString => Malformed
            end
          else if Ascii.eqb c "[" then
            match skip_ws s' with
            | String d rest =>
                if Ascii.eqb d "]" then Parsed (JArr []) rest
                else scan_items fuel [] (String d rest)
            | EmptyString => Malformed
            end
          else match keyword s with
               | Some (v, rest) => Parsed v rest
               | None =>
                   match scan_number s with
                   | Some (v, rest) => Parsed v rest
                   | None => Malformed
                   end
               end
      end
  end

(** [JSONObject], at the opening quote of a key. *)
with scan_members (fuel : nat) (acc : list (string * value)) (s : string)
  : decoded value :=
  match fuel with
  | O => OutOfFuel
  | S fuel =>
      match s with
      | String q s' =>
          if negb (Ascii.eqb q dquote) then Malformed else
          match scanstring s' with
          | None => Malformed
          | Some (key, r1) =>
              match skip_ws r1 with
              | String colon r2 =>
                  if negb (Ascii.eqb colon ":") then Malformed else
                  match scan_once fuel (skip_ws r2) with
                  | Parsed v r3 =>
                      let acc' := PyDict.dict_set key v acc in
                      match skip_ws r3 with
                      | String d r4 =>
                          if Ascii.eqb d "}" then Parsed (JObj acc') r4
                          else if Ascii.eqb d "," then scan_members fuel acc' (skip_ws r4)
                          else Malformed
                      | EmptyString => Malformed
                      end
                  | Malformed => Malformed
                  | OutOfFuel => OutOfFuel
                  end
              | EmptyString => Malformed
              end
          end
      | EmptyString => Malformed
      end
  end

(** [JSONArray], at the start of an element. *)
with scan_items (fuel : nat) (acc : list value) (s : string) : decoded value :=
  match fuel with
  | O => OutOfFuel
  | S fuel =>
      match scan_once fuel s with
      | Parsed v r1 =>
          match skip_ws r1 with
          | String d r2 =>
              if Ascii.eqb d "]" then Parsed (JArr (acc ++ [v])) r2
              else if Ascii.eqb d "," then scan_items fuel (acc ++ [v]) (skip_ws r2)
              else Malformed
          | EmptyString => Malformed
          end
      | Malformed => Malformed
      | OutOfFuel => OutOfFuel
      end
  end.

(** [json.loads(s)]: one value, surrounded by optional whitespace, and
    nothing else.  Every call of the scanner consumes a character, so the
    fuel given here is never used up. *)
Definition loads (s : string) : decoded value :=
  match scan_once (2 * length s + 2) (skip_ws s) with
  | Parsed v rest =>
      match skip_ws rest with
      | EmptyString => Parsed v EmptyString
      | String _ _ => Malformed                 (* extra data *)
      end
  | Malformed => Malformed
  | OutOfFuel => OutOfFuel
  end.

(** What a scanner call may answer on [s]: not that the fuel ran out, and
    when it parses a value, it has consumed part of [s]. *)
Definition answers (s : string) (r : decoded value) : Prop :=
  match r with
  | Parsed _ rest => length rest < length s
  | Malformed => True
  | OutOfFuel => False
  end.

End Json.

(* ================================================================== *)
(** ** search.py: the incremental checkpoint file *)
(* ================================================================== *)

Module Checkpoint.
Import PyStr.

(** The file [output/_incremental_profiles.jsonl]: absent, or its text. *)
Definition file := option string.

Definition newline : string := String (ascii_of_nat 10) EmptyString.

(** [open(path, "a")] followed by the writes; an empty list writes nothing
    and does not create the file. *)
Definition _save_profiles_incrementally (profiles : list Json.value) (f : file)
  : file :=
  match profiles with
  | [] => f
  | _ :: _ =>
      Some (fold_left (fun text profile => text ++ Json.dumps profile ++ newline)
                      profiles
                      (match f with Some text => text | None => EmptyString end))
  end.

(** Length of the line boundary at the head of [s], or 0: [str.splitlines]
    breaks at LF, CR, CR LF, VT, FF, FS, GS, RS, NEL (U+0085), LINE SEPARATOR
    (U+2028) and PARAGRAPH SEPARATOR (U+2029). *)
Definition line_boundary (s : string) : nat :=
  match s with
  | EmptyString => 0
  | String c s' =>
      let n := code c in
      if (n =? 13)%nat then
        match s' with
        | String d _ => if (code d =? 10)%nat then 2 else 1
        | EmptyString => 1
        end
      else if in_range 10 12 c || in_range 28 30 c then 1
      else if (n =? 194)%nat then
        match s' with
        | String d _ => if (code d =? 133)%nat then 2 else 0
        | EmptyString => 0
        end
      else if (n =? 226)%nat then
        match s' with
        | String d (String e _) =>
            if (code d =? 128)%nat && ((code e =? 168)%nat || (code e =? 169)%nat)
            then 3 else 0
        | _ => 0
        end
      else 0
  end.

(** The text cut at every line boundary; [skip] counts the characters of the
    current boundary still to be passed. *)
Fixpoint pieces (skip : nat) (s : string) : list string :=
  match s with
  | EmptyString => [EmptyString]
  | String c s' =>
      match skip with
      | S k => pieces k s'
      | O =>
          match line_boundary s with
          | S k => EmptyString :: pieces k s'
          | O =>
              match pieces 0 s' with
              | p :: ps => String c p :: ps
              | [] => [String c EmptyString]
              end
          end
      end
  end.

(** [s.splitlines()]: no empty last line after a final boundary. *)
Definition splitlines (s : string) : list string :=
  let ps := pieces 0 s in
  match last ps EmptyString with
  | EmptyString => removelast ps
  | String _ _ => ps
  end.

Definition load_incremental_profiles (f : file) : list Json.value :=
  match f with
  | None => []
  | Some text =>
      fold_left
        (fun profiles line =>
           match Json.loads line with
           | Json.Parsed v _ => (profiles ++ [v])%list
           | Json.Malformed => profiles          (* except JSONDecodeError: continue *)
           | Json.OutOfFuel => profiles          (* does not occur *)
           end)
        (splitlines text) []
  end.

Definition clear_incremental_file (f : file) : file := None.

End Checkpoint.

(* ================================================================== *)
(** ** profile_navigation.py: panel extractor and page traversal *)
(* ================================================================== *)

Module ProfileNavigation.
Import PyStr.

(** What a call of the page driver gives: a value, or a driver error. *)
Inductive driver (A : Type) :=
| Value (a : A)
| DriverError.
Arguments Value {A} a.
Arguments DriverError {A}.

(** *** Education *)

(** One education row as the script reads it: the text of the degree-name
    element when there is one, and the texts of the [time] elements of the
    dates cell when there is such a cell. *)
Record education_item := {
  degree_el : option string;
  dates_times : option (list string)
}.

(** The education part of the panel: the [li[data-live-test-education-item]]
    rows and whether the expand-more button is in the document. *)
Record education_dom := {
  education_items : list education_item;
  show_more_button : bool
}.

Record edu_entry := { degree : string; year : option Z }.

Record edu_data := {
  entries : list edu_entry;
  hasEducation : bool;
  hasShowMore : bool
}.

(** JavaScript [trim] on ASCII white space. *)
Definition js_trim : string -> string :=
  strip_by (fun c => in_range 9 13 c || (code c =? 32)%nat).

(** [txt.match(/\d{4}/)]: the first four digits in a row. *)
Fixpoint match_4_digits (s : string) : option string :=
  match s with
  | EmptyString => None
  | String a s' =>
      match s' with
      | String b (String c (String d _)) =>
          if is_digit a && is_digit b && is_digit c && is_digit d
          then Some (String a (String b (String c (String d EmptyString))))
          else match_4_digits s'
      | _ => None
      end
  end.

Definition read_entry (item : education_item) : edu_entry :=
  {| degree := match degree_el item with
               | Some text => js_trim text
               | None => EmptyString
               end;
     year := match dates_times item with
             | Some (t :: times) =>
                 match match_4_digits (js_trim (last (t :: times) EmptyString)) with
                 | Some m => Some (int_of_digits m)
                 | None => None
                 end
             | _ => None
             end |}.

(** The script of [_extract_education_from_panel]. *)
Definition evaluate_education (dom : education_dom) : edu_data :=
  match education_items dom with
  | [] => {| entries := []; hasEducation := false; hasShowMore := false |}
  | _ :: _ =>
      if show_more_button dom
      then {| entries := []; hasEducation := true; hasShowMore := true |}
      else {| entries := map read_entry (education_items dom);
              hasEducation := true; hasShowMore := false |}
  end.

Definition BACHELOR_RE : list PyRe.alternative :=
  [ PyRe.Alt true "bachelor" false; PyRe.Alt true "bs" true;
    PyRe.Alt true "ba" true; PyRe.Alt false "b.s" true;
    PyRe.Alt false "b.a" true; PyRe.Alt false "b.sc" true;
    PyRe.Alt false "b.eng" true; PyRe.Alt false "b.e" true;
    PyRe.Alt false "btech" true; PyRe.Alt false "b.tech" true ].

Definition MASTER_RE : list PyRe.alternative :=
  [ PyRe.Alt true "master" false; PyRe.Alt true "mba" true;
    PyRe.Alt false "m.b.a" true; PyRe.Alt false "m.s" true;
    PyRe.Alt false "m.a" true; PyRe.Alt false "m.eng" true;
    PyRe.Alt false "m.sc" true; PyRe.Alt false "mtech" true;
    PyRe.Alt false "m.tech" true ].

Definition is_bachelor (e : edu_entry) : bool := PyRe.search BACHELOR_RE (degree e).
Definition is_master (e : edu_entry) : bool := PyRe.search MASTER_RE (degree e).

(** (should_scrape, review_note, grad_year) *)
Definition verdict := (bool * string * option Z)%type.

Definition _classify_education (entries : list edu_entry) (has_education : bool)
  : verdict :=
  if negb has_education then (true, "no education", None) else
  let bachelors := filter is_bachelor entries in
  let has_master := existsb is_master entries in
  match bachelors with
  | [] =>
      if has_master then (true, "No bachelor's - review", None)
      else (false, "", None)
  | _ :: _ :: _ => (true, "multi bachelor - review", None)
  | [bachelor] =>
      match year bachelor with
      | None => (true, "no edu year - review", None)
      | Some grad_year =>
          if (2010 <=? grad_year)%Z && (grad_year <=? 2024)%Z
          then (true, "", Some grad_year)
          else (false, "", Some grad_year)
      end
  end.

Definition _extract_education_from_panel (page : driver education_dom) : verdict :=
  match page with
  | DriverError => (true, "no education", None)
  | Value dom =>
      let edu := evaluate_education dom in
      if hasShowMore edu then (false, "", None)
      else _classify_education (entries edu) (hasEducation edu)
  end.

(** *** One candidate *)

(** The four fields the header script returns (its fallbacks applied). *)
Record panel_data := {
  panel_name : string;
  panel_title : string;
  panel_company : string;
  panel_location : string
}.

(** The open panel as the extractor sees it.  [public_url] is what
    [_get_public_url_from_panel] returns for it. *)
Record panel := {
  header : driver panel_data;
  education : driver education_dom;
  public_url : string
}.

Record profile := {
  full_name : string;
  current_company : string;
  current_title : string;
  linkedin_public_url : string;
  location : string;
  headline : string;
  bachelors_grad_year : option Z;
  years_experience : option Z;
  recruiter_url : string;
  needs_review : bool;
  review : string
}.

Definition nonempty (s : string) : bool := negb (s =? "").

(** The title step: [None] when the candidate is dropped, otherwise the
    title review note. *)
Definition title_check (title_whitelist : Filters.whitelist) (current_title : string)
  : option string :=
  match title_whitelist with
  | Some _ =>
      if nonempty current_title then
        let (title_passes, title_review) :=
          Filters.title_matches_whitelist current_title title_whitelist in
        if title_passes then Some title_review else None
      else Some EmptyString
  | None => Some EmptyString
  end.

Definition merge_review (review_note title_review : string) : string :=
  if nonempty title_review then
    if nonempty review_note
    then strip_chars "; " (review_note ++ "; " ++ title_review)
    else title_review
  else review_note.

Definition _extract_from_open_panel
  (current_year : Z) (page : panel) (title_whitelist : Filters.whitelist)
  : option profile :=
  match header page with
  | DriverError => None
  | Value data =>
      let name := strip (panel_name data) in
      let current_title := strip (panel_title data) in
      let current_company := strip (panel_company data) in
      let location := strip (panel_location data) in
      if negb (nonempty name) then None
      else if name =? "LinkedIn Member" then None
      else
        (* 1. Education check *)
        let '(should_scrape, review_note, grad_year) :=
          _extract_education_from_panel (education page) in
        if negb should_scrape then None
        else
          (* 2. Title whitelist / blacklist check *)
          match title_check title_whitelist current_title with
          | None => None
          | Some title_review =>
              let review_note := merge_review review_note title_review in
              (* 3. Public URL *)
              let years_exp :=
                match grad_year with
                | Some y => if (y =? 0)%Z then None else Some (current_year - y)%Z
                | None => None
                end in
              Some {| full_name := name;
                      current_company := current_company;
                      current_title := current_title;
                      linkedin_public_url := public_url page;
                      location := Utils.normalize_location location;
                      headline :=
                        if nonempty current_title && nonempty current_company
                        then current_title ++ " at " ++ current_company
                        else if nonempty current_title then current_title
                        else current_company;
                      bachelors_grad_year := grad_year;
                      years_experience := years_exp;
                      recruiter_url := EmptyString;
                      needs_review := nonempty review_note;
                      review := review_note |}
          end
  end.

(** The dictionary [_extract_from_open_panel] returns, as [json] sees it. *)
Definition opt_int (n : option Z) : Json.value :=
  match n with
  | Some n => Json.JInt n
  | None => Json.JNull
  end.

Definition to_dict (p : profile) : Json.value :=
  Json.JObj
    [ ("full_name", Json.JStr (full_name p));
      ("current_company", Json.JStr (current_company p));
      ("current_title", Json.JStr (current_title p));
      ("linkedin_public_url", Json.JStr (linkedin_public_url p));
      ("location", Json.JStr (location p));
      ("headline", Json.JStr (headline p));
      ("bachelors_grad_year", opt_int (bachelors_grad_year p));
      ("years_experience", opt_int (years_experience p));
      ("recruiter_url", Json.JStr (recruiter_url p));
      ("needs_review", Json.JBool (needs_review p));
      ("review", Json.JStr (review p)) ].

(** *** One result page *)

(** What [_is_chrome_crashed] reads: the title of the tab and the text of
    the document body. *)
Record tab := {
  page_title : driver string;
  body_text : driver string
}.

Definition _is_chrome_crashed (t : tab) : bool :=
  match page_title t with
  | DriverError => true
  | Value title =>
      if existsb (fun phrase => contains phrase (lower title))
                 ["aw, snap"; "error"; "page unresponsive"]
      then true
      else match body_text t with
           | DriverError => true
           | Value content => contains "aw, snap" (lower content)
           end
  end.

(** What happens to a line written to the checkpoint file: it is appended,
    or the write raises ([mkdir], [open], [write] or the closing of the file);
    in that case the file was not opened ([None]), or it was opened and
    [reached] is the part of the line that got into it. *)
Inductive write :=
| Written
| WriteRaises (reached : option string).

(** What the traversal meets at one candidate: the tab when the candidate's
    turn comes, the open panel, and what the write of the candidate's record
    to the checkpoint file does. *)
Record candidate := {
  chrome_tab : tab;
  open_panel : panel;
  checkpoint_write : write
}.

Definition crashed (c : candidate) : bool := _is_chrome_crashed (chrome_tab c).

(** One result page.  [first_link] is the lookup of the first candidate
    link and [first_link_click] the calls on it ([text_content],
    [scroll_into_view_if_needed], [click]); neither is inside a [try], nor
    is [screenshot], which is called when the panel does not open.  The
    candidates are those the panel shows in turn: [first_candidate] after
    the click on the first link, then one of [more_candidates] after each
    click on the panel's Next button; after the last of them the button is
    absent, hidden or disabled, or the click fails. *)
Record result_page := {
  results_loaded : bool;          (* the wait for result cards succeeds *)
  first_link : driver bool;       (* a candidate link is found *)
  first_link_click : driver unit;
  panel_opens : bool;             (* the wait for the panel succeeds *)
  screenshot : driver unit;
  first_candidate : candidate;
  more_candidates : list candidate;
  next_page : bool                (* what [_go_next] returns *)
}.

Inductive event :=
| Navigate (url : string)
| ClearIncremental
| PageStart (page_num : Z)
| NoResults
| NoCandidateLinks
| PanelDidNotOpen
| Extracted (candidate_num : nat)
| ExtractFailed (candidate_num : nat)
| Crashed (saved : nat) (resume_msg : string)
| Unexpected (saved : nat) (resume_msg : string)
| PageDone (candidate_num : nat)
| NoMorePages.

(** The checkpoint file and the log. *)
Record world := {
  incremental : Checkpoint.file;
  trace : list event
}.

(** The events of the page loop: all but the first navigation and the
    removal of the checkpoint file. *)
Definition page_event (e : event) : bool :=
  match e with
  | Navigate _ | ClearIncremental => false
  | _ => true
  end.

Definition emit (e : event) (w : world) : world :=
  {| incremental := incremental w; trace := trace w ++ [e] |}.

Definition save (p : profile) (w : world) : world :=
  {| incremental := Checkpoint._save_profiles_incrementally [to_dict p] (incremental w);
     trace := trace w |}.

(** The file after a write that raised. *)
Definition failed_write (reached : option string) (f : Checkpoint.file)
  : Checkpoint.file :=
  match reached with
  | None => f
  | Some text => Some (match f with Some old => old | None => EmptyString end ++ text)
  end.

Definition failed_save (reached : option string) (w : world) : world :=
  {| incremental := failed_write reached (incremental w); trace := trace w |}.

Definition str_of_nat (n : nat) : string := str_of_Z (Z.of_nat n).

(** [f"page {page_num}, candidate {candidate_num}" if page_num
     else f"candidate {candidate_num}"] *)
Definition resume_msg (page_num : Z) (candidate_num : nat) : string :=
  if (page_num =? 0)%Z
  then "candidate " ++ str_of_nat candidate_num
  else "page " ++ str_of_Z page_num ++ ", candidate " ++ str_of_nat candidate_num.

(** What a call can raise. *)
Inductive exn :=
| ValueError (msg : string)
| NavigationError               (* [page.goto] *)
| PlaywrightError.              (* a call of the driver outside any [try] *)

Inductive outcome (A : Type) :=
| Returned (a : A)
| Raised (e : exn).
Arguments Returned {A} a.
Arguments Raised {A} e.

(** The [while True] loop; [candidate_num] is the counter before its
    increment at the top of the body.  The calls of the body catch the
    errors of the driver themselves; a write to the checkpoint file that
    raises, after the record has joined [profiles], is caught by the
    [except Exception] clause around the loop, which ends the page. *)
Fixpoint candidate_loop
  (current_year : Z) (title_whitelist : Filters.whitelist) (page_num : Z)
  (c : candidate) (rest : list candidate)
  (candidate_num : nat) (profiles : list profile) (w : world)
  : list profile * world :=
  let candidate_num := S candidate_num in
  if crashed c then
    (profiles, emit (Crashed (List.length profiles) (resume_msg page_num candidate_num)) w)
  else
    let next_candidate (profiles : list profile) (w : world) :=
      match rest with
      | [] => (profiles, emit (PageDone candidate_num) w)
      | c' :: rest' =>
          candidate_loop current_year title_whitelist page_num c' rest'
                         candidate_num profiles w
      end in
    match _extract_from_open_panel current_year (open_panel c) title_whitelist with
    | Some profile_data =>
        let profiles := (profiles ++ [profile_data])%list in
        match checkpoint_write c with
        | Written =>
            next_candidate profiles (emit (Extracted candidate_num) (save profile_data w))
        | WriteRaises reached =>
            (profiles,
             emit (Unexpected (List.length profiles) (resume_msg page_num candidate_num))
                  (failed_save reached w))
        end
    | None => next_candidate profiles (emit (ExtractFailed candidate_num) w)
    end.

(** The traversal of one page.  An error of the driver at the lookup of the
    first link, at the calls on it or at the screenshot leaves the function
    as an exception. *)
Definition process_page_via_navigation
  (current_year : Z) (page : result_page)
  (title_whitelist : Filters.whitelist) (page_num : Z) (w : world)
  : outcome (list profile) * world :=
  match first_link page with
  | DriverError => (Raised PlaywrightError, w)
  | Value false => (Returned [], emit NoCandidateLinks w)
  | Value true =>
      match first_link_click page with
      | DriverError => (Raised PlaywrightError, w)
      | Value _ =>
          if negb (panel_opens page) then
            match screenshot page with
            | DriverError => (Raised PlaywrightError, emit PanelDidNotOpen w)
            | Value _ => (Returned [], emit PanelDidNotOpen w)
            end
          else
            let (profiles, w) :=
              candidate_loop current_year title_whitelist page_num
                             (first_candidate page) (more_candidates page) 0 [] w in
            (Returned profiles, w)
      end
  end.

End ProfileNavigation.

(* ================================================================== *)
(** ** search.py: the pagination engine *)
(* ================================================================== *)

Module Search.
Import PyStr PyDict ProfileNavigation.

(** *** The part of [urllib.parse] that builds the query *)

(** The six components [urlparse] gives and [urlunparse] takes. *)
Record ParseResult := {
  scheme : string;
  netloc : string;
  path : string;
  params : string;
  query : string;
  fragment : string
}.

(** [parse_qs] groups the pairs of [parse_qsl] by name. *)
Definition parse_qs (pairs : list (string * string)) : dict (list string) :=
  fold_left
    (fun (parsed_result : dict (list string)) (pair : string * string) =>
       let (name, value) := pair in
       match dict_get name parsed_result with
       | Some values => dict_set name (values ++ [value])%list parsed_result
       | None => dict_set name [value] parsed_result
       end)
    pairs [].

(** The characters [quote] never escapes: letters, digits and [_.-~]. *)
Definition always_safe (c : ascii) : bool :=
  is_upper c || is_lower c || is_digit c
  || mem_char c "_.-~".

Definition hex_upper (n : nat) : ascii :=
  if (n <? 10)%nat then ascii_of_nat (48 + n) else ascii_of_nat (55 + n).

Definition quote_plus_char (c : ascii) : string :=
  if always_safe c then String c EmptyString
  else if Ascii.eqb c " " then "+"
  else String "%" (String (hex_upper (code c / 16))
                     (String (hex_upper (code c mod 16)) EmptyString)).

(** [quote_plus(s)]: the bytes of the UTF-8 encoding, one by one. *)
Fixpoint quote_plus (s : string) : string :=
  match s with
  | EmptyString => EmptyString
  | String c s' => quote_plus_char c ++ quote_plus s'
  end.

(** The fields [urlencode(query, doseq=True)] joins with [&]. *)
Definition urlencode_fields (q : dict (list string)) : list string :=
  flat_map (fun kv => map (fun elt => quote_plus (fst kv) ++ "=" ++ quote_plus elt)
                          (snd kv))
           q.

Definition urlencode (q : dict (list string)) : string :=
  join "&" (urlencode_fields q).

(** *** The run *)

Record search_config := {
  saved_search_url : option string;
  start_page : option Z;
  max_pages : option Z
}.

(** The browser during one run: whether the first navigation succeeds, and
    the result page shown for each page number. *)
Record browser := {
  goto_ok : bool;
  result_pages : Z -> result_page
}.

Definition get {A : Type} (field : option A) (default : A) : A :=
  match field with
  | Some a => a
  | None => default
  end.

(** [clear_incremental_file()]; the removal of an existing file is taken to
    succeed. *)
Definition clear (w : world) : world :=
  {| incremental := Checkpoint.clear_incremental_file (incremental w);
     trace := (trace w ++ [ClearIncremental])%list |}.

Section RunSearch.

(** [urlparse], [parse_qsl] and [urlunparse] of [urllib.parse]; [urlparse]
    raises [ValueError] on a URL it rejects. *)
Variable urlparse : string -> outcome ParseResult.
Variable parse_qsl : string -> list (string * string).
Variable urlunparse : ParseResult -> string.

Variable current_year : Z.
Variable chrome : browser.
Variable title_whitelist : Filters.whitelist.

(** [query_params] after [query_params['start'] = [str(start_index)]]. *)
Definition start_params (parsed : ParseResult) (start_page : Z) : dict (list string) :=
  let start_index := ((start_page - 1) * 25)%Z in
  let query_params := parse_qs (parse_qsl (query parsed)) in
  dict_set "start" [str_of_Z start_index] query_params.

(** The URL of the first navigation. *)
Definition start_url (parsed : ParseResult) (start_page : Z) : string :=
  let new_query := urlencode (start_params parsed start_page) in
  urlunparse {| scheme := scheme parsed; netloc := netloc parsed;
                path := path parsed; params := params parsed;
                query := new_query; fragment := fragment parsed |}.

(** The [for page_num in range(start_page, max_pages + 1)] loop, with
    [remaining] page numbers left from [page_num] on.  What the traversal of
    a page raises is not caught. *)
Fixpoint page_loop (remaining : nat) (page_num : Z)
  (all_profiles : list profile) (last_page : Z) (w : world)
  : outcome (list profile * Z) * world :=
  match remaining with
  | O => (Returned (all_profiles, last_page), w)
  | S remaining =>
      let w := emit (PageStart page_num) w in
      let last_page := page_num in
      let page := result_pages chrome page_num in
      if negb (results_loaded page)
      then (Returned (all_profiles, last_page), emit NoResults w)
      else
        (* the call passes no page number: [page_num] takes its default, 0 *)
        match process_page_via_navigation current_year page title_whitelist 0 w with
        | (Raised e, w) => (Raised e, w)
        | (Returned profiles, w) =>
            let all_profiles := (all_profiles ++ profiles)%list in
            if negb (next_page page)
            then (Returned (all_profiles, last_page), emit NoMorePages w)
            else page_loop remaining (page_num + 1) all_profiles last_page w
        end
  end.

Definition run_search (config : search_config) (w : world)
  : outcome (list profile * Z) * world :=
  match saved_search_url config with
  | None => (Raised (ValueError "Provide saved_search_url in config.yaml"), w)
  | Some url =>
      if url =? "" then (Raised (ValueError "Provide saved_search_url in config.yaml"), w)
      else
        let start_page := get (start_page config) 1%Z in
        let max_pages := get (max_pages config) 10%Z in
        match urlparse url with
        | Raised e => (Raised e, w)
        | Returned parsed =>
            let w := emit (Navigate (start_url parsed start_page)) w in
            if negb (goto_ok chrome) then (Raised NavigationError, w)
            else
              let w := clear w in
              page_loop (Z.to_nat (max_pages + 1 - start_page)) start_page
                        [] start_page w
        end
  end.

End RunSearch.

End Search.

(* ================================================================== *)
(** ** Sample panels and pages *)
(* ================================================================== *)

Module Samples.
Import PyStr ProfileNavigation Search.

(** A panel with one education row. *)
Definition sample_panel (name title degree : string) (times : list string) : panel :=
  {| header := Value {| panel_name := name;
                        panel_title := title;
                        panel_company := "Acme";
                        panel_location := "Brooklyn, New York, United States" |};
     education := Value {| education_items :=
                             [ {| degree_el := Some degree;
                                  dates_times := Some times |} ];
                           show_more_button := false |};
     public_url := "https://www.linkedin.com/in/" ++ lower name |}.

Definition healthy_tab : tab :=
  {| page_title := Value "Recruiter Search | LinkedIn Talent Solutions";
     body_text := Value "Ada Bob Cy" |}.

Definition ada : candidate :=
  {| chrome_tab := healthy_tab;
     open_panel := sample_panel "Ada" "Software Engineer" "Bachelor of Science"
                                ["2011"; "2015"];
     checkpoint_write := Written |}.

Definition bob : candidate :=
  {| chrome_tab := healthy_tab;
     open_panel := sample_panel "Bob" "Data Engineer" "BS" ["2016"];
     checkpoint_write := Written |}.

Definition cy : candidate :=
  {| chrome_tab := healthy_tab;
     open_panel := sample_panel "Cy" "Engineer" "BA" ["2013"; "2017"];
     checkpoint_write := Written |}.

(** The tab shows the "Aw, Snap!" page when the candidate's turn comes. *)
Definition crash (c : candidate) : candidate :=
  {| chrome_tab := {| page_title := Value "Aw, Snap!"; body_text := Value "" |};
     open_panel := open_panel c;
     checkpoint_write := checkpoint_write c |}.

(** The write of the candidate's record raises before the file is opened. *)
Definition unsaved (c : candidate) : candidate :=
  {| chrome_tab := chrome_tab c;
     open_panel := open_panel c;
     checkpoint_write := WriteRaises None |}.

Definition ada_profile : profile :=
  {| full_name := "Ada";
     current_company := "Acme";
     current_title := "Software Engineer";
     linkedin_public_url := "https://www.linkedin.com/in/ada";
     location := "NYC";
     headline := "Software Engineer at Acme";
     bachelors_grad_year := Some 2015%Z;
     years_experience := Some 11%Z;
     recruiter_url := "";
     needs_review := false;
     review := "" |}.

(** A result page of three candidates where the tab crashes at the second. *)
Definition crash_page : result_page :=
  {| results_loaded := true;
     first_link := Value true;
     first_link_click := Value tt;
     panel_opens := true;
     screenshot := Value tt;
     first_candidate := ada;
     more_candidates := [crash bob; cy];
     next_page := false |}.

Definition quiet_page : result_page :=
  {| results_loaded := true;
     first_link := Value true;
     first_link_click := Value tt;
     panel_opens := true;
     screenshot := Value tt;
     first_candidate := ada;
     more_candidates := [bob];
     next_page := false |}.

(** A page with a next page, where the write of the second record raises. *)
Definition unsaved_page : result_page :=
  {| results_loaded := true;
     first_link := Value true;
     first_link_click := Value tt;
     panel_opens := true;
     screenshot := Value tt;
     first_candidate := ada;
     more_candidates := [unsaved bob; cy];
     next_page := true |}.

(** A page on which the click on the first link raises. *)
Definition stuck_page : result_page :=
  {| results_loaded := true;
     first_link := Value true;
     first_link_click := DriverError;
     panel_opens := true;
     screenshot := Value tt;
     first_candidate := ada;
     more_candidates := [bob];
     next_page := true |}.

(** A page whose tab has a title with "error" in it at the first
    candidate. *)
Definition error_title_page : result_page :=
  {| results_loaded := true;
     first_link := Value true;
     first_link_click := Value tt;
     panel_opens := true;
     screenshot := Value tt;
     first_candidate :=
       {| chrome_tab := {| page_title := Value "Error budget engineers | Recruiter";
                           body_text := Value "Ada" |};
          open_panel := open_panel ada;
          checkpoint_write := Written |};
     more_candidates := [bob];
     next_page := false |}.

Definition sample_url : string :=
  "https://www.linkedin.com/talent/search?searchContextId=abc&start=50".

(** What [urllib.parse] gives on the sample URL. *)
Definition sample_parsed : ParseResult :=
  {| scheme := "https";
     netloc := "www.linkedin.com";
     path := "/talent/search";
     params := "";
     query := "searchContextId=abc&start=50";
     fragment := "" |}.

Definition sample_urlparse (url : string) : outcome ParseResult :=
  Returned sample_parsed.

Definition sample_parse_qsl (qs : string) : list (string * string) :=
  [ ("searchContextId", "abc"); ("start", "50") ].

Definition sample_urlunparse (parts : ParseResult) : string :=
  scheme parts ++ "://" ++ netloc parts ++ path parts ++ "?" ++ query parts.

Definition sample_config (first_page : Z) : search_config :=
  {| saved_search_url := Some sample_url;
     start_page := Some first_page;
     max_pages := Some (first_page + 1)%Z |}.

Definition fresh : world := {| incremental := None; trace := [] |}.

(** The world an interrupted run leaves behind. *)
Definition interrupted : world :=
  {| incremental :=
       Checkpoint._save_profiles_incrementally [to_dict ada_profile] None;
     trace := [] |}.

(** U+2028 LINE SEPARATOR. *)
Definition line_separator : string := Json.utf8 8232.

(** A profile whose name holds a line separator between two words. *)
Definition split_name_profile : profile :=
  {| full_name := "Ada" ++ line_separator ++ "Lovelace";
     current_company := "Acme";
     current_title := "Software Engineer";
     linkedin_public_url := "https://www.linkedin.com/in/ada";
     location := "NYC";
     headline := "Software Engineer at Acme";
     bachelors_grad_year := Some 2015%Z;
     years_experience := Some 11%Z;
     recruiter_url := "";
     needs_review := false;
     review := "" |}.

(** The panel of a candidate whose name element holds that text. *)
Definition split_name_panel : panel :=
  {| header := Value {| panel_name := "Ada" ++ line_separator ++ "Lovelace";
                        panel_title := "Software Engineer";
                        panel_company := "Acme";
                        panel_location := "Brooklyn, New York, United States" |};
     education := Value {| education_items :=
                             [ {| degree_el := Some "Bachelor of Science";
                                  dates_times := Some ["2011"; "2015"] |} ];
                           show_more_button := false |};
     public_url := "https://www.linkedin.com/in/ada" |}.

End Samples.

(* ================================================================== *)
(** ** What a traversal gets to *)
(* ================================================================== *)

Module Visits.
Import Checkpoint ProfileNavigation Search.

Section Page.
Variable current_year : Z.
Variable title_whitelist : Filters.whitelist.

Definition extracted (c : candidate) : option profile :=
  _extract_from_open_panel current_year (open_panel c) title_whitelist.

(** The write of the candidate's record raises. *)
Definition write_raises (c : candidate) : bool :=
  match extracted c, checkpoint_write c with
  | Some _, WriteRaises _ => true
  | _, _ => false
  end.

(** The candidates the traversal gets to: those before the first one at
    which the tab has crashed, and none after one whose record could not be
    written. *)
Fixpoint visited (cs : list candidate) : list candidate :=
  match cs with
  | [] => []
  | c :: cs' =>
      if crashed c then []
      else if write_raises c then [c]
      else c :: visited cs'
  end.

(** The records of the candidates, in order; a candidate the extractor
    drops gives none. *)
Definition records_of (cs : list candidate) : list profile :=
  flat_map (fun c => match extracted c with
                     | Some p => [p]
                     | None => []
                     end) cs.

(** The checkpoint file after the writes for the candidates. *)
Definition written (cs : list candidate) (f : file) : file :=
  fold_left
    (fun f c =>
       match extracted c with
       | Some p =>
           match checkpoint_write c with
           | Written => _save_profiles_incrementally [to_dict p] f
           | WriteRaises reached => failed_write reached f
           end
       | None => f
       end) cs f.

Definition candidates (page : result_page) : list candidate :=
  first_candidate page :: more_candidates page.

(** The panel of the first candidate opens. *)
Definition panel_reached (page : result_page) : bool :=
  match first_link page, first_link_click page with
  | Value true, Value _ => panel_opens page
  | _, _ => false
  end.

(** The traversal of the page raises. *)
Definition page_raises (page : result_page) : bool :=
  match first_link page with
  | DriverError => true
  | Value false => false
  | Value true =>
      match first_link_click page with
      | DriverError => true
      | Value _ =>
          if panel_opens page then false
          else match screenshot page with
               | DriverError => true
               | Value _ => false
               end
      end
  end.

Definition page_records (page : result_page) : list profile :=
  if panel_reached page then records_of (visited (candidates page)) else [].

Definition page_written (page : result_page) (f : file) : file :=
  if panel_reached page then written (visited (candidates page)) f else f.

(** The same for a page the run has started: nothing when its result cards
    do not load. *)
Definition started_page_raises (page : result_page) : bool :=
  results_loaded page && page_raises page.

Definition started_page_records (page : result_page) : list profile :=
  if results_loaded page then page_records page else [].

Definition started_page_written (page : result_page) (f : file) : file :=
  if results_loaded page then page_written page f else f.

(** After this page the run goes on to the next one. *)
Definition goes_on (page : result_page) : bool :=
  results_loaded page && negb (page_raises page) && next_page page.

(** The pages a run starts, with [remaining] page numbers left from
    [page_num] on. *)
Fixpoint pages_started (chrome : browser) (remaining : nat) (page_num : Z) : list Z :=
  match remaining with
  | O => []
  | S remaining =>
      page_num :: (if goes_on (result_pages chrome page_num)
                   then pages_started chrome remaining (page_num + 1)
                   else [])
  end.

End Page.

(** The page numbers of the [PageStart] events of a log. *)
Fixpoint page_starts (evs : list event) : list Z :=
  match evs with
  | [] => []
  | PageStart n :: evs' => n :: page_starts evs'
  | _ :: evs' => page_starts evs'
  end.

(** [n] page numbers in a row from [first] on. *)
Fixpoint consecutive (first : Z) (n : nat) : list Z :=
  match n with
  | O => []
  | S n' => first :: consecutive (first + 1) n'
  end.

End Visits.

(* ================================================================== *)
(** ** The log along a run *)
(* ================================================================== *)

Module Progress.
Import ProfileNavigation Visits.

(** From [w] to [w'] the log grows by page events, and the pages started
    on the way are [pages]. *)
Definition logs (w w' : world) (pages : list Z) : Prop :=
  exists evs,
    trace w' = (trace w ++ evs)%list
    /\ forallb page_event evs = true
    /\ page_starts evs = pages.

End Progress.

(* ================================================================== *)
(** ** filters.py: the graduation-year filter *)
(* ================================================================== *)

Module RecordFilters.
Import PyStr ProfileNavigation.

(** The [filters] section of the configuration; [None] is a missing key. *)
Record filter_config := {
  bachelors_grad_year_min : option Z;
  bachelors_grad_year_max : option Z;
  no_bachelors_action : option string
}.

(** Truth value of a year bound: a missing bound and 0 are false. *)
Definition bound_set (bound : option Z) : bool :=
  match bound with
  | Some y => negb (y =? 0)%Z
  | None => false
  end.

Definition get_bound (bound : option Z) : Z :=
  match bound with
  | Some y => y
  | None => 0%Z
  end.

(** [p["needs_review"] = True] *)
Definition flagged (p : profile) : profile :=
  {| full_name := full_name p;
     current_company := current_company p;
     current_title := current_title p;
     linkedin_public_url := linkedin_public_url p;
     location := location p;
     headline := headline p;
     bachelors_grad_year := bachelors_grad_year p;
     years_experience := years_experience p;
     recruiter_url := recruiter_url p;
     needs_review := true;
     review := review p |}.

(** One turn of the loop: what is appended to [filtered] for [p]. *)
Definition kept (config : filter_config) (p : profile) : list profile :=
  let min_year := bachelors_grad_year_min config in
  let max_year := bachelors_grad_year_max config in
  let action := match no_bachelors_action config with
                | Some a => a
                | None => "skip"
                end in
  match bachelors_grad_year p with
  | None =>
      if action =? "include" then [p]
      else if action =? "flag" then [flagged p]
      else []
  | Some grad_year =>
      if bound_set min_year && (grad_year <? get_bound min_year)%Z then []
      else if bound_set max_year && (get_bound max_year <? grad_year)%Z then []
      else [p]
  end.

Definition apply_filters (profiles : list profile) (config : filter_config)
  : list profile :=
  if negb (bound_set (bachelors_grad_year_min config))
     && negb (bound_set (bachelors_grad_year_max config))
  then profiles
  else flat_map (kept config) profiles.

End RecordFilters.

(* ================================================================== *)
(** ** gui_app.py: the configuration of a run started from the window *)
(* ================================================================== *)

Module GuiApp.
Import RecordFilters.

(** [cfg["filters"]] *)
Definition gui_filters : filter_config :=
  {| bachelors_grad_year_min := Some 2010%Z;
     bachelors_grad_year_max := Some 2024%Z;
     no_bachelors_action := Some "flag" |}.

End GuiApp.

(* ================================================================== *)
(** ** profile_navigation.py: the public profile URL *)
(* ================================================================== *)

Module PublicUrl.
Import PyStr ProfileNavigation.

(** [[\w-]], with the word characters of ASCII: a letter outside ASCII,
    which [\w] matches as well, ends the handle here. *)
Definition handle_char (c : ascii) : bool := is_word c || Ascii.eqb c "-".

Fixpoint take_while (p : ascii -> bool) (s : string) : string :=
  match s with
  | EmptyString => EmptyString
  | String c s' => if p c then String c (take_while p s') else EmptyString
  end.

(** One attempt of [linkedin\.com/in/([\w-]+)] at the head of [s]: what
    the group captures. *)
Definition handle_here (s : string) : option string :=
  match Json.drop_prefix "linkedin.com/in/" s with
  | Some rest =>
      match take_while handle_char rest with
      | EmptyString => None
      | String c h => Some (String c h)
      end
  | None => None
  end.

(** [re.search(r'linkedin\.com/in/([\w-]+)', url)]: group 1 of the
    leftmost match. *)
Fixpoint search_handle (s : string) : option string :=
  match handle_here s with
  | Some h => Some h
  | None =>
      match s with
      | EmptyString => None
      | String _ s' => search_handle s'
      end
  end.

Definition _normalize_url (url : string) : string :=
  match search_handle url with
  | Some h => "https://www.linkedin.com/in/" ++ h
  | None => url
  end.

(** What the calls of [_get_public_url_from_panel] meet in the panel. *)
Record url_panel := {
  public_button : driver bool;            (* the "Public profile" button is found *)
  button_click : driver unit;
  profile_link : driver bool;             (* the link of the popover is found *)
  link_href : driver (option string);     (* its [href] attribute *)
  escape_key : driver unit;               (* [keyboard.press("Escape")] *)
  scanned_href : driver (option string)   (* the first [/in/] link of the page *)
}.

(** Truth value of an optional string: [None] and the empty string are
    false. *)
Definition given (url : option string) : bool :=
  match url with
  | Some u => nonempty u
  | None => false
  end.

Definition text_of (url : option string) : string :=
  match url with
  | Some u => u
  | None => EmptyString
  end.

(** The fallback: scan the page for [/in/] links. *)
Definition scan_links (page : url_panel) : string :=
  match scanned_href page with
  | DriverError => EmptyString
  | Value url => if given url then _normalize_url (text_of url) else EmptyString
  end.

Definition _get_public_url_from_panel (page : url_panel) : string :=
  match public_button page with
  | DriverError => EmptyString
  | Value false => scan_links page
  | Value true =>
      match button_click page with
      | DriverError => EmptyString
      | Value _ =>
          match profile_link page with
          | DriverError => EmptyString
          | Value true =>
              match link_href page with
              | DriverError => EmptyString
              | Value url =>
                  match escape_key page with
                  | DriverError => EmptyString
                  | Value _ =>
                      if given url then _normalize_url (text_of url)
                      else scan_links page
                  end
              end
          | Value false =>
              match escape_key page with
              | DriverError => EmptyString
              | Value _ => scan_links page
              end
          end
      end
  end.

End PublicUrl.

(* ================================================================== *)
(** ** filters.py: loading the title whitelist *)
(* ================================================================== *)

Module TitleWhitelist.
Import PyStr.

Definition opener (c : ascii) : bool := Ascii.eqb c "(" || Ascii.eqb c "[".
Definition closer (c : ascii) : bool := Ascii.eqb c ")" || Ascii.eqb c "]".

(** The lazy run of characters and the closing bracket of the pattern: how many
    characters there are up to the first closing bracket, that one counted;
    none when a line feed, which the dot does not match, comes first. *)
Fixpoint to_closer (s : string) : option nat :=
  match s with
  | EmptyString => None
  | String c s' =>
      if closer c then Some 1
      else if (code c =? 10)%nat then None
      else option_map S (to_closer s')
  end.

(** Length of the match of the pattern at the head of [s], or 0: white
    space, an opening bracket, then up to the first closing bracket. *)
Fixpoint group_length (s : string) : nat :=
  match s with
  | EmptyString => 0
  | String c s' =>
      if is_space c then
        match group_length s' with
        | O => 0
        | S k => S (S k)
        end
      else if opener c then
        match to_closer s' with
        | Some k => S k
        | None => 0
        end
      else 0
  end.

(** [re.sub(pattern, '', line)] for that pattern: every match, from left to
    right, is left out ([skip] counts the characters of the current match
    still to be passed). *)
Fixpoint sub_groups (skip : nat) (s : string) : string :=
  match s with
  | EmptyString => EmptyString
  | String c s' =>
      match skip with
      | S k => sub_groups k s'
      | O =>
          match group_length s with
          | S k => sub_groups k s'
          | O => String c (sub_groups 0 s')
          end
      end
  end.

(** [phrases.add(x)], the set kept in the order of first insertion. *)
Definition set_add (x : string) (phrases : list string) : list string :=
  if existsb (String.eqb x) phrases then phrases else (phrases ++ [x])%list.

(** One line of the file. *)
Definition add_line (phrases : list string) (line : string) : list string :=
  let cleaned := strip (sub_groups 0 line) in
  if negb (cleaned =? "") then set_add (lower cleaned) phrases else phrases.

(** [file] is the text of [job_titles_whitelist.txt], or [None] when the
    file does not exist. *)
Definition load_title_whitelist (file : option string) : Filters.whitelist :=
  match file with
  | None => None
  | Some text => Some (fold_left add_line (Checkpoint.splitlines text) [])
  end.

End TitleWhitelist.

(* ================================================================== *)
(** ** Records as lines of the checkpoint file *)
(* ================================================================== *)

Module JsonLines.
Import PyStr Json.

(** No line boundary of [str.splitlines] starts anywhere in [s]. *)
Fixpoint boundary_free (s : string) : bool :=
  match s with
  | EmptyString => true
  | String _ s' => (Checkpoint.line_boundary s =? 0)%nat && boundary_free s'
  end.

(** The values of a record: [None], a truth value, an integer or a
    string. *)
Definition scalar (v : value) : bool :=
  match v with
  | JNull | JBool _ | JInt _ | JStr _ => true
  | JFloat _ | JArr _ | JObj _ => false
  end.

Fixpoint distinct (keys : list string) : bool :=
  match keys with
  | [] => true
  | k :: keys' => negb (existsb (String.eqb k) keys') && distinct keys'
  end.

(** A dictionary whose values are scalars. *)
Definition flat_object (v : value) : bool :=
  match v with
  | JObj members => distinct (map fst members) && forallb scalar (map snd members)
  | _ => false
  end.

(** What the scanner reads an escaped character back as. *)
Definition item_of (c : ascii) : str_item :=
  let n := code c in
  if (n <? 32)%nat
     && negb ((n =? 8)%nat || (n =? 9)%nat || (n =? 10)%nat
              || (n =? 12)%nat || (n =? 13)%nat)
  then Esc (N.of_nat n)
  else Chr c.

(** The value of a string of decimal digits read after [acc]. *)
Fixpoint digits_value (acc : Z) (s : string) : Z :=
  match s with
  | EmptyString => acc
  | String c s' => digits_value (10 * acc + Z.of_nat (code c - 48))%Z s'
  end.

(** What follows a value inside a dictionary the encoder wrote: the comma
    before the next key or the closing brace (or nothing). *)
Definition closes (rest : string) : bool :=
  match rest with
  | EmptyString => true
  | String c _ => Ascii.eqb c "," || Ascii.eqb c "}"
  end.

(** One [key: value] pair as the encoder writes it. *)
Definition member_text (kv : string * value) : string :=
  encode_str (fst kv) ++ ": " ++ dumps (snd kv).

(** What the encoder writes after a pair: the remaining pairs, the closing
    brace, and [tail]. *)
Fixpoint after_members (members : list (string * value)) (tail : string) : string :=
  match members with
  | [] => "}" ++ tail
  | m :: members' => ", " ++ member_text m ++ after_members members' tail
  end.

(** The lines [_save_profiles_incrementally] writes for [records]. *)
Fixpoint lines_text (records : list value) : string :=
  match records with
  | [] => EmptyString
  | r :: records' => dumps r ++ Checkpoint.newline ++ lines_text records'
  end.

(** The file after the records of each page have been appended in turn. *)
Definition save_pages (pages : list (list value)) (f : Checkpoint.file)
  : Checkpoint.file :=
  fold_left (fun f page => Checkpoint._save_profiles_incrementally page f) pages f.

(** [P] holds of every character of [s]. *)
Definition all_chars (P : ascii -> bool) (s : string) : bool :=
  forallb P (list_ascii_of_string s).

(** No character of [s] is a control character (below U+0020). *)
Definition no_control : string -> bool :=
  all_chars (fun c => (32 <=? code c)%nat).

(** Every character of [s] is an ASCII character. *)
Definition ascii_text : string -> bool :=
  all_chars (fun c => (code c <=? 127)%nat).

(** The strings of a dictionary of scalars: its keys and its string
    values. *)
Definition strings_of (v : value) : list string :=
  match v with
  | JObj members =>
      flat_map (fun kv => fst kv :: match snd kv with JStr s => [s] | _ => [] end)
               members
  | _ => []
  end.

End JsonLines.

(* ================================================================== *)
(** ** export.py: the push to Airtable *)
(* ================================================================== *)

Module AirtableExport.
Import PyStr PyDict Json.

(** The [airtable] section of the configuration; [None] is a missing key. *)
Record airtable_config := {
  base_id : option string;
  table_name : option string;
  field_map : option (dict string);
  merge_field : option string
}.

(** A value of a field sent to Airtable: the value of the record as it is,
    or [str(val)]. *)
Inductive cell :=
| AsIs (val : value)
| AsText (val : value).

(** [isinstance(val, (int, float))]; a truth value is an [int]. *)
Definition is_number (val : value) : bool :=
  match val with
  | JInt _ | JFloat _ | JBool _ => true
  | _ => false
  end.

(** [val is not None and val != ""] *)
Definition sendable (val : value) : bool :=
  match val with
  | JNull => false
  | JStr s => negb (s =? "")
  | _ => true
  end.

(** [p.get(key)] *)
Definition record_get (p : dict value) (key : string) : value :=
  match dict_get key p with
  | Some val => val
  | None => JNull
  end.

(** The inner loop: the fields of one record. *)
Definition fields_of (field_map : dict string) (p : dict value) : dict cell :=
  fold_left
    (fun fields item =>
       let val := record_get p (fst item) in
       if sendable val
       then dict_set (snd item) (if is_number val then AsIs val else AsText val) fields
       else fields)
    field_map [].

(** The outer loop: a record without fields is left out. *)
Definition build_records (field_map : dict string) (profiles : list (dict value))
  : list (dict cell) :=
  flat_map (fun p => match fields_of field_map p with
                     | [] => []
                     | fields => [fields]
                     end) profiles.

Definition batch_size : nat := 10.

(** [range(0, n, batch_size)] *)
Definition batch_starts (n : nat) : list nat :=
  map (fun k => k * batch_size) (seq 0 ((n + (batch_size - 1)) / batch_size)).

(** One call of [table.batch_upsert] and whether it returned or raised. *)
Record call := {
  number : nat;                       (* [i // batch_size + 1], as logged *)
  batch : list (dict cell);
  key_fields : list string;
  returned : bool
}.

Inductive error :=
| ValueError (msg : string)
| KeyError (key : string).

(** [service k] tells whether the call number [k] (from 0) of
    [table.batch_upsert] returns. *)
Definition push_to_airtable (api_key : option string) (service : nat -> bool)
  (profiles : list (dict value)) (config : airtable_config)
  : error + list call :=
  match api_key with
  | None | Some EmptyString => inl (ValueError "Set AIRTABLE_API_KEY in .env")
  | Some _ =>
      match base_id config, table_name config with
      | None, _ => inl (KeyError "base_id")
      | Some _, None => inl (KeyError "table_name")
      | Some _, Some _ =>
          let field_map := match field_map config with Some m => m | None => [] end in
          let merge_field :=
            match merge_field config with Some f => f | None => "LinkedIn URL" end in
          let records := build_records field_map profiles in
          inr (map (fun i =>
                      {| number := i / batch_size + 1;
                         batch := firstn batch_size (skipn i records);
                         key_fields := [merge_field];
                         returned := service (i / batch_size) |})
                   (batch_starts (List.length records)))
      end
  end.

End AirtableExport.

(* ================================================================== *)
(** ** gui_app.py: starting a run from the window *)
(* ================================================================== *)

Module GuiStart.
Import PyStr Search RecordFilters GuiApp.

(** [_on_start]: the configuration the window starts a run with, or [None]
    when it shows an error box instead.  [url_var] is the text of the URL
    field, [pg_start] and [pg_end] the numbers of the two spin boxes. *)
Definition _on_start (url_var : string) (pg_start pg_end : Z)
  : option (search_config * filter_config) :=
  let url := strip url_var in
  if negb (ProfileNavigation.nonempty url) || negb (contains "linkedin.com" url)
  then None
  else
    let s := pg_start in
    let e := pg_end in
    if (e <? s)%Z then None
    else Some ({| saved_search_url := Some url;
                  start_page := Some s;
                  max_pages := Some e |},
               gui_filters).

End GuiStart.

(* ================================================================== *)
(** * Properties *)
(* ================================================================== *)

(** ** The JSON decoder always answers *)

Section JsonDecoder.
Import PyStr Json.

Lemma lstrip_by_length (drop : ascii -> bool) (s : string) :
  length (lstrip_by drop s) <= length s.
Proof.
  induction s as [|c s IH]; cbn; [lia|]. destruct (drop c); cbn; lia.
Qed.

Lemma skip_ws_cons (s : string) (c : ascii) (rest : string) :
  skip_ws s = String c rest -> length rest < length s.
Proof.
  intros H. pose proof (lstrip_by_length is_ws s) as Hle.
  unfold skip_ws in H. rewrite H in Hle. cbn in Hle. lia.
Qed.

Lemma scan_str_items_length (n : nat) :
  forall s items rest,
    length s <= n -> scan_str_items s = Some (items, rest) ->
    length rest < length s.
Proof.
  induction n as [|n IH]; intros s items rest Hn.
  - destruct s; [discriminate | cbn in Hn; lia].
  - destruct s as [|c s]; [discriminate|]. cbn [scan_str_items length] in *.
    destruct (Ascii.eqb c dquote); [intros [= <- <-]; lia|].
    destruct (Ascii.eqb c backslash).
    + destruct s as [|e s]; [discriminate|]. cbn [length] in *.
      destruct (Ascii.eqb e "u").
      * destruct s as [|h1 [|h2 [|h3 [|h4 s]]]]; try discriminate.
        cbn [length] in *.
        destruct (hex4 h1 h2 h3 h4); [|discriminate].
        destruct (scan_str_items s) as [[items' rest']|] eqn:E; [|discriminate].
        intros [= <- <-]. apply IH in E; lia.
      * destruct (simple_escape e); [|discriminate].
        destruct (scan_str_items s) as [[items' rest']|] eqn:E; [|discriminate].
        intros [= <- <-]. apply IH in E; lia.
    + destruct (code c <? 32)%nat; [discriminate|].
      destruct (scan_str_items s) as [[items' rest']|] eqn:E; [|discriminate].
      intros [= <- <-]. apply IH in E; lia.
Qed.

Lemma scanstring_length (s str rest : string) :
  scanstring s = Some (str, rest) -> length rest < length s.
Proof.
  unfold scanstring.
  destruct (scan_str_items s) as [[items rest']|] eqn:E; [|discriminate].
  intros [= <- <-]. eapply scan_str_items_length; [reflexivity | exact E].
Qed.

Lemma digits_length (s : string) : length (snd (digits s)) <= length s.
Proof.
  induction s as [|c s IH]; cbn [digits]; [cbn; lia|].
  destruct (is_digit c); [|cbn; lia].
  destruct (digits s) as [d rest]. cbn [snd length] in *. lia.
Qed.

Lemma scan_sign_length (s : string) : length (snd (scan_sign s)) <= length s.
Proof.
  destruct s as [|c s]; cbn; [lia|]. destruct (Ascii.eqb c "-"); cbn; lia.
Qed.

Lemma scan_int_length (s ip rest : string) :
  scan_int s = Some (ip, rest) -> length rest < length s.
Proof.
  destruct s as [|c s]; [discriminate|]. unfold scan_int.
  destruct (Ascii.eqb c "0"); [intros [= <- <-]; cbn; lia|].
  destruct (is_digit c) eqn:Hd; [|discriminate].
  cbn [digits]. rewrite Hd. pose proof (digits_length s) as Hle.
  destruct (digits s) as [d r]. intros [= <- <-]. cbn [snd length] in *. lia.
Qed.

Lemma scan_frac_length (s : string) : length (snd (scan_frac s)) <= length s.
Proof.
  destruct s as [|c s]; cbn [scan_frac]; [cbn; lia|].
  destruct (Ascii.eqb c "."); [|cbn; lia].
  pose proof (digits_length s) as Hle.
  destruct (digits s) as [[|d0 d] r]; cbn [snd length] in *; lia.
Qed.

Lemma scan_exp_length (s : string) : length (snd (scan_exp s)) <= length s.
Proof.
  destruct s as [|c s]; cbn [scan_exp]; [cbn; lia|].
  destruct (Ascii.eqb c "e" || Ascii.eqb c "E"); [|cbn; lia].
  destruct s as [|g t].
  - cbn. lia.
  - destruct (Ascii.eqb g "-" || Ascii.eqb g "+").
    + pose proof (digits_length t) as Hle.
      destruct (digits t) as [[|d0 d] r]; cbn [snd length] in *; lia.
    + pose proof (digits_length (String g t)) as Hle.
      destruct (digits (String g t)) as [[|d0 d] r]; cbn [snd length] in *; lia.
Qed.

Lemma scan_number_length (s : string) (v : value) (rest : string) :
  scan_number s = Some (v, rest) -> length rest < length s.
Proof.
  unfold scan_number.
  pose proof (scan_sign_length s) as H1.
  destruct (scan_sign s) as [sign s1]. cbn [snd] in H1.
  destruct (scan_int s1) as [[ip s2]|] eqn:E; [|discriminate].
  apply scan_int_length in E.
  pose proof (scan_frac_length s2) as H3.
  destruct (scan_frac s2) as [frac s3]. cbn [snd] in H3.
  pose proof (scan_exp_length s3) as H4.
  destruct (scan_exp s3) as [expo s4]. cbn [snd] in H4.
  destruct frac, expo; intros [= <- <-]; lia.
Qed.

Lemma drop_prefix_length (p : string) :
  forall s r, drop_prefix p s = Some r -> length s = length p + length r.
Proof.
  induction p as [|a p IH]; intros s r; cbn [drop_prefix].
  - intros [= <-]. reflexivity.
  - destruct s as [|b s]; [discriminate|].
    destruct (Ascii.eqb a b); [|discriminate].
    intros H. apply IH in H. cbn [length]. lia.
Qed.

Lemma keyword_length (s : string) (v : value) (rest : string) :
  keyword s = Some (v, rest) -> length rest < length s.
Proof.
  unfold keyword.
  repeat match goal with
         | |- context [drop_prefix ?p s] =>
             let E := fresh "E" in
             destruct (drop_prefix p s) eqn:E;
             [apply drop_prefix_length in E; cbn [length] in E;
              intros [= <- <-]; lia|]
         end.
  discriminate.
Qed.

Lemma scan_answers (fuel : nat) :
  (forall s, 2 * length s < fuel -> answers s (scan_once fuel s))
  /\ (forall acc s, 2 * length s < fuel -> answers s (scan_members fuel acc s))
  /\ (forall acc s, 2 * length s + 1 < fuel -> answers s (scan_items fuel acc s)).
Proof.
  induction fuel as [|fuel (IHonce & IHmembers & IHitems)];
    [repeat split; intros; lia|].
  repeat split.
  - intros [|c s] Hfuel; cbn [scan_once]; [exact I|]. cbn [length] in Hfuel.
    destruct (Ascii.eqb c dquote).
    { destruct (scanstring s) as [[str rest]|] eqn:E; [|exact I].
      apply scanstring_length in E. cbn. lia. }
    destruct (Ascii.eqb c "{").
    { destruct (skip_ws s) as [|d rest] eqn:E; [exact I|].
      pose proof (skip_ws_cons _ _ _ E) as Hlt.
      destruct (Ascii.eqb d "}"); [cbn; lia|].
      specialize (IHmembers [] (String d rest)).
      destruct (scan_members fuel [] (String d rest));
        cbn [answers length] in *; try lia; exact I. }
    destruct (Ascii.eqb c "[").
    { destruct (skip_ws s) as [|d rest] eqn:E; [exact I|].
      pose proof (skip_ws_cons _ _ _ E) as Hlt.
      destruct (Ascii.eqb d "]"); [cbn; lia|].
      specialize (IHitems [] (String d rest)).
      destruct (scan_items fuel [] (String d rest));
        cbn [answers length] in *; try lia; exact I. }
    destruct (keyword (String c s)) as [[v rest]|] eqn:Ek.
    { apply keyword_length in Ek. exact Ek. }
    destruct (scan_number (String c s)) as [[v rest]|] eqn:En; [|exact I].
    apply scan_number_length in En. exact En.
  - intros acc [|q s] Hfuel; cbn [scan_members]; [exact I|].
    cbn [length] in Hfuel.
    destruct (Ascii.eqb q dquote); cbn [negb]; [|exact I].
    destruct (scanstring s) as [[key r1]|] eqn:E1; [|exact I].
    apply scanstring_length in E1.
    destruct (skip_ws r1) as [|colon r2] eqn:E2; [exact I|].
    apply skip_ws_cons in E2.
    destruct (Ascii.eqb colon ":"); cbn [negb]; [|exact I].
    pose proof (lstrip_by_length is_ws r2) as Hr2. fold (skip_ws r2) in Hr2.
    specialize (IHonce (skip_ws r2)).
    destruct (scan_once fuel (skip_ws r2)) as [v r3| |];
      cbn [answers] in IHonce; [|exact I|lia].
    assert (Hr3 : length r3 < length (skip_ws r2)) by (apply IHonce; lia).
    destruct (skip_ws r3) as [|d r4] eqn:E4; [exact I|].
    apply skip_ws_cons in E4.
    destruct (Ascii.eqb d "}"); [cbn; lia|].
    destruct (Ascii.eqb d ","); [|exact I].
    pose proof (lstrip_by_length is_ws r4) as Hr4. fold (skip_ws r4) in Hr4.
    specialize (IHmembers (PyDict.dict_set key v acc) (skip_ws r4)).
    destruct (scan_members fuel (PyDict.dict_set key v acc) (skip_ws r4));
      cbn [answers length] in *; try lia; exact I.
  - intros acc s Hfuel; cbn [scan_items].
    specialize (IHonce s).
    destruct (scan_once fuel s) as [v r1| |];
      cbn [answers] in IHonce; [|exact I|lia].
    assert (Hr1 : length r1 < length s) by (apply IHonce; lia).
    destruct (skip_ws r1) as [|d r2] eqn:E2; [exact I|].
    apply skip_ws_cons in E2.
    destruct (Ascii.eqb d "]"); [cbn; lia|].
    destruct (Ascii.eqb d ","); [|exact I].
    pose proof (lstrip_by_length is_ws r2) as Hr2. fold (skip_ws r2) in Hr2.
    specialize (IHitems (acc ++ [v])%list (skip_ws r2)).
    destruct (scan_items fuel (acc ++ [v])%list (skip_ws r2));
      cbn [answers length] in *; try lia; exact I.
Qed.

(** [loads] reads a value or reports malformed text; its fuel never runs
    out. *)
Lemma loads_answers (s : string) : loads s <> OutOfFuel.
Proof.
  unfold loads.
  pose proof (lstrip_by_length is_ws s) as Hle. fold (skip_ws s) in Hle.
  pose proof (proj1 (scan_answers (2 * length s + 2)) (skip_ws s)) as H.
  destruct (scan_once (2 * length s + 2) (skip_ws s)) as [v rest| |].
  - destruct (skip_ws rest); discriminate.
  - discriminate.
  - cbn [answers] in H. exfalso. apply H. lia.
Qed.

End JsonDecoder.

(** ** The degree/year parser *)

Section DegreeParser.
Import PyStr Profile.

Lemma existsb_false_iff {A : Type} (f : A -> bool) (l : list A) :
  existsb f l = false <-> forall x, In x l -> f x = false.
Proof.
  induction l as [|a l IH]; simpl.
  - split; [intros _ x [] | reflexivity].
  - rewrite orb_false_iff, IH. split.
    + intros [Ha Hl] x [<-|Hx]; auto.
    + intros H. split; [apply H; now left | intros x Hx; apply H; now right].
Qed.

(** What [re.findall] hands back for the year pattern is what the group
    [(19|20)] captured: a century, never a year. *)
Lemma year_re_match_century prev s g :
  year_re_match prev s = Some g -> g = "19" \/ g = "20".
Proof.
  unfold year_re_match.
  destruct s as [|a [|b [|c [|d rest]]]]; try discriminate.
  match goal with |- (if ?cond then _ else _) = _ -> _ => destruct cond eqn:E end;
    [|discriminate].
  intros [= <-].
  do 3 (apply andb_true_iff in E; destruct E as [E _]).
  apply andb_true_iff in E. destruct E as [_ E].
  apply orb_true_iff in E.
  destruct E as [E|E]; apply String.eqb_eq in E; auto.
Qed.

Lemma findall_year_re_century s : forall prev skip,
  Forall (fun g => g = "19" \/ g = "20") (findall_year_re prev skip s).
Proof.
  induction s as [|c s IH]; intros prev skip; cbn [findall_year_re].
  - constructor.
  - destruct skip as [|k]; [|apply IH].
    destruct (year_re_match prev (String c s)) as [g|] eqn:E; [|apply IH].
    constructor; [eapply year_re_match_century; eassumption | apply IH].
Qed.

(** Whatever the text, a year the parser reports is 19 or 20. *)
Lemma parse_year_is_century text y :
  _parse_bachelors_year_from_text text = Some y -> y = 19%Z \/ y = 20%Z.
Proof.
  unfold _parse_bachelors_year_from_text.
  destruct (text =? ""); [discriminate|].
  destruct (existsb _ skip_patterns); [discriminate|].
  destruct (negb _); [discriminate|].
  pose proof (findall_year_re_century text None 0) as Hall.
  destruct (findall_year_re None 0 text) as [|g gs] eqn:E; [discriminate|].
  intros [= <-].
  assert (Hlast : In (last (g :: gs) "") (g :: gs)).
  { clear. revert g. induction gs as [|h gs IH]; intros g.
    - now left.
    - right. apply (IH h). }
  rewrite Forall_forall in Hall.
  change (int_of_digits (last (g :: gs) "") = 19%Z
          \/ int_of_digits (last (g :: gs) "") = 20%Z).
  destruct (Hall _ Hlast) as [-> | ->]; [now left | now right].
Qed.

(** C1.  On the first example of the parser's own docstring, a bachelor's
    entry with the range 2012 to 2017, the parser returns 20: the century
    captured by the group of the year pattern, not the year 2017 the
    docstring and the specification give. *)
Theorem parse_year_docstring_example :
  _parse_bachelors_year_from_text
    "Drexel University, Bachelor of Science (BS) · 2012 – 2017" = Some 20%Z.
Proof. vm_compute. reflexivity. Qed.

(** The same on a single year. *)
Example parse_year_single :
  _parse_bachelors_year_from_text
    "National Institute of Technology Rourkela, Bachelors · 2017" = Some 20%Z.
Proof. vm_compute. reflexivity. Qed.

(** C9.  A text whose lowercased form contains one of the disqualifying
    substrings is given no year, whatever else it contains. *)
Theorem disqualified_text_has_no_year (text skip : string) :
  In skip skip_patterns ->
  contains skip (lower text) = true ->
  _parse_bachelors_year_from_text text = None.
Proof.
  intros Hin Hsub. unfold _parse_bachelors_year_from_text.
  destruct (text =? ""); [reflexivity|].
  assert (H : existsb (fun skip => contains skip (lower text)) skip_patterns = true).
  { apply existsb_exists. exists skip. split; assumption. }
  now rewrite H.
Qed.

(** A master's entry that also names a bachelor's degree and carries years. *)
Lemma disqualified_text_has_no_year_witness :
  existsb (fun kw => contains kw
             (lower "Cornell University, B.S. and Master of Engineering 2011 - 2012"))
          BACHELORS_KW = true
  /\ findall_year_re None 0
       "Cornell University, B.S. and Master of Engineering 2011 - 2012" <> []
  /\ _parse_bachelors_year_from_text
       "Cornell University, B.S. and Master of Engineering 2011 - 2012" = None.
Proof.
  split; [vm_compute; reflexivity|].
  split; [vm_compute; discriminate|].
  apply (disqualified_text_has_no_year _ "master").
  - simpl. tauto.
  - vm_compute. reflexivity.
Defined.

End DegreeParser.

(** ** The title matcher *)

Section TitleMatcher.
Import PyStr Filters.

(** C4.  A title whose lowercased form contains a blacklist phrase is
    rejected with an empty note, whatever the whitelist. *)
Theorem blacklisted_title_rejected (title : string) (wl : whitelist) (phrase : string) :
  In phrase TITLE_BLACKLIST ->
  contains phrase (lower title) = true ->
  title_matches_whitelist title wl = (false, "").
Proof.
  intros Hin Hsub. unfold title_matches_whitelist.
  assert (H : existsb (fun phrase => contains phrase (lower title)) TITLE_BLACKLIST = true).
  { apply existsb_exists. exists phrase. split; assumption. }
  now rewrite H.
Qed.

(** "Director of Software Engineering" against a whitelist that holds
    "software engineer", which the title contains as well. *)
Lemma blacklisted_title_rejected_witness :
  contains "software engineer" (lower "Director of Software Engineering") = true
  /\ title_matches_whitelist "Director of Software Engineering"
       (Some ["software engineer"]) = (false, "").
Proof.
  split; [vm_compute; reflexivity|].
  apply (blacklisted_title_rejected _ _ "director").
  - simpl. tauto.
  - vm_compute. reflexivity.
Defined.

(** C10.  With no whitelist, or an empty one, a title that contains no
    blacklist phrase passes; its note is non-empty exactly when it contains a
    soft-flag phrase. *)
Theorem unlisted_title_passes (title : string) (wl : whitelist) :
  wl = None \/ wl = Some [] ->
  (forall phrase, In phrase TITLE_BLACKLIST -> contains phrase (lower title) = false) ->
  fst (title_matches_whitelist title wl) = true
  /\ (snd (title_matches_whitelist title wl) <> ""
      <-> exists phrase, In phrase TITLE_REVIEW_FLAGS
                         /\ contains phrase (lower title) = true).
Proof.
  intros Hwl Hblack. unfold title_matches_whitelist.
  apply existsb_false_iff in Hblack. rewrite Hblack.
  assert (Ht : truthy wl = false) by (destruct Hwl as [-> | ->]; reflexivity).
  rewrite Ht. cbn [andb find TITLE_REVIEW_FLAGS].
  destruct (contains "head of" (lower title)) eqn:Hflag; cbn [fst snd].
  - split; [reflexivity|]. split.
    + intros _. exists "head of". split; [now left | assumption].
    + intros _. discriminate.
  - split; [reflexivity|]. split.
    + intros H. now contradiction H.
    + intros (phrase & [<- | []] & Hsub). congruence.
Qed.

Lemma unlisted_title_passes_witness :
  title_matches_whitelist "Head of Product" None
    = (true, "title: 'head of' — review")
  /\ fst (title_matches_whitelist "Head of Product" None) = true.
Proof.
  split; [vm_compute; reflexivity|].
  apply (unlisted_title_passes "Head of Product" None).
  - now left.
  - intros phrase Hin. simpl in Hin.
    repeat (destruct Hin as [<- | Hin]; [vm_compute; reflexivity|]).
    contradiction.
Defined.

End TitleMatcher.

(** ** Education classification *)

Section Education.
Import PyStr ProfileNavigation.

(** The script reads entries only from a panel that has education rows and
    no expand-more button. *)
Lemma entries_read dom e es :
  entries (evaluate_education dom) = e :: es ->
  hasEducation (evaluate_education dom) = true
  /\ hasShowMore (evaluate_education dom) = false.
Proof.
  unfold evaluate_education.
  destruct (education_items dom); [discriminate|].
  destruct (show_more_button dom); [discriminate|].
  now split.
Qed.

Lemma bachelors_read dom e es :
  filter is_bachelor (entries (evaluate_education dom)) = e :: es ->
  hasEducation (evaluate_education dom) = true
  /\ hasShowMore (evaluate_education dom) = false.
Proof.
  destruct (entries (evaluate_education dom)) as [|x xs] eqn:E; [discriminate|].
  intros _. eapply entries_read. eassumption.
Qed.

Lemma masters_read dom :
  existsb is_master (entries (evaluate_education dom)) = true ->
  hasEducation (evaluate_education dom) = true
  /\ hasShowMore (evaluate_education dom) = false.
Proof.
  destruct (entries (evaluate_education dom)) as [|x xs] eqn:E; [discriminate|].
  intros _. eapply entries_read. eassumption.
Qed.

(** The script reports the expand-more button when the panel has education
    rows and the button is in the document. *)
Lemma show_more_reported dom :
  hasShowMore (evaluate_education dom) = true
  <-> education_items dom <> [] /\ show_more_button dom = true.
Proof.
  unfold evaluate_education.
  destruct (education_items dom) as [|i items]; cbn [hasShowMore].
  - split; [discriminate | intros [H _]; now contradiction H].
  - destruct (show_more_button dom); cbn [hasShowMore].
    + split; [intros _; split; [discriminate | reflexivity] | reflexivity].
    + split; [discriminate | intros [_ H]; discriminate].
Qed.

(** When the script reports the expand-more button there is an education
    section. *)
Lemma show_more_has_education dom :
  hasShowMore (evaluate_education dom) = true ->
  hasEducation (evaluate_education dom) = true.
Proof.
  unfold evaluate_education.
  destruct (education_items dom); [discriminate|].
  destruct (show_more_button dom); [reflexivity | discriminate].
Qed.

(** C2.  The verdict on the education part of a panel follows the decision
    table.  Bachelor's and master's-level entries are those whose degree the
    two patterns of the classifier match; the entries, the absence of an
    education section and the expand-more indicator are as the panel script
    reports them.  The rows: (1) no education section; (2) one bachelor's
    entry with a year; (3) one bachelor's entry without a year; (4) several
    bachelor's entries; (5) no bachelor's but a master's-level entry; (6) an
    education section with neither; (7) the indicator of truncated entries.
    Last, every panel falls under one of the rows. *)
Theorem education_decision_table (dom : education_dom) :
  let edu := evaluate_education dom in
  let bachelors := filter is_bachelor (entries edu) in
  let has_master := existsb is_master (entries edu) in
  let verdict := _extract_education_from_panel (Value dom) in
  (hasEducation edu = false -> verdict = (true, "no education", None))
  /\ (forall e y, bachelors = [e] -> year e = Some y ->
        verdict = ((2010 <=? y)%Z && (y <=? 2024)%Z, "", Some y))
  /\ (forall e, bachelors = [e] -> year e = None ->
        verdict = (true, "no edu year - review", None))
  /\ (1 < List.length bachelors ->
        verdict = (true, "multi bachelor - review", None))
  /\ (bachelors = [] -> has_master = true ->
        verdict = (true, "No bachelor's - review", None))
  /\ (hasEducation edu = true -> bachelors = [] -> has_master = false ->
        verdict = (false, "", None))
  /\ (hasShowMore edu = true -> verdict = (false, "", None))
  /\ (hasEducation edu = false
      \/ (exists e y, bachelors = [e] /\ year e = Some y)
      \/ (exists e, bachelors = [e] /\ year e = None)
      \/ 1 < List.length bachelors
      \/ (bachelors = [] /\ has_master = true)
      \/ (hasEducation edu = true /\ bachelors = [] /\ has_master = false)
      \/ hasShowMore edu = true).
Proof.
  cbv zeta. unfold _extract_education_from_panel.
  repeat split.
  - (* row 1 *)
    intros Hno. unfold _classify_education. rewrite Hno.
    unfold evaluate_education in *.
    destruct (education_items dom); [reflexivity|].
    destruct (show_more_button dom); discriminate.
  - (* row 2 *)
    intros e y Hb Hy. destruct (bachelors_read _ _ _ Hb) as [Hedu Hmore].
    rewrite Hmore. unfold _classify_education. rewrite Hedu, Hb, Hy. cbn [negb].
    now destruct ((2010 <=? y)%Z && (y <=? 2024)%Z).
  - (* row 3 *)
    intros e Hb Hy. destruct (bachelors_read _ _ _ Hb) as [Hedu Hmore].
    rewrite Hmore. unfold _classify_education. now rewrite Hedu, Hb, Hy.
  - (* row 4 *)
    intros Hlen.
    destruct (filter is_bachelor (entries (evaluate_education dom)))
      as [|b1 [|b2 bs]] eqn:Hb; cbn in Hlen; try lia.
    destruct (bachelors_read _ _ _ Hb) as [Hedu Hmore].
    rewrite Hmore. unfold _classify_education. now rewrite Hedu, Hb.
  - (* row 5 *)
    intros Hb Hm. destruct (masters_read _ Hm) as [Hedu Hmore].
    rewrite Hmore. unfold _classify_education. now rewrite Hedu, Hb, Hm.
  - (* row 6 *)
    intros Hedu Hb Hm. unfold _classify_education. rewrite Hedu, Hb, Hm.
    now destruct (hasShowMore (evaluate_education dom)).
  - (* row 7 *)
    intros Hmore. now rewrite Hmore.
  - (* every panel falls under a row *)
    destruct (hasEducation (evaluate_education dom)) eqn:Hedu; [|now left].
    right.
    destruct (filter is_bachelor (entries (evaluate_education dom)))
      as [|b1 [|b2 bs]] eqn:Hb.
    + destruct (existsb is_master (entries (evaluate_education dom))) eqn:Hm.
      * do 3 right. left. now split.
      * do 4 right. left. now repeat split.
    + destruct (year b1) as [y|] eqn:Hy.
      * left. now exists b1, y.
      * right. left. now exists b1.
    + do 2 right. left. cbn. lia.
Qed.

(** The example of the specification: a single entry, "Master of Science"
    with the year 2015. *)
Lemma education_decision_table_witness :
  _extract_education_from_panel
    (Value {| education_items :=
                [ {| degree_el := Some "Master of Science";
                     dates_times := Some ["2015"] |} ];
              show_more_button := false |})
  = (true, "No bachelor's - review", None).
Proof.
  refine (proj1 (proj2 (proj2 (proj2 (proj2
            (education_decision_table
               {| education_items :=
                    [ {| degree_el := Some "Master of Science";
                         dates_times := Some ["2015"] |} ];
                  show_more_button := false |}))))) _ _);
    vm_compute; reflexivity.
Defined.

(** The other rows on literal panels. *)
Example education_rows :
  let item d ts := {| degree_el := Some d; dates_times := ts |} in
  let panel items more :=
    Value {| education_items := items; show_more_button := more |} in
  _extract_education_from_panel (panel [] false) = (true, "no education", None)
  /\ _extract_education_from_panel
       (panel [item "Bachelor of Science (BS)" (Some ["2012"; "2017"])] false)
     = (true, "", Some 2017%Z)
  /\ _extract_education_from_panel
       (panel [item "B.A." (Some ["2001"; "2005"])] false)
     = (false, "", Some 2005%Z)
  /\ _extract_education_from_panel (panel [item "BS" None] false)
     = (true, "no edu year - review", None)
  /\ _extract_education_from_panel
       (panel [item "BS" (Some ["2015"]); item "Bachelor of Arts" (Some ["2016"])] false)
     = (true, "multi bachelor - review", None)
  /\ _extract_education_from_panel
       (panel [item "Cherry Creek High School" (Some ["2008"; "2012"])] false)
     = (false, "", None)
  /\ _extract_education_from_panel
       (panel [item "Bachelor of Science" (Some ["2015"])] true)
     = (false, "", None).
Proof. vm_compute. repeat split. Qed.

End Education.

(** ** The title step of the panel extractor *)

Section TitleStep.
Import PyStr Filters ProfileNavigation.

(** C7.  For a panel with a usable name whose education verdict is to
    extract: without a whitelist the candidate is extracted whatever the
    title, with the education note alone; with a whitelist and an empty
    title likewise; with a whitelist and a title, the title matcher decides,
    and its note is merged into the review note. *)
Theorem title_matcher_guard
  (current_year : Z) (page : panel) (data : panel_data)
  (note : string) (grad_year : option Z) :
  header page = Value data ->
  strip (panel_name data) <> "" ->
  strip (panel_name data) <> "LinkedIn Member" ->
  _extract_education_from_panel (education page) = (true, note, grad_year) ->
  (exists p, _extract_from_open_panel current_year page None = Some p
             /\ current_title p = strip (panel_title data)
             /\ review p = note)
  /\ (forall wl, strip (panel_title data) = "" ->
        exists p, _extract_from_open_panel current_year page (Some wl) = Some p
                  /\ current_title p = ""
                  /\ review p = note)
  /\ (forall wl, strip (panel_title data) <> "" ->
        match title_matches_whitelist (strip (panel_title data)) (Some wl) with
        | (false, _) => _extract_from_open_panel current_year page (Some wl) = None
        | (true, title_review) =>
            exists p, _extract_from_open_panel current_year page (Some wl) = Some p
                      /\ review p = merge_review note title_review
        end).
Proof.
  intros Hhead Hname Hmember Hedu.
  assert (Hn : nonempty (strip (panel_name data)) = true).
  { unfold nonempty. apply String.eqb_neq in Hname. now rewrite Hname. }
  apply String.eqb_neq in Hmember.
  split; [|split].
  - unfold _extract_from_open_panel.
    rewrite Hhead, Hn, Hmember, Hedu. cbn [negb title_check].
    eexists. split; [reflexivity|]. split; reflexivity.
  - intros wl Htitle.
    unfold _extract_from_open_panel, title_check.
    rewrite Hhead, Hn, Hmember, Hedu, Htitle. cbn.
    eexists. split; [reflexivity|]. split; reflexivity.
  - intros wl Htitle.
    assert (Ht : nonempty (strip (panel_title data)) = true).
    { unfold nonempty. apply String.eqb_neq in Htitle. now rewrite Htitle. }
    destruct (title_matches_whitelist (strip (panel_title data)) (Some wl))
      as [[|] title_review] eqn:Hmatch;
      unfold _extract_from_open_panel, title_check;
      rewrite Hhead, Hn, Hmember, Hedu, Ht, Hmatch; cbn [negb].
    + eexists. split; reflexivity.
    + reflexivity.
Qed.

(** A "Director of Engineering" with no whitelist file: the blacklist is not
    consulted and the candidate is extracted with an empty review note. *)
Lemma title_matcher_guard_witness :
  fst (title_matches_whitelist "Director of Engineering" (Some []) ) = false
  /\ exists p,
       _extract_from_open_panel 2026
         {| header := Value {| panel_name := "Ada Lovelace";
                               panel_title := "Director of Engineering";
                               panel_company := "Acme";
                               panel_location := "Austin, Texas" |};
            education := Value {| education_items :=
                                    [ {| degree_el := Some "Bachelor of Science";
                                         dates_times := Some ["2011"; "2015"] |} ];
                                  show_more_button := false |};
            public_url := "https://www.linkedin.com/in/ada" |}
         None = Some p
       /\ current_title p = "Director of Engineering"
       /\ review p = "".
Proof.
  split; [vm_compute; reflexivity|].
  refine (proj1 (title_matcher_guard 2026 _
                   {| panel_name := "Ada Lovelace";
                      panel_title := "Director of Engineering";
                      panel_company := "Acme";
                      panel_location := "Austin, Texas" |}
                   "" (Some 2015%Z) _ _ _ _)).
  - reflexivity.
  - vm_compute. discriminate.
  - vm_compute. discriminate.
  - vm_compute. reflexivity.
Defined.

End TitleStep.

(** ** The checkpoint file during a run *)

Section Run.
Import PyStr PyDict Checkpoint ProfileNavigation Search Progress Visits.

Lemma save_app (l1 l2 : list Json.value) (f : file) :
  _save_profiles_incrementally (l1 ++ l2) f
  = _save_profiles_incrementally l2 (_save_profiles_incrementally l1 f).
Proof.
  destruct l1 as [|a l1]; [reflexivity|].
  destruct l2 as [|b l2]; [now rewrite app_nil_r|].
  change ((a :: l1) ++ b :: l2)%list with (a :: (l1 ++ b :: l2))%list.
  unfold _save_profiles_incrementally.
  change (a :: (l1 ++ b :: l2))%list with ((a :: l1) ++ b :: l2)%list.
  now rewrite fold_left_app.
Qed.

Lemma trace_emit e w : trace (emit e w) = (trace w ++ [e])%list.
Proof. reflexivity. Qed.

Lemma page_starts_app evs evs' :
  page_starts (evs ++ evs') = (page_starts evs ++ page_starts evs')%list.
Proof.
  induction evs as [|e evs IH]; [reflexivity|].
  destruct e; cbn [app page_starts]; rewrite IH; reflexivity.
Qed.

(** What a stretch of the traversal adds to the log: page events, and
    [PageStart] events for the page numbers [pages]. *)
Lemma logs_refl w : logs w w [].
Proof. exists []. now rewrite app_nil_r. Qed.

Lemma logs_trans w w' w'' pages pages' :
  logs w w' pages -> logs w' w'' pages' -> logs w w'' (pages ++ pages').
Proof.
  intros (evs & Ht & Hev & Hp) (evs' & Ht' & Hev' & Hp').
  exists (evs ++ evs')%list.
  now rewrite Ht', Ht, app_assoc, forallb_app, Hev, Hev', page_starts_app, Hp, Hp'.
Qed.

Lemma logs_emit e w :
  page_event e = true -> logs w (emit e w) (page_starts [e]).
Proof.
  intros He. exists [e]. cbn [emit trace forallb]. now rewrite He.
Qed.

Lemma logs_save p w : logs w (save p w) [].
Proof. exists []. cbn [save trace]. now rewrite app_nil_r. Qed.

Lemma logs_failed_save reached w : logs w (failed_save reached w) [].
Proof. exists []. cbn [failed_save trace]. now rewrite app_nil_r. Qed.

Lemma logs_emit_after e w w' pages :
  page_event e = true -> page_starts [e] = [] ->
  logs w w' pages -> logs w (emit e w') pages.
Proof.
  intros He Hp H. rewrite <- (app_nil_r pages), <- Hp.
  eapply logs_trans; [exact H | now apply logs_emit].
Qed.

Lemma visited_cons current_year wl c cs :
  visited current_year wl (c :: cs)
  = if crashed c then []
    else if write_raises current_year wl c then [c]
    else c :: visited current_year wl cs.
Proof. reflexivity. Qed.

Lemma records_of_cons current_year wl c cs :
  records_of current_year wl (c :: cs)
  = (match extracted current_year wl c with Some p => [p] | None => [] end
     ++ records_of current_year wl cs)%list.
Proof. reflexivity. Qed.

Lemma written_cons current_year wl c cs f :
  written current_year wl (c :: cs) f
  = written current_year wl cs
      (match extracted current_year wl c with
       | Some p =>
           match checkpoint_write c with
           | Written => _save_profiles_incrementally [to_dict p] f
           | WriteRaises reached => failed_write reached f
           end
       | None => f
       end).
Proof. reflexivity. Qed.

(** The loop over the candidates of a page: the records it returns, the
    file it leaves and the log. *)
Lemma candidate_loop_spec current_year wl page_num rest :
  forall c n ps w,
    let r := candidate_loop current_year wl page_num c rest n ps w in
    fst r = (ps ++ records_of current_year wl (visited current_year wl (c :: rest)))%list
    /\ incremental (snd r)
       = written current_year wl (visited current_year wl (c :: rest)) (incremental w)
    /\ logs w (snd r) [].
Proof.
  induction rest as [|c' rest IH]; intros c n ps w; cbv zeta;
    rewrite visited_cons; unfold write_raises;
    cbn [candidate_loop]; fold (extracted current_year wl c);
    destruct (crashed c).
  1, 3: cbn [fst snd emit incremental records_of flat_map written fold_left];
    rewrite app_nil_r; repeat split; now apply logs_emit.
  - destruct (extracted current_year wl c) as [p|] eqn:Hex;
      [destruct (checkpoint_write c) as [|reached] eqn:Hw|];
      rewrite ?records_of_cons, ?written_cons, ?Hex, ?Hw;
      cbn [fst snd emit save failed_save incremental visited records_of
             flat_map written fold_left app];
      rewrite ?app_nil_r; repeat split;
      repeat (apply logs_emit_after; [reflexivity|reflexivity|]);
      first [apply logs_save | apply logs_failed_save | apply logs_refl].
  - destruct (extracted current_year wl c) as [p|] eqn:Hex;
      [destruct (checkpoint_write c) as [|reached] eqn:Hw|];
      rewrite ?records_of_cons, ?written_cons, ?Hex, ?Hw.
    + destruct (IH c' (S n) (ps ++ [p])%list (emit (Extracted (S n)) (save p w)))
        as (H1 & H2 & H3).
      rewrite H1, H2, <- app_assoc. repeat split.
      refine (logs_trans _ _ _ [] [] _ H3).
      apply logs_emit_after; [reflexivity|reflexivity|apply logs_save].
    + cbn [fst snd emit failed_save incremental records_of flat_map written
             fold_left app].
      repeat split.
      apply logs_emit_after; [reflexivity|reflexivity|apply logs_failed_save].
    + destruct (IH c' (S n) ps (emit (ExtractFailed (S n)) w)) as (H1 & H2 & H3).
      rewrite H1, H2. repeat split.
      refine (logs_trans _ _ _ [] [] _ H3). now apply logs_emit.
Qed.

Lemma process_page_spec current_year page wl page_num w :
  let r := process_page_via_navigation current_year page wl page_num w in
  fst r = (if page_raises page then Raised PlaywrightError
           else Returned (page_records current_year wl page))
  /\ incremental (snd r) = page_written current_year wl page (incremental w)
  /\ logs w (snd r) [].
Proof.
  cbv zeta. unfold process_page_via_navigation, page_raises, page_records,
    page_written, panel_reached.
  destruct (first_link page) as [[|]|]; cbn [fst snd];
    [|repeat split; now apply logs_emit|repeat split; apply logs_refl].
  destruct (first_link_click page) as [u|]; cbn [fst snd];
    [|repeat split; apply logs_refl].
  destruct (panel_opens page); cbn [negb].
  - pose proof (candidate_loop_spec current_year wl page_num (more_candidates page)
                  (first_candidate page) 0 [] w) as H. cbv zeta in H.
    destruct (candidate_loop current_year wl page_num (first_candidate page)
                (more_candidates page) 0 [] w) as [ps w'].
    cbn [fst snd] in *. destruct H as (-> & H2 & H3). now repeat split.
  - destruct (screenshot page); cbn [fst snd emit incremental];
      repeat split; now apply logs_emit.
Qed.


Lemma last_cons {A : Type} (a : A) (l : list A) (d : A) :
  List.last (a :: l) d = List.last l a.
Proof.
  revert a d. induction l as [|b l IH]; intros a d; [reflexivity|].
  change (List.last (a :: b :: l) d) with (List.last (b :: l) d).
  now rewrite (IH b d), (IH b a).
Qed.

(** The page loop: what it returns or raises, the file it leaves and the
    pages it starts. *)
Lemma page_loop_spec current_year chrome wl remaining :
  forall page_num ps last w,
    fst (page_loop current_year chrome wl remaining page_num ps last w)
    = (if existsb started_page_raises
                  (map (result_pages chrome) (pages_started chrome remaining page_num))
       then Raised PlaywrightError
       else Returned
              ((ps ++ flat_map (started_page_records current_year wl)
                        (map (result_pages chrome)
                           (pages_started chrome remaining page_num)))%list,
               List.last (pages_started chrome remaining page_num) last))
    /\ incremental (snd (page_loop current_year chrome wl remaining page_num ps last w))
       = fold_left (fun f page => started_page_written current_year wl page f)
           (map (result_pages chrome) (pages_started chrome remaining page_num))
           (incremental w)
    /\ logs w (snd (page_loop current_year chrome wl remaining page_num ps last w))
         (pages_started chrome remaining page_num).
Proof.
  induction remaining as [|remaining IH]; intros page_num ps last w.
  - cbn. rewrite app_nil_r. repeat split. apply logs_refl.
  - cbn [page_loop pages_started]. rewrite last_cons.
    unfold goes_on, started_page_raises, started_page_records, started_page_written.
    set (page := result_pages chrome page_num).
    assert (Hstart : logs w (emit (PageStart page_num) w) [page_num])
      by now apply logs_emit.
    destruct (results_loaded page) eqn:Hload; cbn [negb andb].
    + destruct (process_page_spec current_year page wl 0 (emit (PageStart page_num) w))
        as (H1 & H2 & H3).
      destruct (process_page_via_navigation current_year page wl 0
                  (emit (PageStart page_num) w)) as [[profiles|e] w1];
        cbn [fst snd] in H1, H2, H3;
        destruct (page_raises page) eqn:Hraise; try discriminate H1;
        cbn [negb andb map existsb flat_map fold_left List.last];
        fold page; rewrite ?Hload, ?Hraise; cbn [andb orb fst snd].
      * injection H1 as ->.
        assert (Hw1 : logs w w1 [page_num])
          by (rewrite <- (app_nil_r [page_num]); eapply logs_trans; eassumption).
        destruct (next_page page); cbn [negb map existsb flat_map fold_left List.last].
        -- destruct (IH (page_num + 1)%Z (ps ++ page_records current_year wl page)%list
                       page_num w1) as (G1 & G2 & G3).
           rewrite G1, G2, H2. cbn [emit incremental]. rewrite <- app_assoc.
           repeat split.
           change (page_num :: pages_started chrome remaining (page_num + 1))
             with ([page_num] ++ pages_started chrome remaining (page_num + 1))%list.
           eapply logs_trans; eassumption.
        -- cbn [fst snd emit incremental]. rewrite H2, app_nil_r.
           repeat split. now apply logs_emit_after.
      * injection H1 as ->. rewrite H2. repeat split.
        rewrite <- (app_nil_r [page_num]). eapply logs_trans; eassumption.
    + cbn [map existsb flat_map fold_left List.last fst snd emit incremental].
      fold page. rewrite Hload. cbn [andb orb]. rewrite app_nil_r.
      repeat split. now apply logs_emit_after.
Qed.

(** The pages a run starts are consecutive; it stops short of the pages
    that remain only after a page that does not let it go on. *)
Lemma pages_started_spec chrome remaining :
  forall page_num,
    exists n,
      n <= remaining
      /\ (0 < remaining -> 0 < n)
      /\ pages_started chrome remaining page_num = consecutive page_num n
      /\ (forall k, S k < n ->
          goes_on (result_pages chrome (page_num + Z.of_nat k)%Z) = true)
      /\ (n < remaining ->
          goes_on (result_pages chrome (page_num + Z.of_nat n - 1)%Z) = false).
Proof.
  induction remaining as [|remaining IH]; intros page_num.
  - exists 0. cbn. repeat split; auto; lia.
  - cbn [pages_started].
    destruct (goes_on (result_pages chrome page_num)) eqn:Hgo.
    + destruct (IH (page_num + 1)%Z) as (n & Hn & Hpos & Hst & Hon & Hstop).
      exists (S n). rewrite Hst. repeat split; [lia|lia| |].
      * intros [|k] Hk.
        -- now replace (page_num + Z.of_nat 0)%Z with page_num by lia.
        -- replace (page_num + Z.of_nat (S k))%Z
             with (page_num + 1 + Z.of_nat k)%Z by lia.
           apply Hon. lia.
      * intros Hlt.
        replace (page_num + Z.of_nat (S n) - 1)%Z
          with (page_num + 1 + Z.of_nat n - 1)%Z by lia.
        apply Hstop. lia.
    + exists 1. repeat split; [lia|lia| |].
      * intros k Hk. lia.
      * intros _. now replace (page_num + Z.of_nat 1 - 1)%Z with page_num by lia.
Qed.

Lemma existsb_consecutive_last (f : Z -> bool) :
  forall n first,
    (forall k, S k < n -> f (first + Z.of_nat k)%Z = false) ->
    existsb f (consecutive first n)
    = match n with
      | O => false
      | S _ => f (first + Z.of_nat n - 1)%Z
      end.
Proof.
  induction n as [|n IH]; intros first Hf; [reflexivity|].
  cbn [consecutive existsb].
  destruct n as [|n].
  - cbn [consecutive existsb]. rewrite orb_false_r. f_equal. lia.
  - assert (H0 : f first = false).
    { replace first with (first + Z.of_nat 0)%Z by lia. apply Hf. lia. }
    rewrite H0. cbn [orb]. rewrite IH.
    + f_equal. lia.
    + intros k Hk. replace (first + 1 + Z.of_nat k)%Z
        with (first + Z.of_nat (S k))%Z by lia. apply Hf. lia.
Qed.

Lemma last_consecutive (first d : Z) (n : nat) :
  List.last (consecutive first n) d
  = (if (n =? 0)%nat then d else first + Z.of_nat n - 1)%Z.
Proof.
  revert first d. induction n as [|n IH]; intros first d; [reflexivity|].
  cbn [consecutive]. rewrite last_cons, IH. cbn [Nat.eqb].
  destruct (n =? 0)%nat eqn:E; [apply Nat.eqb_eq in E; subst; lia | lia].
Qed.

Lemma visited_all (P : candidate -> Prop) current_year wl (cs : list candidate) :
  Forall P cs -> Forall P (visited current_year wl cs).
Proof.
  induction 1 as [|c cs Hc Hcs IH]; [constructor|].
  rewrite visited_cons.
  destruct (crashed c); [constructor|].
  destruct (write_raises current_year wl c); repeat constructor; auto.
Qed.

(** While no write raises, the file grows by the records, in order. *)
Lemma written_all current_year wl (cs : list candidate) :
  forall f,
    Forall (fun c => write_raises current_year wl c = false) cs ->
    written current_year wl cs f
    = _save_profiles_incrementally
        (map to_dict (records_of current_year wl cs)) f.
Proof.
  induction cs as [|c cs IH]; intros f Hall; [reflexivity|].
  inversion Hall as [|? ? Hc Hcs]; subst. unfold write_raises in Hc.
  rewrite written_cons, records_of_cons, map_app, save_app, (IH _ Hcs).
  destruct (extracted current_year wl c); [|reflexivity].
  destruct (checkpoint_write c); [reflexivity|discriminate Hc].
Qed.

End Run.

(** ** The query of the first navigation *)

Section Query.
Import PyStr PyDict Search.

Lemma dict_get_set {A : Type} (k : string) (v : A) (d : dict A) :
  dict_get k (dict_set k v d) = Some v.
Proof.
  induction d as [|[k' v'] d IH]; cbn.
  - now rewrite String.eqb_refl.
  - destruct (k' =? k) eqn:E; cbn.
    + now rewrite String.eqb_refl.
    + now rewrite E.
Qed.

Lemma in_keys_dict_set {A : Type} (k : string) (v : A) (d : dict A) (x : string) :
  In x (keys (dict_set k v d)) -> x = k \/ In x (keys d).
Proof.
  induction d as [|[k' v'] d IH]; cbn.
  - intros [<- | []]. now left.
  - destruct (k' =? k) eqn:E; cbn.
    + apply String.eqb_eq in E. subst k'. intros [<- | H]; auto.
    + intros [<- | H]; auto. destruct (IH H); auto.
Qed.

Lemma dict_set_nodup {A : Type} (k : string) (v : A) (d : dict A) :
  NoDup (keys d) -> NoDup (keys (dict_set k v d)).
Proof.
  induction d as [|[k' v'] d IH]; cbn; intros Hnd.
  - constructor; [intros [] | constructor].
  - inversion Hnd as [|? ? Hnotin Hnd']; subst.
    destruct (k' =? k) eqn:E; cbn.
    + apply String.eqb_eq in E. subst k'. now constructor.
    + constructor; [|now apply IH].
      intros Hin. apply in_keys_dict_set in Hin. destruct Hin as [-> | Hin]; auto.
      now rewrite String.eqb_refl in E.
Qed.

(** Setting a key leaves one item for it, and none before or after. *)
Lemma dict_set_split {A : Type} (k : string) (v : A) (d : dict A) :
  NoDup (keys d) ->
  exists d1 d2, dict_set k v d = (d1 ++ (k, v) :: d2)%list
                /\ ~ In k (keys d1) /\ ~ In k (keys d2).
Proof.
  induction d as [|[k' v'] d IH]; cbn; intros Hnd.
  - exists [], []. cbn. auto.
  - inversion Hnd as [|? ? Hnotin Hnd']; subst.
    destruct (k' =? k) eqn:E.
    + apply String.eqb_eq in E. subst k'. exists [], d. cbn. auto.
    + destruct (IH Hnd') as (d1 & d2 & Heq & H1 & H2).
      exists ((k', v') :: d1), d2. rewrite Heq. cbn. repeat split; auto.
      intros [-> | Hin]; auto. now rewrite String.eqb_refl in E.
Qed.

Lemma parse_qs_nodup (pairs : list (string * string)) :
  NoDup (keys (parse_qs pairs)).
Proof.
  unfold parse_qs.
  assert (H : forall d : dict (list string), NoDup (keys d) ->
            NoDup (keys (fold_left
              (fun (parsed_result : dict (list string)) (pair : string * string) =>
                 let (name, value) := pair in
                 match dict_get name parsed_result with
                 | Some values => dict_set name (values ++ [value])%list parsed_result
                 | None => dict_set name [value] parsed_result
                 end) pairs d))).
  { induction pairs as [|[name value] pairs IH]; intros d Hd; cbn; [assumption|].
    apply IH. destruct (dict_get name d); now apply dict_set_nodup. }
  apply H. constructor.
Qed.

(** [quote_plus] writes a character as itself when it is safe, and
    otherwise starts with a plus or a percent sign. *)
Lemma quote_plus_char_head (c : ascii) :
  (always_safe c = true /\ quote_plus_char c = String c EmptyString)
  \/ (exists h t, quote_plus_char c = String h t
                  /\ (h = "+"%char \/ h = "%"%char)).
Proof.
  unfold quote_plus_char. destruct (always_safe c) eqn:Hs; [now left|].
  right. destruct (Ascii.eqb c " "); eexists _, _; split; try reflexivity; auto.
Qed.

(** A field whose name part is a safe word [p] has the key [p]. *)
Lemma quote_plus_name (p : string) :
  forallb always_safe (list_ascii_of_string p) = true ->
  forall k x, prefix (p ++ "=") (quote_plus k ++ "=" ++ x) = true -> k = p.
Proof.
  induction p as [|a p IH]; cbn [list_ascii_of_string forallb append];
    intros Hsafe k x H.
  - destruct k as [|c k]; [reflexivity|]. exfalso.
    cbn [quote_plus] in H.
    destruct (quote_plus_char_head c) as [[Hs Hq] | (h & t & Hq & Hh)];
      rewrite Hq in H; cbn [append prefix] in H;
      match type of H with context [ascii_dec ?u ?v] =>
        destruct (ascii_dec u v) as [e|]; [|discriminate] end.
    + rewrite <- e in Hs. vm_compute in Hs. discriminate.
    + destruct Hh as [-> | ->]; discriminate.
  - apply andb_true_iff in Hsafe. destruct Hsafe as [Ha Hp].
    destruct k as [|c k].
    + exfalso. cbn [quote_plus append prefix] in H.
      destruct (ascii_dec a "=") as [e|]; [|discriminate].
      rewrite e in Ha. vm_compute in Ha. discriminate.
    + cbn [quote_plus] in H.
      destruct (quote_plus_char_head c) as [[Hs Hq] | (h & t & Hq & Hh)];
        rewrite Hq in H; cbn [append prefix] in H;
        match type of H with context [ascii_dec ?u ?v] =>
          destruct (ascii_dec u v) as [e|]; [|discriminate] end.
      * subst c. f_equal. now apply (IH Hp k x).
      * exfalso. rewrite e in Ha.
        destruct Hh as [-> | ->]; vm_compute in Ha; discriminate.
Qed.

Lemma quote_plus_digits (d : Decimal.uint) :
  quote_plus (NilEmpty.string_of_uint d) = NilEmpty.string_of_uint d.
Proof.
  induction d; cbn [NilEmpty.string_of_uint quote_plus]; [reflexivity| ..];
    rewrite IHd; reflexivity.
Qed.

(** A decimal numeral is written as it is. *)
Lemma quote_plus_str_of_Z (n : Z) : quote_plus (str_of_Z n) = str_of_Z n.
Proof.
  unfold str_of_Z, NilZero.string_of_int, NilZero.string_of_uint.
  destruct (Z.to_int n) as [d|d]; destruct d;
    try reflexivity;
    cbn [quote_plus NilEmpty.string_of_uint]; rewrite quote_plus_digits; reflexivity.
Qed.

Lemma prefix_append (p x : string) : prefix p (p ++ x) = true.
Proof.
  induction p as [|a p IH]; cbn [append prefix]; [now destruct x|].
  destruct (ascii_dec a a); [exact IH | congruence].
Qed.

Lemma no_start_fields (d : dict (list string)) :
  ~ In "start" (keys d) ->
  filter (prefix "start=") (urlencode_fields d) = [].
Proof.
  unfold urlencode_fields.
  induction d as [|[k vs] d IH]; cbn [flat_map keys map fst snd]; intros Hnot;
    [reflexivity|].
  rewrite filter_app, IH, app_nil_r by (intros H; apply Hnot; now right).
  induction vs as [|elt vs IHvs]; cbn [map filter]; [reflexivity|].
  destruct (prefix "start=" (quote_plus k ++ "=" ++ quote_plus elt)) eqn:E;
    [|exact IHvs].
  exfalso. apply Hnot. left.
  apply (quote_plus_name "start" eq_refl k (quote_plus elt)). exact E.
Qed.

End Query.

Section QueryFields.
Import PyStr PyDict Search.

Lemma mem_char_app (c : ascii) (s t : string) :
  mem_char c (s ++ t) = mem_char c s || mem_char c t.
Proof.
  induction s as [|a s IH]; cbn [append mem_char]; [reflexivity|].
  now rewrite IH, orb_assoc.
Qed.

Lemma split_on_append (sep : ascii) (s t : string) :
  mem_char sep s = false ->
  split_on sep (s ++ String sep t) = s :: split_on sep t.
Proof.
  induction s as [|a s IH]; cbn [append mem_char split_on]; intros Hs.
  - now rewrite Ascii.eqb_refl.
  - apply orb_false_iff in Hs. destruct Hs as [Ha Hs].
    rewrite Ascii.eqb_sym, Ha, (IH Hs). reflexivity.
Qed.

Lemma split_on_whole (sep : ascii) (s : string) :
  mem_char sep s = false -> split_on sep s = [s].
Proof.
  induction s as [|a s IH]; cbn [mem_char split_on]; intros Hs; [reflexivity|].
  apply orb_false_iff in Hs. destruct Hs as [Ha Hs].
  rewrite Ascii.eqb_sym, Ha, (IH Hs). reflexivity.
Qed.

(** Splitting at the separator gives back the fields that were joined, when
    none of them holds the separator. *)
Lemma split_on_join (sep : ascii) (fields : list string) :
  fields <> [] ->
  Forall (fun field => mem_char sep field = false) fields ->
  split_on sep (join (String sep EmptyString) fields) = fields.
Proof.
  induction fields as [|field fields IH]; intros Hne Hall; [congruence|].
  inversion Hall as [|? ? Hfield Hfields]; subst.
  destruct fields as [|field' fields].
  - cbn [join]. now apply split_on_whole.
  - change (join (String sep EmptyString) (field :: field' :: fields))
      with (field ++ String sep (join (String sep EmptyString) (field' :: fields))).
    rewrite (split_on_append sep field _ Hfield), IH; [reflexivity|discriminate|assumption].
Qed.

Lemma quote_plus_char_no_amp (c : ascii) :
  mem_char "&" (quote_plus_char c) = false.
Proof. destruct c as [[] [] [] [] [] [] [] []]; reflexivity. Qed.

Lemma quote_plus_no_amp (s : string) : mem_char "&" (quote_plus s) = false.
Proof.
  induction s as [|c s IH]; cbn [quote_plus]; [reflexivity|].
  now rewrite mem_char_app, quote_plus_char_no_amp, IH.
Qed.

Lemma urlencode_fields_no_amp (d : dict (list string)) :
  Forall (fun field => mem_char "&" field = false) (urlencode_fields d).
Proof.
  unfold urlencode_fields. apply Forall_flat_map, Forall_forall.
  intros [k vs] _. apply Forall_map, Forall_forall. intros elt _. cbn [fst snd].
  rewrite !mem_char_app, !quote_plus_no_amp. reflexivity.
Qed.

(** The fields of the encoded query named [start], once [start] is set. *)
Lemma start_fields (offset : Z) (d : dict (list string)) :
  NoDup (keys d) ->
  filter (prefix "start=") (urlencode_fields (dict_set "start" [str_of_Z offset] d))
  = ["start=" ++ str_of_Z offset].
Proof.
  intros Hd.
  destruct (dict_set_split "start" [str_of_Z offset] d Hd) as (d1 & d2 & Heq & H1 & H2).
  rewrite Heq. unfold urlencode_fields.
  rewrite flat_map_app, filter_app. cbn [flat_map map fst snd].
  rewrite filter_app.
  fold (urlencode_fields d1). fold (urlencode_fields d2).
  rewrite (no_start_fields d1 H1), (no_start_fields d2 H2).
  rewrite quote_plus_str_of_Z.
  change (quote_plus "start" ++ "=" ++ str_of_Z offset)
    with ("start=" ++ str_of_Z offset).
  cbn [filter app]. now rewrite prefix_append.
Qed.

(** The encoded query splits at [&] into its fields. *)
Lemma split_urlencode (offset : Z) (d : dict (list string)) :
  NoDup (keys d) ->
  split_on "&" (urlencode (dict_set "start" [str_of_Z offset] d))
  = urlencode_fields (dict_set "start" [str_of_Z offset] d).
Proof.
  intros Hd. unfold urlencode. apply split_on_join.
  - intros Hnil. pose proof (start_fields offset d Hd) as H.
    rewrite Hnil in H. discriminate H.
  - apply urlencode_fields_no_amp.
Qed.

End QueryFields.

(** ** The pagination engine *)

Section Pagination.
Import PyStr PyDict Checkpoint ProfileNavigation Search Visits Progress.

Variable urlparse : string -> outcome ParseResult.
Variable parse_qsl : string -> list (string * string).
Variable urlunparse : ParseResult -> string.

(** A run that gets to its first navigation logs it first, whether or not
    the navigation succeeds. *)
Lemma run_search_navigates current_year chrome wl config url parsed w :
  saved_search_url config = Some url ->
  url <> "" ->
  urlparse url = Returned parsed ->
  exists evs,
    trace (snd (run_search urlparse parse_qsl urlunparse current_year chrome wl
                           config w))
    = (trace w
       ++ Navigate (start_url parse_qsl urlunparse parsed (get (start_page config) 1%Z))
       :: evs)%list.
Proof.
  intros Hurl Hne Hparse. apply String.eqb_neq in Hne.
  unfold run_search. rewrite Hurl, Hne, Hparse.
  destruct (goto_ok chrome); cbn [negb].
  - match goal with |- context [page_loop ?cy ?ch ?wl ?n ?p ?ps ?l ?w0] =>
      destruct (page_loop_spec cy ch wl n p ps l w0) as (_ & _ & evs & Ht & _)
    end.
    rewrite Ht. cbn [clear emit trace]. rewrite <- !app_assoc.
    eexists. reflexivity.
  - exists []. reflexivity.
Qed.

(** A run that has a URL and whose first navigation succeeds: what it
    returns or raises, the file it leaves, and its log, which is the
    navigation, the removal of the checkpoint file and then the page
    events. *)
Lemma run_search_spec current_year chrome wl config url parsed w :
  saved_search_url config = Some url ->
  url <> "" ->
  urlparse url = Returned parsed ->
  goto_ok chrome = true ->
  let first := get (start_page config) 1%Z in
  let started :=
    pages_started chrome (Z.to_nat (get (max_pages config) 10%Z + 1 - first)) first in
  let pages := map (result_pages chrome) started in
  let r := run_search urlparse parse_qsl urlunparse current_year chrome wl config w in
  fst r = (if existsb started_page_raises pages then Raised PlaywrightError
           else Returned (flat_map (started_page_records current_year wl) pages,
                          List.last started first))
  /\ incremental (snd r)
     = fold_left (fun f page => started_page_written current_year wl page f) pages None
  /\ exists evs,
       trace (snd r)
       = (trace w ++ Navigate (start_url parse_qsl urlunparse parsed first)
          :: ClearIncremental :: evs)%list
       /\ forallb page_event evs = true
       /\ page_starts evs = started.
Proof.
  intros Hurl Hne Hparse Hgoto first started pages r. apply String.eqb_neq in Hne.
  subst r. unfold run_search. rewrite Hurl, Hne, Hparse, Hgoto. cbn [negb].
  fold first.
  match goal with |- context [page_loop ?cy ?ch ?wl ?n ?p ?ps ?l ?w0] =>
    destruct (page_loop_spec cy ch wl n p ps l w0) as (H1 & H2 & evs & Ht & Hev & Hst)
  end.
  fold started in H1, H2, Hst. fold pages in H1, H2.
  rewrite H1, H2. repeat split.
  exists evs. rewrite Ht. cbn [clear emit trace]. rewrite <- !app_assoc.
  repeat split; assumption.
Qed.

(** C6.  A run that gets past its first navigation (a URL is configured,
    [urlparse] accepts it and [page.goto] returns) removes the checkpoint
    file before the first page event, whatever the start page and whatever
    the file held: the file it leaves is what the pages of this run wrote,
    starting from no file, and so it is the same for every earlier content. *)
Theorem run_search_clears_checkpoint current_year chrome wl config url parsed w :
  saved_search_url config = Some url ->
  url <> "" ->
  urlparse url = Returned parsed ->
  goto_ok chrome = true ->
  let first := get (start_page config) 1%Z in
  let pages :=
    map (result_pages chrome)
        (pages_started chrome (Z.to_nat (get (max_pages config) 10%Z + 1 - first))
                       first) in
  (exists u evs,
     trace (snd (run_search urlparse parse_qsl urlunparse current_year chrome wl
                            config w))
     = (trace w ++ Navigate u :: ClearIncremental :: evs)%list
     /\ forallb page_event evs = true)
  /\ incremental (snd (run_search urlparse parse_qsl urlunparse current_year chrome wl
                                  config w))
     = fold_left (fun f page => started_page_written current_year wl page f) pages None
  /\ forall w0,
       incremental (snd (run_search urlparse parse_qsl urlunparse current_year chrome
                                    wl config w0))
       = incremental (snd (run_search urlparse parse_qsl urlunparse current_year chrome
                                      wl config w)).
Proof.
  intros Hurl Hne Hparse Hgoto first pages.
  destruct (run_search_spec current_year chrome wl config url parsed w
              Hurl Hne Hparse Hgoto) as (_ & Hf & evs & Ht & Hev & _).
  split; [eexists _, evs; split; [exact Ht | exact Hev]|].
  split; [exact Hf|].
  intros w0.
  destruct (run_search_spec current_year chrome wl config url parsed w0
              Hurl Hne Hparse Hgoto) as (_ & Hf0 & _).
  cbv zeta in Hf, Hf0. now rewrite Hf, Hf0.
Qed.

(** C8.  For every URL and start page: the query dictionary of the first
    navigation maps [start] to the decimal numeral of (start page - 1) * 25;
    the query encoded from it has, among its [&]-separated fields, exactly
    one named [start], which carries that numeral, whatever [start] fields
    the pasted URL had; and the first thing the run does is to navigate to the
    pasted URL with this query in place of its own. *)
Theorem start_offset_rewritten current_year chrome wl config url parsed w :
  saved_search_url config = Some url ->
  url <> "" ->
  urlparse url = Returned parsed ->
  let first_page := get (start_page config) 1%Z in
  let offset := str_of_Z ((first_page - 1) * 25) in
  let query_params := dict_set "start" [offset] (parse_qs (parse_qsl (query parsed))) in
  let new_query := urlencode query_params in
  dict_get "start" query_params = Some [offset]
  /\ filter (prefix "start=") (split_on "&" new_query) = ["start=" ++ offset]
  /\ exists evs,
       trace (snd (run_search urlparse parse_qsl urlunparse current_year chrome
                              wl config w))
       = (trace w
          ++ Navigate (urlunparse {| scheme := scheme parsed;
                                     netloc := netloc parsed;
                                     path := path parsed;
                                     params := params parsed;
                                     query := new_query;
                                     fragment := fragment parsed |})
          :: evs)%list.
Proof.
  intros Hurl Hne Hparse first_page offset query_params new_query.
  split; [apply dict_get_set|]. split.
  - subst new_query query_params offset.
    rewrite split_urlencode by apply parse_qs_nodup.
    apply start_fields, parse_qs_nodup.
  - exact (run_search_navigates current_year chrome wl config url parsed w
             Hurl Hne Hparse).
Qed.

End Pagination.

Section PaginationExamples.
Import PyStr PyDict Checkpoint ProfileNavigation Search Visits Samples.

(** A resume run from page 3 over the file an interrupted run left. *)
Lemma run_search_clears_checkpoint_witness :
  incremental interrupted <> None
  /\ (exists u evs,
        trace (snd (run_search sample_urlparse sample_parse_qsl sample_urlunparse
                      2026 {| goto_ok := true; result_pages := fun _ => quiet_page |}
                      None (sample_config 3) interrupted))
        = (trace interrupted ++ Navigate u :: ClearIncremental :: evs)%list
        /\ forallb page_event evs = true)
  /\ incremental
       (snd (run_search sample_urlparse sample_parse_qsl sample_urlunparse
               2026 {| goto_ok := true; result_pages := fun _ => quiet_page |}
               None (sample_config 3) interrupted))
     = started_page_written 2026 None quiet_page None.
Proof.
  split; [vm_compute; discriminate|].
  pose proof (run_search_clears_checkpoint sample_urlparse sample_parse_qsl
                sample_urlunparse 2026
                {| goto_ok := true; result_pages := fun _ => quiet_page |}
                None (sample_config 3) sample_url sample_parsed interrupted
                eq_refl) as H.
  destruct H as (Ht & Hf & _);
    [unfold sample_url; discriminate | reflexivity | reflexivity |].
  split; [exact Ht | exact Hf].
Defined.

(** The file after that resume run: the two records of page 3, and not the
    record the interrupted run had saved. *)
Example resume_run_file :
  run_search sample_urlparse sample_parse_qsl sample_urlunparse 2026
    {| goto_ok := true; result_pages := fun _ => quiet_page |}
    None (sample_config 3) interrupted
  = (Returned (page_records 2026 None quiet_page, 3%Z),
     {| incremental :=
          _save_profiles_incrementally
            (map to_dict (page_records 2026 None quiet_page)) None;
        trace := [ Navigate "https://www.linkedin.com/talent/search?searchContextId=abc&start=50";
                   ClearIncremental; PageStart 3; Extracted 1; Extracted 2;
                   PageDone 2; NoMorePages ] |})
  /\ List.length (page_records 2026 None quiet_page) = 2.
Proof. vm_compute. split; reflexivity. Qed.

(** A resume run from page 3 whose first navigation fails: it raises, and
    the record the interrupted run had saved is still in the file. *)
Lemma failed_navigation_keeps_checkpoint :
  run_search sample_urlparse sample_parse_qsl sample_urlunparse 2026
    {| goto_ok := false; result_pages := fun _ => quiet_page |}
    None (sample_config 3) interrupted
  = (Raised NavigationError,
     {| incremental := _save_profiles_incrementally [to_dict ada_profile] None;
        trace := [ Navigate "https://www.linkedin.com/talent/search?searchContextId=abc&start=50" ] |})
  /\ load_incremental_profiles
       (_save_profiles_incrementally [to_dict ada_profile] None)
     = [to_dict ada_profile].
Proof. vm_compute. split; reflexivity. Qed.

(** Start page 4 over a pasted URL that carries [start=50]. *)
Lemma start_offset_rewritten_witness :
  exists evs,
    trace (snd (run_search sample_urlparse sample_parse_qsl sample_urlunparse 2026
                  {| goto_ok := true; result_pages := fun _ => quiet_page |}
                  None (sample_config 4) fresh))
    = Navigate "https://www.linkedin.com/talent/search?searchContextId=abc&start=75"
      :: evs.
Proof.
  refine (proj2 (proj2 (start_offset_rewritten sample_urlparse sample_parse_qsl
                          sample_urlunparse 2026
                          {| goto_ok := true; result_pages := fun _ => quiet_page |}
                          None (sample_config 4) sample_url sample_parsed fresh
                          eq_refl _ eq_refl))).
  unfold sample_url. discriminate.
Defined.

End PaginationExamples.

(** ** Crash detection *)

Section Crash.
Import PyStr Checkpoint ProfileNavigation Search Visits Samples.

Lemma candidate_loop_crashed current_year wl page_num c rest n ps w :
  crashed c = true ->
  candidate_loop current_year wl page_num c rest n ps w
  = (ps, emit (Crashed (List.length ps) (resume_msg page_num (S n))) w).
Proof.
  intros Hc. destruct rest; cbn [candidate_loop]; now rewrite Hc.
Qed.

(** The traversal stops at the first crashed candidate: when the tab is
    healthy at the candidates before it and no write of their records
    raises, it returns their records, and the last line of its log names the
    crashed candidate's index. *)
Lemma crash_stops_traversal current_year wl page_num (before : list candidate) :
  forall first c after n ps w,
    Forall (fun x => crashed x = false /\ write_raises current_year wl x = false)
           (first :: before) ->
    crashed c = true ->
    let records := records_of current_year wl (first :: before) in
    let result :=
      candidate_loop current_year wl page_num first (before ++ c :: after) n ps w in
    fst result = (ps ++ records)%list
    /\ exists evs,
         trace (snd result)
         = (trace w ++ evs
            ++ [Crashed (List.length (ps ++ records))
                        (resume_msg page_num (n + List.length before + 2))])%list.
Proof.
  induction before as [|b before IH]; intros first c after n ps w Hok Hc;
    inversion Hok as [|? ? [Hfirst Hwrite] Hrest]; subst; cbv zeta;
    rewrite records_of_cons; unfold write_raises in Hwrite;
    cbn [candidate_loop app]; fold (extracted current_year wl first);
    rewrite Hfirst.
  - destruct (extracted current_year wl first) as [p|];
      [destruct (checkpoint_write first); [|discriminate Hwrite]|];
      rewrite (candidate_loop_crashed _ _ _ _ _ _ _ _ Hc);
      cbn [fst snd app records_of flat_map]; rewrite ?app_nil_r;
      replace (n + List.length (@nil candidate) + 2) with (S (S n)) by (cbn; lia);
      (split; [reflexivity|]); rewrite trace_emit.
    + exists [Extracted (S n)]. rewrite trace_emit. cbn [save trace].
      now rewrite <- app_assoc.
    + exists [ExtractFailed (S n)]. rewrite trace_emit. now rewrite <- app_assoc.
  - destruct (extracted current_year wl first) as [p|];
      [destruct (checkpoint_write first); [|discriminate Hwrite]|].
    + destruct (IH b c after (S n) (ps ++ [p])%list
                  (emit (Extracted (S n)) (save p w)) Hrest Hc) as [Hps (evs & Ht)].
      cbv zeta in Hps, Ht. rewrite Hps, Ht.
      replace (S n + List.length before + 2) with (n + List.length (b :: before) + 2)
        by (cbn; lia).
      rewrite <- !app_assoc. split; [reflexivity|].
      exists (Extracted (S n) :: evs). rewrite trace_emit. cbn [save trace].
      now rewrite <- !app_assoc.
    + destruct (IH b c after (S n) ps
                  (emit (ExtractFailed (S n)) w) Hrest Hc) as [Hps (evs & Ht)].
      cbv zeta in Hps, Ht. rewrite Hps, Ht.
      replace (S n + List.length before + 2) with (n + List.length (b :: before) + 2)
        by (cbn; lia).
      split; [reflexivity|].
      exists (ExtractFailed (S n) :: evs). rewrite trace_emit.
      now rewrite <- !app_assoc.
Qed.

(** C3.  The scenario of the specification: page 1 shows three candidates
    and the title of the tab is "Aw, Snap!" when the second one's turn comes.
    Once [urlparse] has taken the URL apart, the run returns the first
    candidate's record alone and stops the page; the resume point it logs is
    "candidate 2", without the page number, because [run_search] gives the
    traversal no page number. *)
Theorem crash_resume_point
  (urlparse : string -> outcome ParseResult)
  (parse_qsl : string -> list (string * string))
  (urlunparse : ParseResult -> string) :
  run_search urlparse parse_qsl urlunparse 2026
    {| goto_ok := true; result_pages := fun _ => crash_page |}
    None (sample_config 1) fresh
  = match urlparse sample_url with
    | Returned parsed =>
        (Returned ([ada_profile], 1%Z),
         {| incremental := _save_profiles_incrementally [to_dict ada_profile] None;
            trace := [ Navigate (start_url parse_qsl urlunparse parsed 1);
                       ClearIncremental; PageStart 1; Extracted 1;
                       Crashed 1 "candidate 2"; NoMorePages ] |})
    | Raised e => (Raised e, fresh)
    end.
Proof.
  unfold run_search.
  change (saved_search_url (sample_config 1)) with (Some sample_url).
  change (sample_url =? "") with false. cbv iota.
  destruct (urlparse sample_url) as [parsed|e]; [|reflexivity].
  vm_compute. reflexivity.
Qed.

(** Given the page number, the traversal would name it. *)
Example crash_resume_point_with_page :
  trace (snd (process_page_via_navigation 2026 crash_page None 1 fresh))
  = [ Extracted 1; Crashed 1 "page 1, candidate 2" ].
Proof. vm_compute. reflexivity. Qed.

End Crash.

(** ** The checkpoint file *)

Section CheckpointFile.
Import PyStr Checkpoint ProfileNavigation Samples.

(** Records without line boundaries come back in order, duplicates
    included. *)
Example checkpoint_keeps_duplicates :
  load_incremental_profiles
    (_save_profiles_incrementally
       [to_dict ada_profile; to_dict ada_profile] None)
  = [to_dict ada_profile; to_dict ada_profile].
Proof. vm_compute. reflexivity. Qed.

(** C5.  A candidate whose name holds U+2028 is extracted, and its record
    is valid JSON that [loads] reads back; yet once it is written to the
    checkpoint file between two other records, loading the file returns those
    two and not this one: [json.dumps] leaves U+2028 as it is, [splitlines]
    breaks the line there, and neither half is valid JSON. *)
Theorem checkpoint_loses_split_record :
  _extract_from_open_panel 2026 split_name_panel None = Some split_name_profile
  /\ Json.loads (Json.dumps (to_dict split_name_profile))
     = Json.Parsed (to_dict split_name_profile) ""
  /\ map Json.loads
         (splitlines (Json.dumps (to_dict split_name_profile) ++ newline))
     = [Json.Malformed; Json.Malformed]
  /\ load_incremental_profiles
       (_save_profiles_incrementally
          [to_dict ada_profile; to_dict split_name_profile; to_dict ada_profile]
          None)
     = [to_dict ada_profile; to_dict ada_profile].
Proof. vm_compute. repeat split. Qed.

End CheckpointFile.

(* ================================================================== *)
(** * Further properties of the pipeline *)
(* ================================================================== *)

(** ** Verdicts and records *)

Section Records.
Import PyStr Filters ProfileNavigation.

(** A verdict to scrape comes with a year within 2010..2024 and no note, or
    with no year and one of the four review notes. *)
Lemma scraped_verdict (page : driver education_dom) :
  let '(should_scrape, review_note, grad_year) :=
    _extract_education_from_panel page in
  should_scrape = true ->
  match grad_year with
  | Some y => (2010 <= y <= 2024)%Z /\ review_note = ""
  | None => In review_note [ "no education"; "no edu year - review";
                             "multi bachelor - review";
                             "No bachelor's - review" ]
  end.
Proof.
  unfold _extract_education_from_panel, _classify_education.
  destruct page as [dom|]; [|cbn; intuition discriminate].
  destruct (hasShowMore (evaluate_education dom)); [discriminate|].
  destruct (hasEducation (evaluate_education dom)); cbn [negb];
    [|cbn; intuition discriminate].
  destruct (filter is_bachelor (entries (evaluate_education dom)))
    as [|b [|b' bs]].
  - destruct (existsb is_master (entries (evaluate_education dom)));
      cbn; intuition discriminate.
  - destruct (year b) as [y|]; [|cbn; intuition discriminate].
    destruct ((2010 <=? y)%Z && (y <=? 2024)%Z) eqn:E; [|discriminate].
    apply andb_true_iff in E. destruct E as [E1 E2].
    apply Z.leb_le in E1. apply Z.leb_le in E2. auto.
  - cbn. intuition discriminate.
Qed.

(** X1.  The verdict on education, for a panel or a driver error alike: a
    skip carries no note; a note comes with no year; a year that is extracted
    lies in 2010..2024; and an extraction without a year carries one of the
    four review notes. *)
Theorem education_verdict_shape (page : driver education_dom) :
  let '(should_scrape, review_note, grad_year) :=
    _extract_education_from_panel page in
  (should_scrape = false -> review_note = "")
  /\ (review_note <> "" -> grad_year = None)
  /\ (should_scrape = true ->
      match grad_year with
      | Some y => (2010 <= y <= 2024)%Z /\ review_note = ""
      | None => In review_note [ "no education"; "no edu year - review";
                                 "multi bachelor - review";
                                 "No bachelor's - review" ]
      end).
Proof.
  unfold _extract_education_from_panel, _classify_education.
  destruct page as [dom|]; [|cbn; intuition discriminate].
  destruct (hasShowMore (evaluate_education dom)); [cbn; intuition discriminate|].
  destruct (hasEducation (evaluate_education dom)); cbn [negb];
    [|cbn; intuition discriminate].
  destruct (filter is_bachelor (entries (evaluate_education dom)))
    as [|b [|b' bs]].
  - destruct (existsb is_master (entries (evaluate_education dom)));
      cbn; intuition discriminate.
  - destruct (year b) as [y|]; [|cbn; intuition discriminate].
    destruct ((2010 <=? y)%Z && (y <=? 2024)%Z) eqn:E.
    + apply andb_true_iff in E. destruct E as [E1 E2].
      apply Z.leb_le in E1. apply Z.leb_le in E2.
      repeat split; auto; try discriminate. intros H. now contradiction H.
    + repeat split; auto; try discriminate. intros H. now contradiction H.
  - cbn. intuition discriminate.
Qed.

Lemma title_review_values (title : string) (wl : whitelist) :
  snd (title_matches_whitelist title wl) = ""
  \/ snd (title_matches_whitelist title wl) = "title: 'head of' — review".
Proof.
  unfold title_matches_whitelist.
  destruct (existsb _ TITLE_BLACKLIST); [now left|].
  destruct (truthy wl && _); [now left|].
  cbn [find TITLE_REVIEW_FLAGS].
  destruct (contains "head of" (lower title)); [now right | now left].
Qed.

Lemma title_check_values (wl : whitelist) (title review : string) :
  title_check wl title = Some review ->
  review = "" \/ review = "title: 'head of' — review".
Proof.
  unfold title_check. destruct wl as [l|]; [|intros [= <-]; now left].
  destruct (nonempty title); [|intros [= <-]; now left].
  pose proof (title_review_values title (Some l)) as H.
  destruct (title_matches_whitelist title (Some l)) as [[|] r]; [|discriminate].
  intros [= <-]. exact H.
Qed.

(** The year of an extracted record lies within 2010..2024 and the years of
    experience are counted from it; a record without a year has no years of
    experience and carries the review flag. *)
Lemma extracted_year
  (current_year : Z) (page : panel) (wl : whitelist) (p : profile) :
  _extract_from_open_panel current_year page wl = Some p ->
  match bachelors_grad_year p with
  | Some y => (2010 <= y <= 2024)%Z
              /\ years_experience p = Some (current_year - y)%Z
  | None => years_experience p = None /\ needs_review p = true
  end.
Proof.
  unfold _extract_from_open_panel.
  destruct (header page) as [data|]; [|discriminate].
  destruct (negb (nonempty (strip (panel_name data)))); [discriminate|].
  destruct (strip (panel_name data) =? "LinkedIn Member"); [discriminate|].
  pose proof (scraped_verdict (education page)) as Hv.
  destruct (_extract_education_from_panel (education page))
    as [[should_scrape note] grad_year].
  destruct should_scrape; cbn [negb]; [|discriminate].
  specialize (Hv eq_refl).
  destruct (title_check wl (strip (panel_title data))) as [title_review|] eqn:Ht;
    [|discriminate].
  apply title_check_values in Ht.
  intros [= <-]. cbn [bachelors_grad_year years_experience needs_review].
  destruct grad_year as [y|].
  - destruct Hv as [Hy _]. split; [exact Hy|].
    destruct (y =? 0)%Z eqn:E; [apply Z.eqb_eq in E; lia | reflexivity].
  - split; [reflexivity|].
    cbn in Hv.
    destruct Hv as [<- | [<- | [<- | [<- | []]]]];
      destruct Ht as [-> | ->]; vm_compute; reflexivity.
Qed.

(** X2.  What every extracted record satisfies: a name that is neither empty
    nor the out-of-network placeholder; a graduation year within 2010..2024
    with the years of experience counted from it, or no year, no experience
    and the review flag set; no recruiter URL; and the review flag set
    exactly when there is a review note. *)
Theorem extracted_record_shape
  (current_year : Z) (page : panel) (wl : whitelist) (p : profile) :
  _extract_from_open_panel current_year page wl = Some p ->
  full_name p <> "" /\ full_name p <> "LinkedIn Member"
  /\ match bachelors_grad_year p with
     | Some y => (2010 <= y <= 2024)%Z
                 /\ years_experience p = Some (current_year - y)%Z
     | None => years_experience p = None /\ needs_review p = true
     end
  /\ recruiter_url p = ""
  /\ needs_review p = negb (review p =? "").
Proof.
  intros Hex. pose proof (extracted_year current_year page wl p Hex) as Hyear.
  revert Hex. unfold _extract_from_open_panel.
  destruct (header page) as [data|]; [|discriminate].
  destruct (nonempty (strip (panel_name data))) eqn:Hn; cbn [negb]; [|discriminate].
  destruct (strip (panel_name data) =? "LinkedIn Member") eqn:Hm; [discriminate|].
  destruct (_extract_education_from_panel (education page))
    as [[should_scrape note] grad_year].
  destruct should_scrape; cbn [negb]; [|discriminate].
  destruct (title_check wl (strip (panel_title data))) as [title_review|];
    [|discriminate].
  intros [= <-]. cbn [full_name recruiter_url needs_review review].
  split; [unfold nonempty in Hn; apply String.eqb_neq;
          now destruct (strip (panel_name data) =? "")|].
  split; [now apply String.eqb_neq|].
  split; [exact Hyear|split; reflexivity].
Qed.

(** X3.  Adding phrases to a whitelist that is not empty never turns an
    accepted title into a rejected one, and leaves its note as it was. *)
Theorem whitelist_growth (title : string) (wl wl' : list string) :
  wl <> [] ->
  incl wl wl' ->
  fst (title_matches_whitelist title (Some wl)) = true ->
  title_matches_whitelist title (Some wl')
  = title_matches_whitelist title (Some wl).
Proof.
  intros Hne Hincl. unfold title_matches_whitelist.
  destruct (existsb _ TITLE_BLACKLIST); [discriminate|].
  destruct wl as [|a wl]; [now contradiction Hne|].
  cbn [truthy phrases andb].
  destruct (existsb (fun phrase => contains phrase (lower title)) (a :: wl))
    eqn:E; cbn [negb]; [|discriminate].
  intros _.
  apply existsb_exists in E. destruct E as (phrase & Hin & Hsub).
  assert (E' : existsb (fun phrase => contains phrase (lower title)) wl' = true).
  { apply existsb_exists. exists phrase. split; [now apply Hincl | exact Hsub]. }
  destruct wl' as [|b wl']; [discriminate|].
  cbn [truthy phrases andb]. now rewrite E'.
Qed.

Lemma whitelist_growth_witness :
  title_matches_whitelist "Senior Software Engineer"
    (Some ["data scientist"; "software engineer"])
  = title_matches_whitelist "Senior Software Engineer" (Some ["software engineer"]).
Proof.
  apply whitelist_growth.
  - discriminate.
  - intros x [<- | []]. right. now left.
  - vm_compute. reflexivity.
Defined.

Lemma extracted_record_shape_witness :
  full_name Samples.ada_profile <> ""
  /\ full_name Samples.ada_profile <> "LinkedIn Member"
  /\ match bachelors_grad_year Samples.ada_profile with
     | Some y => (2010 <= y <= 2024)%Z
                 /\ years_experience Samples.ada_profile = Some (2026 - y)%Z
     | None => years_experience Samples.ada_profile = None
               /\ needs_review Samples.ada_profile = true
     end
  /\ recruiter_url Samples.ada_profile = ""
  /\ needs_review Samples.ada_profile = negb (review Samples.ada_profile =? "").
Proof.
  apply (extracted_record_shape 2026 (open_panel Samples.ada) None).
  vm_compute. reflexivity.
Defined.

End Records.

(** ** What a page and a run return *)

Section Traversal.
Import PyStr PyDict Checkpoint ProfileNavigation Search Progress Visits.

(** X4.  A page traversal raises when the lookup of the first candidate
    link, a call on that link, or the screenshot taken when the panel does
    not open raises.  Otherwise it returns the records of the candidates it
    gets to, in order: those before the first crashed tab, and none after a
    candidate whose record could not be written (that record is still
    returned); a candidate the extractor drops is passed over, and without a
    candidate link or an opening panel there are none.  Neither the page
    number nor the state of the checkpoint file and log has a part in it.
    The file it leaves is what the writes for these candidates made of it;
    while no write raises, it has grown by exactly the returned records, in
    the same order, also when the traversal stops at a crashed tab. *)
Theorem page_traversal_returns current_year page wl page_num w :
  fst (process_page_via_navigation current_year page wl page_num w)
  = (if page_raises page then Raised PlaywrightError
     else Returned (page_records current_year wl page))
  /\ incremental (snd (process_page_via_navigation current_year page wl page_num w))
     = page_written current_year wl page (incremental w)
  /\ (Forall (fun c => write_raises current_year wl c = false) (candidates page) ->
      page_written current_year wl page (incremental w)
      = _save_profiles_incrementally
          (map to_dict (page_records current_year wl page))
          (incremental w)).
Proof.
  destruct (process_page_spec current_year page wl page_num w) as (H1 & H2 & _).
  split; [exact H1|]. split; [exact H2|].
  intros Hall. unfold page_written, page_records.
  destruct (panel_reached page); [|reflexivity].
  apply written_all. now apply visited_all.
Qed.

Lemma existsb_of_map {A B : Type} (f : B -> bool) (g : A -> B) (l : list A) :
  existsb f (map g l) = existsb (fun a => f (g a)) l.
Proof.
  induction l as [|a l IH]; [reflexivity|]. cbn [map existsb]. now rewrite IH.
Qed.

(** The pages a run starts, and the one at which it raises if it does. *)
Lemma started_pages chrome budget first :
  exists n,
    n <= budget
    /\ (0 < budget -> 0 < n)
    /\ pages_started chrome budget first = consecutive first n
    /\ existsb started_page_raises
         (map (result_pages chrome) (pages_started chrome budget first))
       = (0 <? n)%nat && started_page_raises
                       (result_pages chrome (first + Z.of_nat n - 1)%Z)
    /\ (n < budget ->
        let stop := result_pages chrome (first + Z.of_nat n - 1)%Z in
        results_loaded stop = false \/ page_raises stop = true
        \/ next_page stop = false).
Proof.
  destruct (pages_started_spec chrome budget first)
    as (n & Hn & Hpos & Hst & Hon & Hstop).
  exists n. split; [exact Hn|]. split; [exact Hpos|]. split; [exact Hst|]. split.
  - rewrite Hst, existsb_of_map.
    rewrite (existsb_consecutive_last
               (fun k => started_page_raises (result_pages chrome k))).
    + now destruct n.
    + intros k Hk. specialize (Hon k Hk). unfold goes_on in Hon.
      unfold started_page_raises.
      destruct (results_loaded _); [|reflexivity].
      destruct (page_raises _); [discriminate Hon|reflexivity].
  - intros Hlt. specialize (Hstop Hlt). cbv zeta. unfold goes_on in Hstop.
    destruct (results_loaded _); [|now left].
    destruct (page_raises _); [right; now left|].
    destruct (next_page _); [discriminate Hstop|right; now right].
Qed.

(** X5.  A run with a URL that [urlparse] accepts and whose first navigation
    succeeds starts [n] pages in a row from the start page, at most
    [max_pages + 1 - start_page] of them, and at least one when that number
    is positive.  When the traversal of the last of them raises, so does the
    run.  Otherwise it returns the records of these pages in page order, and
    as last page the last one it started (the start page itself when it
    started none).  It stops short of the page budget only at a page whose
    result cards do not load, whose traversal raises, or that has no next
    page. *)
Theorem run_search_pages
  (urlparse : string -> outcome ParseResult)
  (parse_qsl : string -> list (string * string))
  (urlunparse : ParseResult -> string)
  current_year chrome wl config url parsed w :
  saved_search_url config = Some url ->
  url <> "" ->
  urlparse url = Returned parsed ->
  goto_ok chrome = true ->
  let first := get (start_page config) 1%Z in
  let budget := Z.to_nat (get (max_pages config) 10%Z + 1 - first) in
  let r := run_search urlparse parse_qsl urlunparse current_year chrome wl config w in
  exists n,
    let pages := map (result_pages chrome) (consecutive first n) in
    let stop := result_pages chrome (first + Z.of_nat n - 1)%Z in
    n <= budget
    /\ (0 < budget -> 0 < n)
    /\ page_starts (trace (snd r)) = (page_starts (trace w) ++ consecutive first n)%list
    /\ fst r
       = (if (0 <? n)%nat && started_page_raises stop then Raised PlaywrightError
          else Returned (flat_map (started_page_records current_year wl) pages,
                         if (n =? 0)%nat then first else first + Z.of_nat n - 1)%Z)
    /\ (n < budget ->
        results_loaded stop = false \/ page_raises stop = true
        \/ next_page stop = false).
Proof.
  intros Hurl Hne Hparse Hgoto first budget r.
  destruct (run_search_spec urlparse parse_qsl urlunparse current_year chrome wl
              config url parsed w Hurl Hne Hparse Hgoto)
    as (H1 & _ & evs & Ht & _ & Hst).
  fold first in H1, Ht, Hst. fold budget in H1, Hst. fold r in H1, Ht.
  destruct (started_pages chrome budget first)
    as (n & Hn & Hpos & Hcons & Hraise & Hstop).
  exists n. cbv zeta. split; [exact Hn|]. split; [exact Hpos|].
  split; [|split; [|exact Hstop]].
  - rewrite Ht, page_starts_app. cbn [page_starts]. now rewrite Hst, Hcons.
  - rewrite H1, Hraise, Hcons. now rewrite last_consecutive.
Qed.

End Traversal.

Section TraversalExamples.
Import PyStr PyDict Checkpoint ProfileNavigation Search Visits Samples.

(** A page on which the write of the second record raises: the traversal
    returns two records and the file holds the first alone. *)
Lemma page_traversal_returns_witness :
  fst (process_page_via_navigation 2026 unsaved_page None 0 fresh)
  = Returned (page_records 2026 None unsaved_page)
  /\ List.length (page_records 2026 None unsaved_page) = 2
  /\ incremental (snd (process_page_via_navigation 2026 unsaved_page None 0 fresh))
     = _save_profiles_incrementally [to_dict ada_profile] None
  /\ page_written 2026 None quiet_page None
     = _save_profiles_incrementally
         (map to_dict (page_records 2026 None quiet_page)) None.
Proof.
  split; [exact (proj1 (page_traversal_returns 2026 unsaved_page None 0 fresh))|].
  split; [reflexivity|].
  split; [exact (proj1 (proj2 (page_traversal_returns 2026 unsaved_page None 0 fresh)))|].
  apply (proj2 (proj2 (page_traversal_returns 2026 quiet_page None 0 fresh))).
  repeat constructor.
Defined.

(** A resume run over pages 3 and 4 whose pages have no next page: it
    starts page 3 alone. *)
Lemma run_search_pages_witness :
  exists n,
    n <= 2
    /\ (0 < 2 -> 0 < n)
    /\ page_starts
         (trace (snd (run_search sample_urlparse sample_parse_qsl sample_urlunparse
                        2026 {| goto_ok := true; result_pages := fun _ => quiet_page |}
                        None (sample_config 3) interrupted)))
       = (page_starts (trace interrupted) ++ consecutive 3 n)%list
    /\ fst (run_search sample_urlparse sample_parse_qsl sample_urlunparse
              2026 {| goto_ok := true; result_pages := fun _ => quiet_page |}
              None (sample_config 3) interrupted)
       = (if (0 <? n)%nat && started_page_raises quiet_page then Raised PlaywrightError
          else Returned (flat_map (started_page_records 2026 None)
                                  (map (fun _ => quiet_page) (consecutive 3 n)),
                         if (n =? 0)%nat then 3 else 3 + Z.of_nat n - 1)%Z)
    /\ (n < 2 ->
        results_loaded quiet_page = false \/ page_raises quiet_page = true
        \/ next_page quiet_page = false).
Proof.
  apply (run_search_pages sample_urlparse sample_parse_qsl sample_urlunparse 2026
           {| goto_ok := true; result_pages := fun _ => quiet_page |}
           None (sample_config 3) sample_url sample_parsed interrupted).
  - reflexivity.
  - unfold sample_url. discriminate.
  - reflexivity.
  - reflexivity.
Defined.

(** A run over a page where a write raises and a next page where the click
    on the first link raises: the run raises, and the file holds one of the
    two records the first page gave. *)
Example run_raises_after_unsaved_record :
  run_search sample_urlparse sample_parse_qsl sample_urlunparse 2026
    {| goto_ok := true;
       result_pages := fun k => if (k =? 1)%Z then unsaved_page else stuck_page |}
    None (sample_config 1) fresh
  = (Raised PlaywrightError,
     {| incremental := _save_profiles_incrementally [to_dict ada_profile] None;
        trace := [ Navigate "https://www.linkedin.com/talent/search?searchContextId=abc&start=0";
                   ClearIncremental; PageStart 1; Extracted 1;
                   Unexpected 2 "candidate 2"; PageStart 2 ] |})
  /\ List.length (page_records 2026 None unsaved_page) = 2.
Proof. vm_compute. split; reflexivity. Qed.

End TraversalExamples.

(** ** The other parameters of the search URL *)

Section QueryFrame.
Import PyStr PyDict ProfileNavigation Search.

Lemma dict_set_others {A : Type} (k : string) (v : A) (d : dict A) :
  filter (fun kv => negb (fst kv =? k)) (dict_set k v d)
  = filter (fun kv => negb (fst kv =? k)) d.
Proof.
  induction d as [|[k' v'] d IH]; cbn [dict_set filter fst].
  - now rewrite String.eqb_refl.
  - destruct (k' =? k) eqn:E; cbn [filter fst negb];
      rewrite ?String.eqb_refl, ?E; cbn [negb]; now rewrite ?IH.
Qed.

(** The fields of an encoded query that are not named [start] are the
    fields of the items with another name. *)
Lemma other_fields (d : dict (list string)) :
  filter (fun field => negb (prefix "start=" field)) (urlencode_fields d)
  = urlencode_fields (filter (fun kv => negb (fst kv =? "start")) d).
Proof.
  unfold urlencode_fields.
  induction d as [|[k vs] d IH]; [reflexivity|].
  cbn [flat_map filter fst snd]. rewrite filter_app, IH.
  destruct (k =? "start") eqn:E; cbn [negb].
  - apply String.eqb_eq in E. subst k.
    replace (filter (fun field => negb (prefix "start=" field))
               (map (fun elt => quote_plus "start" ++ "=" ++ quote_plus elt) vs))
      with (@nil string); [reflexivity|].
    induction vs as [|elt vs IHvs]; [reflexivity|].
    cbn [map filter].
    change (quote_plus "start" ++ "=" ++ quote_plus elt)
      with ("start=" ++ quote_plus elt).
    now rewrite prefix_append.
  - cbn [flat_map fst snd]. f_equal.
    induction vs as [|elt vs IHvs]; [reflexivity|].
    cbn [map filter].
    destruct (prefix "start=" (quote_plus k ++ "=" ++ quote_plus elt)) eqn:Hp.
    + apply (quote_plus_name "start" eq_refl) in Hp. subst k.
      discriminate E.
    + cbn [negb]. now rewrite IHvs.
Qed.

(** X6.  The other parameters of the URL are not kept as pasted but written
    anew: the first thing the run does is to navigate to the pasted URL with
    a new query, and the [&]-separated fields of that query other than
    [start] are the encoding ([quote_plus] of the name, [=], [quote_plus] of
    the value) of the items [parse_qs] made of the pairs [parse_qsl] found in
    the pasted query, in the order of the dictionary.  What [parse_qsl] does
    not report (a parameter with a blank value) is not in the new query. *)
Theorem other_parameters_reencoded
  (urlparse : string -> outcome ParseResult)
  (parse_qsl : string -> list (string * string))
  (urlunparse : ParseResult -> string)
  current_year chrome wl config url parsed w :
  saved_search_url config = Some url ->
  url <> "" ->
  urlparse url = Returned parsed ->
  let first_page := get (start_page config) 1%Z in
  let pasted := parse_qs (parse_qsl (query parsed)) in
  let new_query :=
    urlencode (dict_set "start" [str_of_Z ((first_page - 1) * 25)] pasted) in
  filter (fun field => negb (prefix "start=" field)) (split_on "&" new_query)
  = urlencode_fields (filter (fun kv => negb (fst kv =? "start")) pasted)
  /\ exists evs,
       trace (snd (run_search urlparse parse_qsl urlunparse current_year chrome
                              wl config w))
       = (trace w
          ++ Navigate (urlunparse {| scheme := scheme parsed;
                                     netloc := netloc parsed;
                                     path := path parsed;
                                     params := params parsed;
                                     query := new_query;
                                     fragment := fragment parsed |})
          :: evs)%list.
Proof.
  intros Hurl Hne Hparse first_page pasted new_query. split.
  - subst new_query pasted.
    rewrite split_urlencode by apply parse_qs_nodup.
    now rewrite other_fields, dict_set_others.
  - exact (run_search_navigates urlparse parse_qsl urlunparse current_year chrome wl
             config url parsed w Hurl Hne Hparse).
Qed.

(** Start page 4 over the sample URL. *)
Lemma other_parameters_reencoded_witness :
  filter (fun field => negb (prefix "start=" field))
         (split_on "&" "searchContextId=abc&start=75")
  = ["searchContextId=abc"].
Proof.
  refine (proj1 (other_parameters_reencoded Samples.sample_urlparse
                   Samples.sample_parse_qsl Samples.sample_urlunparse 2026
                   {| goto_ok := true; result_pages := fun _ => Samples.quiet_page |}
                   None (Samples.sample_config 4) Samples.sample_url
                   Samples.sample_parsed Samples.fresh eq_refl _ eq_refl)).
  unfold Samples.sample_url. discriminate.
Defined.

End QueryFrame.

(** ** The graduation-year filter *)

Section YearFilter.
Import PyStr ProfileNavigation Search RecordFilters GuiApp Visits.

Lemma filter_flat_map {A B : Type} (f : B -> bool) (g : A -> list B) (l : list A) :
  filter f (flat_map g l) = flat_map (fun a => filter f (g a)) l.
Proof.
  induction l as [|a l IH]; [reflexivity|].
  cbn [flat_map]. now rewrite filter_app, IH.
Qed.

Lemma filter_as_flat_map {A : Type} (f : A -> bool) (l : list A) :
  filter f l = flat_map (fun a => if f a then [a] else []) l.
Proof.
  induction l as [|a l IH]; [reflexivity|].
  cbn [filter flat_map]. rewrite IH. now destruct (f a).
Qed.

Lemma map_filter_as_flat_map {A B : Type} (h : A -> B) (f : A -> bool) (l : list A) :
  map h (filter f l) = flat_map (fun a => if f a then [h a] else []) l.
Proof.
  induction l as [|a l IH]; [reflexivity|].
  cbn [filter flat_map]. rewrite <- IH. now destruct (f a).
Qed.

(** X7.  With a lower and an upper bound configured, the filter keeps the
    records with a year exactly when the year lies within the bounds, as
    they are and in their order; the records without a year are dropped,
    kept, or kept with the review flag set, as [no_bachelors_action] is
    "include", "flag" or anything else. *)
Theorem apply_filters_range
  (profiles : list profile) (config : filter_config) (lo hi : Z) :
  bachelors_grad_year_min config = Some lo -> lo <> 0%Z ->
  bachelors_grad_year_max config = Some hi -> hi <> 0%Z ->
  let with_year p := match bachelors_grad_year p with
                     | Some _ => true
                     | None => false
                     end in
  let in_range p := match bachelors_grad_year p with
                    | Some y => (lo <=? y)%Z && (y <=? hi)%Z
                    | None => false
                    end in
  let action := match no_bachelors_action config with
                | Some a => a
                | None => "skip"
                end in
  filter with_year (apply_filters profiles config) = filter in_range profiles
  /\ filter (fun p => negb (with_year p)) (apply_filters profiles config)
     = if action =? "include"
       then filter (fun p => negb (with_year p)) profiles
       else if action =? "flag"
       then map flagged (filter (fun p => negb (with_year p)) profiles)
       else [].
Proof.
  intros Hmin Hlo Hmax Hhi with_year in_range action.
  assert (Hbmin : bound_set (bachelors_grad_year_min config) = true).
  { rewrite Hmin. cbn. now destruct (lo =? 0)%Z eqn:E; [apply Z.eqb_eq in E|]. }
  assert (Hbmax : bound_set (bachelors_grad_year_max config) = true).
  { rewrite Hmax. cbn. now destruct (hi =? 0)%Z eqn:E; [apply Z.eqb_eq in E|]. }
  unfold apply_filters. rewrite Hbmin, Hbmax. cbn [negb andb].
  rewrite !filter_flat_map. split.
  - rewrite filter_as_flat_map. apply flat_map_ext. intros p.
    unfold kept, in_range, with_year.
    rewrite Hbmin, Hbmax, Hmin, Hmax. cbn [get_bound andb].
    destruct (bachelors_grad_year p) as [y|] eqn:Hy.
    + destruct (y <? lo)%Z eqn:E1.
      * apply Z.ltb_lt in E1.
        replace (lo <=? y)%Z with false by (symmetry; apply Z.leb_gt; lia).
        reflexivity.
      * apply Z.ltb_ge in E1.
        replace (lo <=? y)%Z with true by (symmetry; apply Z.leb_le; lia).
        destruct (hi <? y)%Z eqn:E2.
        -- apply Z.ltb_lt in E2.
           replace (y <=? hi)%Z with false by (symmetry; apply Z.leb_gt; lia).
           reflexivity.
        -- apply Z.ltb_ge in E2.
           replace (y <=? hi)%Z with true by (symmetry; apply Z.leb_le; lia).
           cbn [andb filter]. now rewrite Hy.
    + fold action.
      destruct (action =? "include"); [cbn; now rewrite Hy|].
      destruct (action =? "flag"); [cbn; now rewrite Hy | reflexivity].
  - assert (Hpoint : forall p,
              filter (fun p => negb (with_year p)) (kept config p)
              = if negb (with_year p)
                then (if action =? "include" then [p]
                      else if action =? "flag" then [flagged p] else [])
                else []).
    { intros p. unfold kept, with_year. fold action.
      destruct (bachelors_grad_year p) as [y|] eqn:Hy; cbn [negb].
      - destruct (_ && _); [reflexivity|].
        destruct (_ && _); [reflexivity|].
        cbn [filter]. now rewrite Hy.
      - destruct (action =? "include"); [cbn; now rewrite Hy|].
        destruct (action =? "flag"); [cbn; now rewrite Hy | reflexivity]. }
    destruct (action =? "include") eqn:Ei.
    + rewrite filter_as_flat_map. apply flat_map_ext. intros p.
      rewrite Hpoint. reflexivity.
    + destruct (action =? "flag") eqn:Ef.
      * rewrite map_filter_as_flat_map. apply flat_map_ext. intros p.
        rewrite Hpoint. reflexivity.
      * induction profiles as [|p ps IH]; [reflexivity|].
        cbn [flat_map]. rewrite Hpoint, IH.
        now destruct (negb (with_year p)).
Qed.

(** The records a run returns are records of the extractor. *)
Lemma page_records_extracted current_year wl page p :
  In p (page_records current_year wl page) ->
  exists panel, _extract_from_open_panel current_year panel wl = Some p.
Proof.
  unfold page_records. destruct (panel_reached page); [|intros []].
  unfold records_of. intros Hin. apply in_flat_map in Hin.
  destruct Hin as (c & _ & Hin). unfold extracted in Hin.
  destruct (_extract_from_open_panel current_year (open_panel c) wl) as [q|] eqn:E;
    [|destruct Hin].
  destruct Hin as [<- | []]. now exists (open_panel c).
Qed.

(** X8.  The filter of a run started from the window (years 2010 to 2024,
    records without a year flagged) changes nothing in what the traversal
    has extracted: every record has a year within the bounds, or has none
    and carries the review flag already. *)
Theorem gui_filter_keeps_extracted
  (current_year : Z) (wl : Filters.whitelist) (profiles : list profile) :
  (forall p, In p profiles ->
     exists panel, _extract_from_open_panel current_year panel wl = Some p) ->
  apply_filters profiles gui_filters = profiles.
Proof.
  intros Hall. unfold apply_filters. cbn [gui_filters bachelors_grad_year_min
    bachelors_grad_year_max bound_set Z.eqb negb andb].
  induction profiles as [|p ps IH]; [reflexivity|].
  cbn [flat_map]. rewrite IH by (intros q Hq; apply Hall; now right).
  destruct (Hall p (or_introl eq_refl)) as (panel & Hex).
  apply extracted_year in Hex. rename Hex into Hyear.
  unfold kept. cbn [gui_filters bachelors_grad_year_min bachelors_grad_year_max
                     no_bachelors_action bound_set get_bound Z.eqb negb andb].
  destruct (bachelors_grad_year p) as [y|] eqn:Hy.
  - destruct Hyear as [[H1 H2] _].
    replace (y <? 2010)%Z with false by (symmetry; apply Z.ltb_ge; lia).
    replace (2024 <? y)%Z with false by (symmetry; apply Z.ltb_ge; lia).
    reflexivity.
  - destruct Hyear as [_ Hflag]. cbn.
    f_equal. destruct p. cbn in *. now subst.
Qed.

Lemma gui_filter_keeps_extracted_witness :
  apply_filters (page_records 2026 None Samples.quiet_page) gui_filters
  = page_records 2026 None Samples.quiet_page.
Proof.
  apply (gui_filter_keeps_extracted 2026 None).
  intros p Hin. eapply page_records_extracted. exact Hin.
Defined.

Lemma apply_filters_range_witness :
  filter (fun p => match bachelors_grad_year p with Some _ => true | None => false end)
         (apply_filters [Samples.ada_profile; Samples.split_name_profile] gui_filters)
  = [Samples.ada_profile; Samples.split_name_profile].
Proof.
  rewrite (proj1 (apply_filters_range
                    [Samples.ada_profile; Samples.split_name_profile]
                    gui_filters 2010 2024 eq_refl ltac:(discriminate)
                    eq_refl ltac:(discriminate))).
  reflexivity.
Defined.

End YearFilter.

(** ** The public profile URL *)

Section PublicProfileUrl.
Import PyStr ProfileNavigation PublicUrl.

Lemma take_while_all (p : ascii -> bool) (s : string) :
  forallb p (list_ascii_of_string (take_while p s)) = true.
Proof.
  induction s as [|c s IH]; [reflexivity|].
  cbn [take_while]. destruct (p c) eqn:E; [|reflexivity].
  cbn. now rewrite E.
Qed.

Lemma take_while_fixed (p : ascii -> bool) (s : string) :
  forallb p (list_ascii_of_string s) = true -> take_while p s = s.
Proof.
  induction s as [|c s IH]; [reflexivity|].
  cbn. intros H. apply andb_true_iff in H. destruct H as [Hc Hs].
  now rewrite Hc, IH.
Qed.

Lemma search_handle_chars (s h : string) :
  search_handle s = Some h ->
  h <> "" /\ forallb handle_char (list_ascii_of_string h) = true.
Proof.
  induction s as [|c s IH]; cbn [search_handle]; unfold handle_here.
  - cbn. discriminate.
  - destruct (Json.drop_prefix "linkedin.com/in/" (String c s)) as [rest|].
    + pose proof (take_while_all handle_char rest) as Hall.
      destruct (take_while handle_char rest) as [|c0 h0]; [exact IH|].
      intros [= <-]. split; [discriminate | exact Hall].
    + exact IH.
Qed.

(** The canonical form is read back as it is. *)
Lemma search_handle_canonical (h : string) :
  h <> "" ->
  forallb handle_char (list_ascii_of_string h) = true ->
  search_handle ("https://www.linkedin.com/in/" ++ h) = Some h.
Proof.
  intros Hne Hall.
  do 12 (cbn [append search_handle]; unfold handle_here at 1;
         cbn [Json.drop_prefix Ascii.eqb Bool.eqb]).
  cbn [append search_handle]. unfold handle_here.
  cbn [Json.drop_prefix Ascii.eqb Bool.eqb].
  rewrite (take_while_fixed _ _ Hall).
  destruct h; [now contradiction Hne | reflexivity].
Qed.

Lemma normalize_url_idempotent (url : string) :
  _normalize_url (_normalize_url url) = _normalize_url url.
Proof.
  unfold _normalize_url at 2 3.
  destruct (search_handle url) as [h|] eqn:E.
  - destruct (search_handle_chars _ _ E) as [Hne Hall].
    unfold _normalize_url. now rewrite (search_handle_canonical h Hne Hall).
  - unfold _normalize_url. now rewrite E.
Qed.

Lemma drop_prefix_append (p : string) :
  forall s r, Json.drop_prefix p s = Some r -> s = p ++ r.
Proof.
  induction p as [|a p IH]; intros s r; cbn [Json.drop_prefix append].
  - now intros [= ->].
  - destruct s as [|b s]; [discriminate|].
    destruct (Ascii.eqb a b) eqn:E; [|discriminate].
    apply Ascii.eqb_eq in E. subst b. intros H. now rewrite (IH s r H).
Qed.

Lemma prefix_append_same (p h r : string) :
  prefix (p ++ h) (p ++ r) = prefix h r.
Proof.
  induction p as [|a p IH]; cbn [append prefix]; [reflexivity|].
  destruct (ascii_dec a a); [exact IH | congruence].
Qed.

Lemma prefix_take_while (f : ascii -> bool) (s : string) :
  prefix (take_while f s) s = true.
Proof.
  induction s as [|c s IH]; [reflexivity|].
  cbn [take_while]. destruct (f c); [|reflexivity].
  cbn [prefix]. destruct (ascii_dec c c); [exact IH | congruence].
Qed.

Lemma contains_prefix (sub s : string) : prefix sub s = true -> contains sub s = true.
Proof. intros H. destruct s; cbn [contains]; now rewrite H. Qed.

(** The handle found in a text follows [linkedin.com/in/] there. *)
Lemma search_handle_found (s h : string) :
  search_handle s = Some h -> contains ("linkedin.com/in/" ++ h) s = true.
Proof.
  induction s as [|c s IH]; cbn [search_handle]; unfold handle_here.
  - cbn. discriminate.
  - destruct (Json.drop_prefix "linkedin.com/in/" (String c s)) as [rest|] eqn:E.
    + pose proof (prefix_take_while handle_char rest) as Hp.
      destruct (take_while handle_char rest) as [|c0 h0].
      * intros H. cbn [contains]. rewrite (IH H). apply orb_true_r.
      * intros [= <-]. apply contains_prefix.
        rewrite (drop_prefix_append _ _ _ E). now rewrite prefix_append_same.
    + intros H. cbn [contains]. rewrite (IH H). apply orb_true_r.
Qed.
(** X9.  [_normalize_url] gives either its argument, when no profile URL is
    found in it, or the canonical URL of a handle that is not empty and
    stands right after [linkedin.com/in/] somewhere in the argument; and a
    normalized URL is left as it is by a second normalization. *)
Theorem normalize_url_canonical (url : string) :
  ((search_handle url = None /\ _normalize_url url = url)
   \/ exists h, _normalize_url url = "https://www.linkedin.com/in/" ++ h
                /\ h <> ""
                /\ contains ("linkedin.com/in/" ++ h) url = true)
  /\ _normalize_url (_normalize_url url) = _normalize_url url.
Proof.
  split; [|apply normalize_url_idempotent].
  unfold _normalize_url.
  destruct (search_handle url) as [h|] eqn:E.
  - destruct (search_handle_chars _ _ E) as [Hne _]. right. exists h.
    repeat split; [exact Hne | now apply search_handle_found].
  - now left.
Qed.

(** X10.  Whatever the driver finds or fails at, the URL taken from the
    panel is empty or in normalized form: normalizing it again changes
    nothing. *)
Theorem public_url_normalized (page : url_panel) :
  _normalize_url (_get_public_url_from_panel page) = _get_public_url_from_panel page.
Proof.
  assert (Hscan : _normalize_url (scan_links page) = scan_links page).
  { unfold scan_links. destruct (scanned_href page) as [url|]; [|reflexivity].
    destruct (given url); [apply normalize_url_idempotent | reflexivity]. }
  unfold _get_public_url_from_panel.
  destruct (public_button page) as [[|]|]; try reflexivity; try exact Hscan.
  destruct (button_click page); [|reflexivity].
  destruct (profile_link page) as [[|]|]; try reflexivity.
  - destruct (link_href page) as [url|]; [|reflexivity].
    destruct (escape_key page); [|reflexivity].
    destruct (given url); [apply normalize_url_idempotent | exact Hscan].
  - destruct (escape_key page); [exact Hscan | reflexivity].
Qed.

End PublicProfileUrl.

(** ** Locations *)

Section Locations.
Import PyStr Utils.

Lemma mem_char_append (c : ascii) (s t : string) :
  mem_char c (s ++ t) = mem_char c s || mem_char c t.
Proof.
  induction s as [|d s IH]; [reflexivity|].
  cbn. now rewrite IH, orb_assoc.
Qed.

Lemma mem_char_rev (c : ascii) (s : string) : mem_char c (rev s) = mem_char c s.
Proof.
  induction s as [|d s IH]; [reflexivity|].
  cbn [rev]. rewrite mem_char_append, IH. cbn. rewrite orb_false_r. apply orb_comm.
Qed.

Lemma mem_char_lstrip (c : ascii) (drop : ascii -> bool) (s : string) :
  mem_char c s = false -> mem_char c (lstrip_by drop s) = false.
Proof.
  induction s as [|d s IH]; [reflexivity|].
  cbn [lstrip_by]. destruct (drop d); [|auto].
  cbn. intros H. apply orb_false_iff in H. now apply IH.
Qed.

Lemma mem_char_strip (c : ascii) (drop : ascii -> bool) (s : string) :
  mem_char c s = false -> mem_char c (strip_by drop s) = false.
Proof.
  intros H. unfold strip_by.
  rewrite mem_char_rev. apply mem_char_lstrip.
  rewrite mem_char_rev. now apply mem_char_lstrip.
Qed.

Lemma split_on_first (sep : ascii) (s : string) :
  match split_on sep s with
  | part :: _ => mem_char sep part = false
  | [] => True
  end.
Proof.
  induction s as [|c s IH]; [reflexivity|].
  cbn [split_on]. destruct (Ascii.eqb c sep) eqn:E; [reflexivity|].
  destruct (split_on sep s) as [|part parts]; cbn.
  - rewrite Ascii.eqb_sym, E. reflexivity.
  - rewrite Ascii.eqb_sym, E. exact IH.
Qed.

Lemma split_on_nonempty (sep : ascii) (s : string) : split_on sep s <> [].
Proof.
  destruct s as [|c s]; [discriminate|].
  cbn [split_on]. destruct (Ascii.eqb c sep); [discriminate|].
  destruct (split_on sep s); discriminate.
Qed.

(** X11.  A normalized location never holds a comma: it is "NYC", "SF", or
    the text before the first comma without the white space around it. *)
Theorem normalize_location_no_comma (raw : string) :
  mem_char "," (normalize_location raw) = false.
Proof.
  unfold normalize_location.
  destruct (existsb _ NYC_ALIASES); [reflexivity|].
  destruct (existsb _ SF_ALIASES); [reflexivity|].
  pose proof (split_on_first "," raw) as H.
  destruct (split_on "," raw) as [|part parts] eqn:E.
  - now apply split_on_nonempty in E.
  - now apply mem_char_strip.
Qed.

End Locations.

(** ** A tab title that holds "error" *)

Section ErrorTitle.
Import PyStr Checkpoint ProfileNavigation Visits.

(** X12.  The crash detector takes any tab title that holds "error", in any
    letter case, for a crashed tab.  When that is the title at the first
    candidate of a page, the page gives no record (the traversal returns
    none, unless a call of the driver raises before it gets to the
    candidate) and the checkpoint file is left as it was, whatever the
    panels hold. *)
Theorem error_title_stops_page
  (current_year : Z) (page : result_page) (wl : Filters.whitelist)
  (page_num : Z) (w : world) (title : string) :
  page_title (chrome_tab (first_candidate page)) = Value title ->
  contains "error" (lower title) = true ->
  fst (process_page_via_navigation current_year page wl page_num w)
  = (if page_raises page then Raised PlaywrightError else Returned [])
  /\ incremental (snd (process_page_via_navigation current_year page wl page_num w))
     = incremental w.
Proof.
  intros Htitle Herr.
  assert (Hc : crashed (first_candidate page) = true).
  { unfold crashed, _is_chrome_crashed. rewrite Htitle.
    cbn [existsb]. now rewrite Herr, orb_true_r. }
  destruct (process_page_spec current_year page wl page_num w) as (H1 & H2 & _).
  rewrite H1, H2. unfold page_records, page_written, candidates.
  rewrite visited_cons, Hc. now destruct (panel_reached page).
Qed.

Lemma error_title_stops_page_witness :
  fst (process_page_via_navigation 2026 Samples.error_title_page None 1 Samples.fresh)
  = Returned []
  /\ incremental (snd (process_page_via_navigation 2026 Samples.error_title_page
                         None 1 Samples.fresh))
     = incremental Samples.fresh.
Proof.
  refine (error_title_stops_page 2026 Samples.error_title_page None 1 Samples.fresh
            "Error budget engineers | Recruiter" _ _).
  - reflexivity.
  - vm_compute. reflexivity.
Defined.

End ErrorTitle.

(** ** The title whitelist file *)

Section WhitelistFile.
Import PyStr Filters ProfileNavigation TitleWhitelist.

Lemma lower_char_idempotent (c : ascii) : lower_char (lower_char c) = lower_char c.
Proof.
  destruct c as [b0 b1 b2 b3 b4 b5 b6 b7].
  destruct b0, b1, b2, b3, b4, b5, b6, b7; reflexivity.
Qed.

Lemma lower_idempotent (s : string) : lower (lower s) = lower s.
Proof.
  induction s as [|c s IH]; [reflexivity|].
  cbn. now rewrite lower_char_idempotent, IH.
Qed.

Lemma is_space_lower_char (c : ascii) : is_space (lower_char c) = is_space c.
Proof.
  destruct c as [b0 b1 b2 b3 b4 b5 b6 b7].
  destruct b0, b1, b2, b3, b4, b5, b6, b7; reflexivity.
Qed.

Lemma append_assoc (a b c : string) : (a ++ b) ++ c = a ++ b ++ c.
Proof.
  induction a as [|x a IH]; [reflexivity|]. cbn. now rewrite IH.
Qed.

Lemma append_empty (a : string) : a ++ "" = a.
Proof.
  induction a as [|x a IH]; [reflexivity|]. cbn. now rewrite IH.
Qed.

Lemma rev_append (a b : string) : rev (a ++ b) = rev b ++ rev a.
Proof.
  induction a as [|x a IH]; cbn; [now rewrite append_empty|].
  now rewrite IH, append_assoc.
Qed.

Lemma rev_involutive (a : string) : rev (rev a) = a.
Proof.
  induction a as [|x a IH]; [reflexivity|].
  cbn. rewrite rev_append, IH. reflexivity.
Qed.

Lemma lstrip_by_idempotent (d : ascii -> bool) (s : string) :
  lstrip_by d (lstrip_by d s) = lstrip_by d s.
Proof.
  induction s as [|c s IH]; [reflexivity|].
  cbn [lstrip_by]. destruct (d c) eqn:E; [exact IH|].
  cbn [lstrip_by]. now rewrite E.
Qed.

Lemma lstrip_by_keeps_end (d : ascii -> bool) (a : ascii) (s : string) :
  d a = false ->
  exists t, lstrip_by d (s ++ String a "") = t ++ String a "".
Proof.
  intros Ha. induction s as [|c s IH]; cbn [append lstrip_by].
  - rewrite Ha. now exists "".
  - destruct (d c); [exact IH|]. now exists (String c s).
Qed.

(** Stripping a stripped string changes nothing. *)
Lemma strip_by_idempotent (d : ascii -> bool) (s : string) :
  strip_by d (strip_by d s) = strip_by d s.
Proof.
  unfold strip_by.
  assert (H : lstrip_by d (rev (lstrip_by d (rev (lstrip_by d s))))
              = rev (lstrip_by d (rev (lstrip_by d s)))).
  { pose proof (lstrip_by_idempotent d s) as Hid.
    destruct (lstrip_by d s) as [|a t] eqn:E; [reflexivity|].
    assert (Ha : d a = false).
    { cbn [lstrip_by] in Hid. destruct (d a) eqn:Ea; [|reflexivity].
      exfalso.
      assert (Hlen : length (lstrip_by d t) <= length t).
      { clear. induction t as [|c t IH]; cbn; [lia|].
        destruct (d c); cbn; lia. }
      rewrite Hid in Hlen. cbn in Hlen. lia. }
    cbn [rev].
    destruct (lstrip_by_keeps_end d a (rev t) Ha) as (u & Hu).
    rewrite Hu, rev_append. cbn [rev append lstrip_by]. now rewrite Ha. }
  rewrite H, rev_involutive, lstrip_by_idempotent. reflexivity.
Qed.

Lemma lower_append (a b : string) : lower (a ++ b) = lower a ++ lower b.
Proof.
  induction a as [|x a IH]; [reflexivity|]. cbn. now rewrite IH.
Qed.

Lemma lower_rev (a : string) : lower (rev a) = rev (lower a).
Proof.
  induction a as [|x a IH]; [reflexivity|].
  cbn. now rewrite lower_append, IH.
Qed.

Lemma lower_lstrip (s : string) :
  lower (lstrip_by is_space s) = lstrip_by is_space (lower s).
Proof.
  induction s as [|c s IH]; [reflexivity|].
  cbn [lstrip_by lower]. rewrite is_space_lower_char.
  destruct (is_space c); [exact IH | reflexivity].
Qed.

Lemma lower_strip (s : string) : lower (strip s) = strip (lower s).
Proof.
  unfold strip, strip_by.
  now rewrite lower_rev, lower_lstrip, lower_rev, lower_lstrip.
Qed.

Lemma set_add_in (x y : string) (l : list string) :
  In y (set_add x l) -> y = x \/ In y l.
Proof.
  unfold set_add. destruct (existsb (String.eqb x) l); [now right|].
  intros H. apply in_app_or in H. destruct H as [H | [<- | []]]; auto.
Qed.

Lemma set_add_nodup (x : string) (l : list string) :
  NoDup l -> NoDup (set_add x l).
Proof.
  intros Hnd. unfold set_add.
  destruct (existsb (String.eqb x) l) eqn:E; [assumption|].
  assert (Hnot : ~ In x l).
  { intros Hin. assert (existsb (String.eqb x) l = true).
    { apply existsb_exists. exists x. split; [assumption | apply String.eqb_refl]. }
    congruence. }
  clear E. induction Hnd as [|a l Ha Hnd IH]; cbn.
  - constructor; [intros [] | constructor].
  - constructor.
    + intros Hin. apply in_app_or in Hin. destruct Hin as [Hin | [<- | []]].
      * contradiction.
      * apply Hnot. now left.
    + apply IH. intros Hin. apply Hnot. now right.
Qed.

(** X13.  The phrases loaded from a whitelist file: each is non-empty, in
    lower case and without white space around it, and none occurs twice. *)
Theorem loaded_phrases_clean (text : string) (phrases : list string) :
  load_title_whitelist (Some text) = Some phrases ->
  NoDup phrases
  /\ forall phrase, In phrase phrases ->
       phrase <> "" /\ lower phrase = phrase /\ strip phrase = phrase.
Proof.
  cbn [load_title_whitelist]. intros [= <-].
  assert (H : forall lines acc,
            (NoDup acc
             /\ forall phrase, In phrase acc ->
                  phrase <> "" /\ lower phrase = phrase /\ strip phrase = phrase) ->
            NoDup (fold_left add_line lines acc)
            /\ forall phrase, In phrase (fold_left add_line lines acc) ->
                 phrase <> "" /\ lower phrase = phrase /\ strip phrase = phrase).
  { induction lines as [|line lines IH]; intros acc Hacc; [exact Hacc|].
    cbn [fold_left]. apply IH. destruct Hacc as [Hnd Hall].
    unfold add_line.
    destruct (strip (sub_groups 0 line) =? "") eqn:E; cbn [negb]; [now split|].
    split; [now apply set_add_nodup|].
    intros phrase Hin. apply set_add_in in Hin.
    destruct Hin as [-> | Hin]; [|now apply Hall].
    apply String.eqb_neq in E. repeat split.
    - destruct (strip (sub_groups 0 line)); [now contradiction E | discriminate].
    - apply lower_idempotent.
    - rewrite <- lower_strip. f_equal. apply strip_by_idempotent. }
  apply H. split; [constructor | intros phrase []].
Qed.

Lemma loaded_phrases_clean_witness :
  NoDup ["software engineer"; "data scientist"]
  /\ forall phrase, In phrase ["software engineer"; "data scientist"] ->
       phrase <> "" /\ lower phrase = phrase /\ strip phrase = phrase.
Proof.
  apply (loaded_phrases_clean
           ("Software Engineer (Snowflake alum)" ++ Checkpoint.newline
            ++ "  " ++ Checkpoint.newline
            ++ "(2021-2024)" ++ Checkpoint.newline
            ++ "Data Scientist" ++ Checkpoint.newline
            ++ "software engineer [alum]" ++ Checkpoint.newline)).
  vm_compute. reflexivity.
Defined.

(** X14.  Once the whitelist file exists, whatever it holds (nothing at
    all, too), a candidate whose title holds a blacklist phrase is not
    extracted; the blacklist is off only when there is no file. *)
Theorem whitelist_file_switches_blacklist
  (text : string) (current_year : Z) (page : panel) (data : panel_data)
  (phrase : string) :
  header page = Value data ->
  In phrase TITLE_BLACKLIST ->
  contains phrase (lower (strip (panel_title data))) = true ->
  _extract_from_open_panel current_year page (load_title_whitelist (Some text))
  = None.
Proof.
  intros Hhead Hin Hsub. cbn [load_title_whitelist].
  unfold _extract_from_open_panel. rewrite Hhead.
  destruct (negb (nonempty (strip (panel_name data)))); [reflexivity|].
  destruct (strip (panel_name data) =? "LinkedIn Member"); [reflexivity|].
  destruct (_extract_education_from_panel (education page))
    as [[should_scrape note] grad_year].
  destruct (negb should_scrape); [reflexivity|].
  assert (Hne : nonempty (strip (panel_title data)) = true).
  { destruct (strip (panel_title data)); [|reflexivity].
    exfalso. cbn in Hin.
    repeat (destruct Hin as [<- | Hin]; [vm_compute in Hsub; discriminate|]).
    contradiction. }
  unfold title_check. rewrite Hne. unfold title_matches_whitelist.
  assert (H : existsb (fun phrase => contains phrase (lower (strip (panel_title data))))
                      TITLE_BLACKLIST = true).
  { apply existsb_exists. exists phrase. split; assumption. }
  now rewrite H.
Qed.

Lemma whitelist_file_switches_blacklist_witness :
  load_title_whitelist (Some "") = Some []
  /\ _extract_from_open_panel 2026
       (Samples.sample_panel "Ada" "Director of Engineering" "BS" ["2015"])
       (load_title_whitelist (Some "")) = None.
Proof.
  split; [reflexivity|].
  eapply (whitelist_file_switches_blacklist "" 2026 _ _ "director").
  - reflexivity.
  - now left.
  - vm_compute. reflexivity.
Defined.

End WhitelistFile.

(** ** Reading back what the encoder writes *)

(** Case analysis on the 256 characters. *)
Ltac each_char c :=
  let b0 := fresh in let b1 := fresh in let b2 := fresh in let b3 := fresh in
  let b4 := fresh in let b5 := fresh in let b6 := fresh in let b7 := fresh in
  destruct c as [b0 b1 b2 b3 b4 b5 b6 b7];
  destruct b0, b1, b2, b3, b4, b5, b6, b7.

Section JsonRoundTrip.
Import PyStr PyDict Json JsonLines Checkpoint.

Lemma str_append_assoc (a b c : string) : (a ++ b) ++ c = a ++ b ++ c.
Proof.
  induction a as [|x a IH]; [reflexivity|]. cbn. now rewrite IH.
Qed.

(** One escaped character is read back as one item, which stands for the
    character. *)
Lemma scan_escape_char (c : ascii) (t : string) :
  scan_str_items (escape_char c ++ t) = cons_item (item_of c) (scan_str_items t).
Proof. each_char c; reflexivity. Qed.

Lemma decode_item_of (c : ascii) (items : list str_item) :
  decode_items (item_of c :: items) = String c (decode_items items).
Proof.
  each_char c; try reflexivity; destruct items as [|[d|lo] items]; reflexivity.
Qed.

Lemma scan_escape (s tail : string) :
  scan_str_items (escape s ++ String dquote tail)
  = Some (map item_of (list_ascii_of_string s), tail).
Proof.
  induction s as [|c s IH]; cbn [escape append list_ascii_of_string map].
  - cbn [scan_str_items]. now rewrite Ascii.eqb_refl.
  - rewrite str_append_assoc, scan_escape_char, IH. reflexivity.
Qed.

Lemma decode_escape (s : string) :
  decode_items (map item_of (list_ascii_of_string s)) = s.
Proof.
  induction s as [|c s IH]; [reflexivity|].
  cbn [list_ascii_of_string map]. now rewrite decode_item_of, IH.
Qed.

(** A string literal written by the encoder is read back as the string. *)
Lemma scanstring_encoded (s tail : string) :
  scanstring (escape s ++ String dquote tail) = Some (s, tail).
Proof.
  unfold scanstring. now rewrite scan_escape, decode_escape.
Qed.

Lemma digits_value_acc (d : Decimal.uint) (acc : positive) :
  digits_value (Zpos acc) (NilEmpty.string_of_uint d) = Zpos (Pos.of_uint_acc d acc).
Proof.
  revert acc.
  induction d as [|d IH|d IH|d IH|d IH|d IH|d IH|d IH|d IH|d IH|d IH]; intro acc;
    [reflexivity|..];
    cbn [NilEmpty.string_of_uint digits_value Pos.of_uint_acc];
    rewrite <- IH; f_equal.
all: match goal with
     | |- context [Z.of_nat ?n] =>
         let v := eval vm_compute in (Z.of_nat n) in change (Z.of_nat n) with v
     end; lia.
Qed.

Lemma digits_value_uint (d : Decimal.uint) :
  digits_value 0 (NilEmpty.string_of_uint d) = Z.of_N (Pos.of_uint d).
Proof.
  induction d as [|d IH|d IH|d IH|d IH|d IH|d IH|d IH|d IH|d IH|d IH];
    [reflexivity|exact IH|..];
    cbn [NilEmpty.string_of_uint digits_value Pos.of_uint Z.of_N];
    rewrite <- digits_value_acc; reflexivity.
Qed.

Lemma digits_closes (rest : string) :
  closes rest = true -> digits rest = (EmptyString, rest).
Proof.
  destruct rest as [|c rest]; [reflexivity|]. cbn [closes digits].
  intro H. apply orb_true_iff in H.
  destruct H as [H|H]; apply Ascii.eqb_eq in H; subst c; reflexivity.
Qed.

Lemma digits_uint (d : Decimal.uint) (rest : string) :
  closes rest = true ->
  digits (NilEmpty.string_of_uint d ++ rest) = (NilEmpty.string_of_uint d, rest).
Proof.
  intro H.
  induction d as [|d IH|d IH|d IH|d IH|d IH|d IH|d IH|d IH|d IH|d IH];
    [now apply digits_closes|..];
    cbn [NilEmpty.string_of_uint append]; 
    change (digits (String ?c ?s)) with (let (d, rest) := digits s in (String c d, rest));
    rewrite IH; reflexivity.
Qed.

Lemma nzhead_not_zero (d l : Decimal.uint) : Decimal.nzhead d <> Decimal.D0 l.
Proof.
  induction d; cbn; try discriminate. exact IHd.
Qed.

Lemma to_uint_no_leading_zero (p : positive) (l : Decimal.uint) :
  Pos.to_uint p <> Decimal.D0 l.
Proof.
  intro E.
  pose proof (DecimalPos.Unsigned.of_to p) as H. rewrite E in H. cbn [Pos.of_uint] in H.
  pose proof (DecimalPos.Unsigned.to_of l) as H'. rewrite H in H'. cbn [N.to_uint] in H'.
  rewrite E in H'. unfold Decimal.unorm in H'.
  destruct (Decimal.nzhead l) eqn:En;
    try discriminate;
    try (symmetry in H'; rewrite <- En in H'; now apply nzhead_not_zero in H').
  injection H' as ->. now apply (DecimalPos.Unsigned.to_uint_nonzero p).
Qed.

(** The text of a positive integer: digits, the first of which is not 0. *)
Lemma str_of_pos (p : positive) :
  exists c s, NilZero.string_of_uint (Pos.to_uint p) = String c s
              /\ NilEmpty.string_of_uint (Pos.to_uint p) = String c s
              /\ in_range 49 57 c = true.
Proof.
  pose proof (to_uint_no_leading_zero p) as Hz.
  pose proof (DecimalPos.Unsigned.to_uint_nonnil p) as Hn.
  destruct (Pos.to_uint p) as [|l|l|l|l|l|l|l|l|l|l];
    [now contradiction Hn | now contradiction (Hz l) | ..];
    eexists; eexists; repeat split; reflexivity.
Qed.

Lemma int_of_pos (p : positive) :
  int_of_digits (NilEmpty.string_of_uint (Pos.to_uint p)) = Zpos p.
Proof.
  change (digits_value 0 (NilEmpty.string_of_uint (Pos.to_uint p)) = Zpos p).
  now rewrite digits_value_uint, DecimalPos.Unsigned.of_to.
Qed.

Lemma scan_frac_closes rest : closes rest = true -> scan_frac rest = (EmptyString, rest).
Proof.
  destruct rest as [|c rest]; [reflexivity|]. cbn [closes scan_frac].
  intro H. apply orb_true_iff in H.
  destruct H as [H|H]; apply Ascii.eqb_eq in H; subst c; reflexivity.
Qed.

Lemma scan_exp_closes rest : closes rest = true -> scan_exp rest = (EmptyString, rest).
Proof.
  destruct rest as [|c rest]; [reflexivity|]. cbn [closes scan_exp].
  intro H. apply orb_true_iff in H.
  destruct H as [H|H]; apply Ascii.eqb_eq in H; subst c; reflexivity.
Qed.

Lemma keyword_digit (c : ascii) (s : string) :
  is_digit c = true -> keyword (String c s) = None.
Proof. each_char c; intro H; try discriminate H; reflexivity. Qed.

Lemma keyword_minus_digit (c : ascii) (s : string) :
  is_digit c = true -> keyword (String "-" (String c s)) = None.
Proof. each_char c; intro H; try discriminate H; reflexivity. Qed.

Lemma scan_sign_digit (c : ascii) (s : string) :
  is_digit c = true -> scan_sign (String c s) = (EmptyString, String c s).
Proof. each_char c; intro H; try discriminate H; reflexivity. Qed.

Lemma scan_int_nonzero (c : ascii) (s : string) :
  in_range 49 57 c = true -> scan_int (String c s) = Some (digits (String c s)).
Proof. each_char c; intro H; try discriminate H; reflexivity. Qed.

Lemma nonzero_digit (c : ascii) : in_range 49 57 c = true -> is_digit c = true.
Proof. each_char c; intro H; try discriminate H; reflexivity. Qed.

Lemma scan_number_unsigned (c : ascii) (s rest : string) :
  in_range 49 57 c = true ->
  digits (String c s ++ rest) = (String c s, rest) ->
  closes rest = true ->
  scan_number (String c s ++ rest) = Some (JInt (int_of_digits (String c s)), rest)
  /\ scan_number (String "-" (String c s ++ rest))
     = Some (JInt (- int_of_digits (String c s)), rest).
Proof.
  intros Hc Hd H.
  assert (Hn : forall sign,
             match scan_int (String c s ++ rest) with
             | None => None
             | Some (ip, s2) =>
                 let (frac, s3) := scan_frac s2 in
                 let (expo, s4) := scan_exp s3 in
                 match frac, expo with
                 | EmptyString, EmptyString =>
                     Some (JInt (if sign =? "-" then - int_of_digits ip
                                 else int_of_digits ip), s4)
                 | _, _ => Some (JFloat (sign ++ ip ++ frac ++ expo), s4)
                 end
             end
             = Some (JInt (if sign =? "-" then - int_of_digits (String c s)
                           else int_of_digits (String c s)), rest)).
  { intro sign. cbn [append] in *.
    rewrite (scan_int_nonzero c _ Hc), Hd, (scan_frac_closes rest H).
    now rewrite (scan_exp_closes rest H). }
  split.
  - unfold scan_number. cbn [append].
    rewrite (scan_sign_digit c _ (nonzero_digit c Hc)). exact (Hn EmptyString).
  - unfold scan_number. cbn [scan_sign Ascii.eqb Bool.eqb]. exact (Hn "-").
Qed.

(** An integer written by [str] is read back as the integer. *)
Lemma scan_number_int (n : Z) (rest : string) :
  closes rest = true ->
  keyword (str_of_Z n ++ rest) = None
  /\ scan_number (str_of_Z n ++ rest) = Some (JInt n, rest).
Proof.
  intro H. unfold str_of_Z.
  destruct n as [|p|p]; cbn [Z.to_int NilZero.string_of_int].
  - split; [reflexivity|]. 
    unfold scan_number. cbn [NilZero.string_of_uint append scan_sign Ascii.eqb Bool.eqb scan_int].
    cbn. now rewrite (scan_frac_closes rest H), (scan_exp_closes rest H).
  - destruct (str_of_pos p) as (c & s & E0 & E & Hc).
    pose proof (int_of_pos p) as Hv.
    pose proof (digits_uint (Pos.to_uint p) rest H) as Hd.
    rewrite E0. rewrite E in Hv, Hd. split.
    + apply keyword_digit, nonzero_digit, Hc.
    + rewrite <- Hv. now apply scan_number_unsigned.
  - destruct (str_of_pos p) as (c & s & E0 & E & Hc).
    pose proof (int_of_pos p) as Hv.
    pose proof (digits_uint (Pos.to_uint p) rest H) as Hd.
    rewrite E0. rewrite E in Hv, Hd. split.
    + apply keyword_minus_digit, nonzero_digit, Hc.
    + change (Z.neg p) with (- Z.pos p)%Z. rewrite <- Hv.
      now apply scan_number_unsigned.
Qed.

Lemma closes_after_members ms tail : closes (after_members ms tail) = true.
Proof. destruct ms; reflexivity. Qed.

Lemma join_members (m : string * value) (ms : list (string * value)) (tail : string) :
  join ", " (map member_text (m :: ms)) ++ "}" ++ tail
  = member_text m ++ after_members ms tail.
Proof.
  revert m. induction ms as [|m' ms IH]; intro m; [reflexivity|].
  change (join ", " (map member_text (m :: m' :: ms)))
    with (member_text m ++ ", " ++ join ", " (map member_text (m' :: ms))).
  rewrite !str_append_assoc, IH. reflexivity.
Qed.

Lemma member_text_app (k : string) (v : value) (rest : string) :
  member_text (k, v) ++ rest
  = String dquote (escape k ++ String dquote (String ":" (String " " (dumps v ++ rest)))).
Proof.
  unfold member_text, encode_str, str1. cbn [fst snd append].
  now rewrite !str_append_assoc.
Qed.

Lemma str_of_Z_head (n : Z) :
  exists c s, str_of_Z n = String c s /\ (is_digit c || Ascii.eqb c "-") = true.
Proof.
  unfold str_of_Z. destruct n as [|p|p]; cbn [Z.to_int NilZero.string_of_int].
  - now exists "0"%char, EmptyString.
  - destruct (str_of_pos p) as (c & s & E & _ & Hc). exists c, s. split; [exact E|].
    now rewrite (nonzero_digit c Hc).
  - eexists; eexists; split; reflexivity.
Qed.

Lemma scan_once_number (fuel : nat) (c : ascii) (s : string) :
  (is_digit c || Ascii.eqb c "-") = true ->
  scan_once (S fuel) (String c s)
  = match keyword (String c s) with
    | Some (v, rest) => Parsed v rest
    | None => match scan_number (String c s) with
              | Some (v, rest) => Parsed v rest
              | None => Malformed
              end
    end
  /\ skip_ws (String c s) = String c s.
Proof. each_char c; intro H; try discriminate H; split; reflexivity. Qed.

(** A scalar written by the encoder is read back as the scalar. *)
Lemma scan_scalar (v : value) (fuel : nat) (rest : string) :
  scalar v = true -> closes rest = true ->
  scan_once (S fuel) (dumps v ++ rest) = Parsed v rest
  /\ skip_ws (dumps v ++ rest) = dumps v ++ rest.
Proof.
  intros Hs Hc. destruct v as [|[|]|n|l|s|items|members]; try discriminate Hs;
    try (split; reflexivity).
  - destruct (scan_number_int n rest Hc) as [Hk Hn].
    destruct (str_of_Z_head n) as (c & s & E & H).
    cbn [dumps] in *. rewrite E in *. cbn [append] in *.
    destruct (scan_once_number fuel c (s ++ rest) H) as [-> ->].
    now rewrite Hk, Hn.
  - cbn [dumps]. unfold encode_str, str1. cbn [append].
    rewrite str_append_assoc. cbn [append]. split; [|reflexivity].
    cbn [scan_once]. rewrite Ascii.eqb_refl. now rewrite scanstring_encoded.
Qed.

Lemma dict_set_fresh {A : Type} (k : string) (v : A) (acc rest : list (string * A)) :
  distinct (map fst (acc ++ (k, v) :: rest)) = true ->
  PyDict.dict_set k v acc = (acc ++ [(k, v)])%list.
Proof.
  induction acc as [|[k' v'] acc IH]; [reflexivity|].
  cbn [app map fst distinct PyDict.dict_set]. intro H.
  apply andb_true_iff in H. destruct H as [Hk Hd].
  rewrite map_app, existsb_app in Hk. cbn [map fst existsb] in Hk.
  destruct (k' =? k) eqn:E.
  - rewrite orb_true_r in Hk. cbn in Hk. discriminate.
  - now rewrite (IH Hd).
Qed.

Lemma scan_member (fuel : nat) (acc : list (string * value))
      (k : string) (v : value) (rest : string) :
  scalar v = true -> closes rest = true ->
  scan_members (S (S fuel)) acc (member_text (k, v) ++ rest)
  = match rest with
    | String d r4 =>
        if Ascii.eqb d "}" then Parsed (JObj (PyDict.dict_set k v acc)) r4
        else if Ascii.eqb d "," then
          scan_members (S fuel) (PyDict.dict_set k v acc) (skip_ws r4)
        else Malformed
    | EmptyString => Malformed
    end.
Proof.
  intros Hv Hc. rewrite member_text_app.
  generalize (S fuel) (scan_scalar v fuel rest Hv Hc). intros f [Hscan Hskip].
  cbn [scan_members]. rewrite Ascii.eqb_refl. cbn [negb].
  rewrite scanstring_encoded.
  change (skip_ws (String ":" (String " " (dumps v ++ rest))))
    with (String ":" (String " " (dumps v ++ rest))).
  cbv beta iota. rewrite Ascii.eqb_refl. cbn [negb].
  change (skip_ws (String " " (dumps v ++ rest))) with (skip_ws (dumps v ++ rest)).
  rewrite Hskip, Hscan.
  destruct rest as [|d r4]; [reflexivity|].
  cbn [closes] in Hc. apply orb_true_iff in Hc.
  destruct Hc as [H|H]; apply Ascii.eqb_eq in H; subst d; reflexivity.
Qed.

Lemma scan_members_flat (ms : list (string * value)) :
  forall (m : string * value) (fuel : nat) (acc : list (string * value)) (tail : string),
    List.length ms + 1 < fuel ->
    forallb scalar (map snd (m :: ms)) = true ->
    distinct (map fst (acc ++ m :: ms)) = true ->
    scan_members fuel acc (member_text m ++ after_members ms tail)
    = Parsed (JObj (acc ++ m :: ms)) tail.
Proof.
  induction ms as [|m' ms IH]; intros [k v] fuel acc tail Hf Hs Hd;
    (destruct fuel as [|[|fuel]]; [cbn in Hf; lia..|]);
    cbn [map snd forallb] in Hs; apply andb_true_iff in Hs; destruct Hs as [Hv Hs];
    rewrite (scan_member fuel acc k v _ Hv (closes_after_members _ tail));
    rewrite (dict_set_fresh k v acc _ Hd).
  - reflexivity.
  - cbn [after_members append Ascii.eqb Bool.eqb].
    change (skip_ws (String " " ?s)) with (skip_ws s).
    destruct m' as [k' v'].
    replace (skip_ws (member_text (k', v') ++ after_members ms tail))
      with (member_text (k', v') ++ after_members ms tail)
      by (now rewrite member_text_app).
    rewrite IH.
    + now rewrite <- app_assoc.
    + cbn [List.length] in Hf. lia.
    + exact Hs.
    + now rewrite <- app_assoc.
Qed.

Lemma scan_once_object (fuel : nat) (s : string) :
  scan_once (S fuel) (String "{" (String dquote s))
  = scan_members fuel [] (String dquote s).
Proof. reflexivity. Qed.

(** A dictionary of scalars written by the encoder is read back as it was. *)
Lemma scan_flat_object (v : value) (fuel : nat) (tail : string) :
  flat_object v = true ->
  (match v with JObj members => List.length members | _ => 0 end) + 1 < fuel ->
  scan_once fuel (dumps v ++ tail) = Parsed v tail.
Proof.
  destruct v as [| | | | | |members]; try discriminate.
  intros H Hf. cbn [flat_object] in H. apply andb_true_iff in H. destruct H as [Hd Hs].
  destruct fuel as [|fuel]; [lia|].
  destruct members as [|[k v] ms]; [reflexivity|].
  change (dumps (JObj ((k, v) :: ms)))
    with ("{" ++ join ", " (map member_text ((k, v) :: ms)) ++ "}").
  cbn [append]. rewrite str_append_assoc.
  rewrite (join_members (k, v) ms tail), member_text_app, scan_once_object.
  rewrite <- member_text_app.
  apply (scan_members_flat ms (k, v) fuel [] tail); [|exact Hs|exact Hd].
  cbn [List.length] in Hf. lia.
Qed.

Lemma length_append (a b : string) :
  String.length (a ++ b) = String.length a + String.length b.
Proof.
  induction a as [|c a IH]; [reflexivity|]. cbn. now rewrite IH.
Qed.

Lemma members_length (ms : list (string * value)) :
  List.length ms <= String.length (join ", " (map member_text ms)).
Proof.
  induction ms as [|[k v] [|m ms] IH]; [cbn; lia|cbn; lia|].
  change (join ", " (map member_text ((k, v) :: m :: ms)))
    with (member_text (k, v) ++ ", " ++ join ", " (map member_text (m :: ms))).
  rewrite !length_append. cbn [List.length] in *. cbn [String.length]. lia.
Qed.

(** [json.loads] gives back a dictionary of scalars that [json.dumps]
    wrote. *)
Lemma loads_dumps (v : value) :
  flat_object v = true -> loads (dumps v) = Parsed v EmptyString.
Proof.
  intro H. unfold loads.
  destruct v as [| | | | | |members] eqn:Ev; try discriminate. rewrite <- Ev in *.
  assert (Hw : skip_ws (dumps v) = dumps v) by (now subst v).
  assert (Hl : List.length members <= String.length (dumps v)).
  { subst v. change (dumps (JObj members))
      with ("{" ++ join ", " (map member_text members) ++ "}").
    rewrite !length_append. pose proof (members_length members). lia. }
  rewrite Hw.
  pose proof (scan_flat_object v (2 * String.length (dumps v) + 2) EmptyString H) as Hs.
  replace (dumps v ++ EmptyString) with (dumps v) in Hs.
  2: { clear. induction (dumps v) as [|c s IH]; [reflexivity|]. cbn. now rewrite <- IH. }
  rewrite Hs; [reflexivity|]. subst v. lia.
Qed.

Lemma line_boundary_extends (c : ascii) (s rest : string) :
  line_boundary (String c s) = 0 ->
  line_boundary (String c (s ++ newline ++ rest)) = 0.
Proof.
  unfold line_boundary. cbv zeta.
  destruct (code c =? 13)%nat.
  { destruct s as [|d s]; [discriminate|]. destruct (code d =? 10)%nat; discriminate. }
  destruct (in_range 10 12 c || in_range 28 30 c); [discriminate|].
  destruct (code c =? 194)%nat.
  { destruct s as [|d s]; intro H; [reflexivity|exact H]. }
  destruct (code c =? 226)%nat; [|reflexivity].
  destruct s as [|d [|e s]]; intro H.
  - destruct rest; reflexivity.
  - cbn [append newline]. destruct (code d =? 128)%nat; reflexivity.
  - exact H.
Qed.

(** A line without line boundaries, followed by a newline, is one piece. *)
Lemma pieces_line (l rest : string) :
  boundary_free l = true ->
  pieces 0 (l ++ newline ++ rest) = l :: pieces 0 rest.
Proof.
  induction l as [|c l IH]; [reflexivity|].
  cbn [boundary_free]. intro H. apply andb_true_iff in H. destruct H as [Hb Hl].
  apply Nat.eqb_eq in Hb.
  cbn [append pieces]. rewrite (line_boundary_extends c l rest Hb), (IH Hl).
  reflexivity.
Qed.

Lemma append_empty_r (s : string) : s ++ EmptyString = s.
Proof. induction s as [|c s IH]; [reflexivity|]. cbn. now rewrite IH. Qed.

Lemma written_text (records : list value) (text : string) :
  fold_left (fun text profile => text ++ dumps profile ++ newline) records text
  = text ++ lines_text records.
Proof.
  revert text. induction records as [|r records IH]; intro text; cbn [fold_left lines_text].
  - now rewrite append_empty_r.
  - now rewrite IH, !str_append_assoc.
Qed.

Lemma pieces_lines (records : list value) :
  forallb (fun r => boundary_free (dumps r)) records = true ->
  pieces 0 (lines_text records) = (map dumps records ++ [EmptyString])%list.
Proof.
  induction records as [|r records IH]; [reflexivity|].
  cbn [forallb lines_text map app]. intro H. apply andb_true_iff in H.
  destruct H as [Hr Hrs]. now rewrite (pieces_line _ _ Hr), (IH Hrs).
Qed.

Lemma splitlines_lines (records : list value) :
  forallb (fun r => boundary_free (dumps r)) records = true ->
  splitlines (lines_text records) = map dumps records.
Proof.
  intro H. unfold splitlines. rewrite (pieces_lines records H).
  now rewrite last_last, removelast_last.
Qed.

Lemma load_lines (records acc : list value) :
  forallb flat_object records = true ->
  fold_left
    (fun profiles line =>
       match loads line with
       | Parsed v _ => (profiles ++ [v])%list
       | Malformed => profiles
       | OutOfFuel => profiles
       end)
    (map dumps records) acc
  = (acc ++ records)%list.
Proof.
  revert acc. induction records as [|r records IH]; intros acc H.
  - now rewrite app_nil_r.
  - cbn [forallb] in H. apply andb_true_iff in H. destruct H as [Hr Hrs].
    cbn [map fold_left]. rewrite (loads_dumps r Hr), (IH _ Hrs).
    now rewrite <- app_assoc.
Qed.

Lemma saved_text (records : list value) :
  load_incremental_profiles (_save_profiles_incrementally records None)
  = load_incremental_profiles (Some (lines_text records)).
Proof.
  destruct records as [|r records]; [reflexivity|].
  unfold _save_profiles_incrementally. now rewrite written_text.
Qed.

Lemma save_pages_concat (pages : list (list value)) (f : file) :
  save_pages pages f = _save_profiles_incrementally (List.concat pages) f.
Proof.
  revert f. induction pages as [|page pages IH]; intro f; [reflexivity|].
  unfold save_pages in *. cbn [fold_left List.concat]. rewrite save_app. apply IH.
Qed.

Lemma records_recovered (records : list value) :
  forallb flat_object records = true ->
  forallb (fun r => boundary_free (dumps r)) records = true ->
  load_incremental_profiles (_save_profiles_incrementally records None) = records.
Proof.
  intros Hf Hb. rewrite saved_text. unfold load_incremental_profiles.
  rewrite (splitlines_lines records Hb). exact (load_lines records [] Hf).
Qed.

(** X15.  Into an absent checkpoint file, append page after page of records,
    each a dictionary of scalars whose line holds no line boundary of
    [str.splitlines]: [load_incremental_profiles] returns the records of all
    the pages, in the order written. *)
Theorem checkpoint_round_trip (pages : list (list value)) :
  forallb flat_object (List.concat pages) = true ->
  forallb (fun r => boundary_free (dumps r)) (List.concat pages) = true ->
  load_incremental_profiles (save_pages pages None) = List.concat pages.
Proof.
  intros Hf Hb. rewrite save_pages_concat. now apply records_recovered.
Qed.

Lemma checkpoint_round_trip_witness :
  load_incremental_profiles
    (save_pages [[ProfileNavigation.to_dict Samples.ada_profile]; [];
                 [ProfileNavigation.to_dict Samples.ada_profile]] None)
  = [ProfileNavigation.to_dict Samples.ada_profile;
     ProfileNavigation.to_dict Samples.ada_profile].
Proof.
  apply (checkpoint_round_trip
           [[ProfileNavigation.to_dict Samples.ada_profile]; [];
            [ProfileNavigation.to_dict Samples.ada_profile]]);
    vm_compute; reflexivity.
Defined.

Lemma to_dict_flat (p : ProfileNavigation.profile) :
  flat_object (ProfileNavigation.to_dict p) = true.
Proof.
  destruct p as [n c t u l h [y|] [x|] r b v]; reflexivity.
Qed.

(** X16.  Every record the panel extractor returns is written by
    [json.dumps] as text that [json.loads] reads back as the same
    dictionary: same keys in the same order, same values. *)
Theorem extracted_record_reloads (p : ProfileNavigation.profile) :
  loads (dumps (ProfileNavigation.to_dict p))
  = Parsed (ProfileNavigation.to_dict p) EmptyString.
Proof.
  apply loads_dumps, to_dict_flat.
Qed.

End JsonRoundTrip.

(** ** The characters of a written record *)

Section RecordCharacters.
Import PyStr PyDict Json JsonLines Checkpoint.

Lemma all_chars_append (P : ascii -> bool) (a b : string) :
  all_chars P (a ++ b) = all_chars P a && all_chars P b.
Proof.
  induction a as [|c a IH]; [reflexivity|].
  cbn [append]. unfold all_chars in *. cbn [list_ascii_of_string forallb].
  now rewrite IH, andb_assoc.
Qed.

(** [P] holds of the characters the encoder writes by itself, and the
    escape of a character that satisfies [Q] is made of characters that
    satisfy [P]. *)
Variables P Q : ascii -> bool.
Hypothesis printable : forall c, in_range 32 126 c = true -> P c = true.
Hypothesis escaped : forall c, Q c = true -> all_chars P (escape_char c) = true.

Lemma all_chars_escape (s : string) :
  all_chars Q s = true -> all_chars P (escape s) = true.
Proof.
  induction s as [|c s IH]; [reflexivity|].
  unfold all_chars at 1. cbn [list_ascii_of_string forallb escape]. intro H.
  apply andb_true_iff in H. destruct H as [Hc Hs].
  now rewrite all_chars_append, (escaped c Hc), (IH Hs).
Qed.

Lemma all_chars_encode_str (s : string) :
  all_chars Q s = true -> all_chars P (encode_str s) = true.
Proof.
  intro H. unfold encode_str.
  change (String dquote ?x) with (str1 dquote ++ x).
  rewrite !all_chars_append, (all_chars_escape s H).
  unfold all_chars, str1. cbn [list_ascii_of_string forallb].
  now rewrite printable.
Qed.

Lemma all_chars_uint (d : Decimal.uint) :
  all_chars P (NilEmpty.string_of_uint d) = true.
Proof.
  unfold all_chars.
  induction d; cbn [NilEmpty.string_of_uint list_ascii_of_string forallb];
    [reflexivity|..]; rewrite IHd, printable; reflexivity.
Qed.

Lemma all_chars_str_of_Z (n : Z) : all_chars P (str_of_Z n) = true.
Proof.
  unfold str_of_Z.
  destruct n as [|p|p]; cbn [Z.to_int NilZero.string_of_int].
  - unfold all_chars. cbn. now rewrite printable.
  - unfold NilZero.string_of_uint.
    destruct (Pos.to_uint p) eqn:E; rewrite <- ?E; try apply all_chars_uint.
    unfold all_chars. cbn. now rewrite printable.
  - change (String "-" ?x) with ("-" ++ x). rewrite all_chars_append.
    apply andb_true_iff. split.
    + unfold all_chars. cbn. now rewrite printable.
    + unfold NilZero.string_of_uint.
      destruct (Pos.to_uint p) eqn:E; rewrite <- ?E; try apply all_chars_uint.
      unfold all_chars. cbn. now rewrite printable.
Qed.

Lemma all_chars_literal (s : string) :
  forallb (in_range 32 126) (list_ascii_of_string s) = true ->
  all_chars P s = true.
Proof.
  unfold all_chars. induction s as [|c s IH]; [reflexivity|].
  cbn [list_ascii_of_string forallb]. intro H.
  apply andb_true_iff in H. destruct H as [Hc Hs].
  now rewrite (printable c Hc), (IH Hs).
Qed.

Lemma all_chars_member (k : string) (v : value) :
  scalar v = true ->
  forallb (all_chars Q) (k :: match v with JStr s => [s] | _ => [] end) = true ->
  all_chars P (member_text (k, v)) = true.
Proof.
  intros Hv H. cbn [forallb] in H. apply andb_true_iff in H. destruct H as [Hk Hs].
  unfold member_text. cbn [fst snd].
  rewrite !all_chars_append, (all_chars_encode_str k Hk).
  rewrite (all_chars_literal ": " eq_refl). cbn [andb].
  destruct v as [|[|]|n|l|s|items|members]; try discriminate Hv; cbn [dumps].
  - now apply all_chars_literal.
  - now apply all_chars_literal.
  - now apply all_chars_literal.
  - apply all_chars_str_of_Z.
  - apply all_chars_encode_str. cbn [forallb] in Hs.
    now rewrite andb_true_r in Hs.
Qed.

Lemma all_chars_members (ms : list (string * value)) :
  forallb scalar (map snd ms) = true ->
  forallb (all_chars Q) (strings_of (JObj ms)) = true ->
  all_chars P (join ", " (map member_text ms)) = true.
Proof.
  induction ms as [|[k v] ms IH]; [reflexivity|].
  cbn [map snd forallb strings_of flat_map fst]. intros Hs H.
  apply andb_true_iff in Hs. destruct Hs as [Hv Hs].
  change (k :: (match v with JStr s => [s] | _ => [] end
                ++ flat_map (fun kv => fst kv :: match snd kv with
                                                 | JStr s => [s]
                                                 | _ => []
                                                 end) ms))%list
    with ((k :: match v with JStr s => [s] | _ => [] end)
          ++ strings_of (JObj ms))%list in H.
  rewrite forallb_app in H. apply andb_true_iff in H. destruct H as [Hkv Hms].
  pose proof (all_chars_member k v Hv Hkv) as Hm.
  destruct ms as [|m ms]; [exact Hm|].
  change (all_chars P (member_text (k, v) ++ ", "
                         ++ join ", " (map member_text (m :: ms))) = true).
  rewrite !all_chars_append, Hm, (IH Hs Hms), (all_chars_literal ", " eq_refl).
  reflexivity.
Qed.

Lemma all_chars_dumps (v : value) :
  flat_object v = true ->
  forallb (all_chars Q) (strings_of v) = true ->
  all_chars P (dumps v) = true.
Proof.
  destruct v as [| | | | | |ms]; try discriminate.
  cbn [flat_object]. intros H Hq. apply andb_true_iff in H. destruct H as [_ Hs].
  change (dumps (JObj ms)) with ("{" ++ join ", " (map member_text ms) ++ "}").
  rewrite !all_chars_append, (all_chars_members ms Hs Hq).
  now rewrite (all_chars_literal "{" eq_refl), (all_chars_literal "}" eq_refl).
Qed.

End RecordCharacters.

Section RecordLines.
Import PyStr PyDict Json JsonLines Checkpoint.

Lemma escape_char_no_control (c : ascii) :
  all_chars (fun c => (32 <=? code c)%nat) (escape_char c) = true.
Proof. each_char c; reflexivity. Qed.

Lemma escape_char_ascii (c : ascii) :
  (code c <=? 127)%nat = true ->
  all_chars (in_range 32 127) (escape_char c) = true.
Proof. each_char c; intro H; try discriminate H; reflexivity. Qed.

Lemma printable_no_control (c : ascii) :
  in_range 32 126 c = true -> (32 <=? code c)%nat = true.
Proof. unfold in_range. intro H. now apply andb_true_iff in H. Qed.

Lemma printable_ascii (c : ascii) :
  in_range 32 126 c = true -> in_range 32 127 c = true.
Proof.
  unfold in_range. intro H. apply andb_true_iff in H. destruct H as [H1 H2].
  rewrite H1. apply Nat.leb_le in H2. apply Nat.leb_le. lia.
Qed.

Lemma all_chars_true (s : string) : all_chars (fun _ => true) s = true.
Proof. unfold all_chars. induction s; [reflexivity|exact IHs]. Qed.

Lemma forallb_true {A : Type} (P : A -> bool) (l : list A) :
  (forall a, P a = true) -> forallb P l = true.
Proof. intro H. induction l; [reflexivity|]. cbn. now rewrite H. Qed.

(** X17.  The line written for a dictionary of scalars holds no control
    character, whatever its strings hold: a newline inside a scraped field is
    written as an escape, so the only newline of the line is the one that
    ends it. *)
Theorem record_line_no_control (v : value) :
  flat_object v = true -> no_control (dumps v) = true.
Proof.
  intro H.
  apply (all_chars_dumps (fun c => (32 <=? code c)%nat) (fun _ => true)
           printable_no_control (fun c _ => escape_char_no_control c) v H).
  apply forallb_true, all_chars_true.
Qed.

Lemma record_line_no_control_witness :
  no_control (dumps (JObj [("full_name", JStr ("Ada" ++ newline ++ "Lovelace"));
                           ("bachelors_grad_year", JNull)])) = true.
Proof.
  apply (record_line_no_control
           (JObj [("full_name", JStr ("Ada" ++ newline ++ "Lovelace"));
                  ("bachelors_grad_year", JNull)])).
  reflexivity.
Defined.

Lemma line_boundary_ascii (c : ascii) (s : string) :
  in_range 32 127 c = true -> line_boundary (String c s) = 0.
Proof. each_char c; intro H; try discriminate H; reflexivity. Qed.

Lemma ascii_boundary_free (s : string) :
  all_chars (in_range 32 127) s = true -> boundary_free s = true.
Proof.
  unfold all_chars. induction s as [|c s IH]; [reflexivity|].
  cbn [list_ascii_of_string forallb boundary_free]. intro H.
  apply andb_true_iff in H. destruct H as [Hc Hs].
  now rewrite (line_boundary_ascii c s Hc), (IH Hs).
Qed.

(** X18.  A dictionary of scalars whose keys and string values are ASCII
    text is written as a line of printable ASCII characters, so no line
    boundary of [str.splitlines] starts in it. *)
Theorem ascii_record_one_line (v : value) :
  flat_object v = true ->
  forallb ascii_text (strings_of v) = true ->
  boundary_free (dumps v) = true.
Proof.
  intros H Ha. apply ascii_boundary_free.
  exact (all_chars_dumps (in_range 32 127) (fun c => (code c <=? 127)%nat)
           printable_ascii escape_char_ascii v H Ha).
Qed.

Lemma ascii_record_one_line_witness :
  boundary_free (dumps (ProfileNavigation.to_dict Samples.ada_profile)) = true.
Proof.
  apply (ascii_record_one_line (ProfileNavigation.to_dict Samples.ada_profile));
    vm_compute; reflexivity.
Defined.

End RecordLines.

Section Recovery.
Import PyStr PyDict Json JsonLines Checkpoint ProfileNavigation Search Visits.

Lemma forallb_mapped {A B : Type} (f : B -> bool) (g : A -> B) (l : list A) :
  forallb f (map g l) = forallb (fun a => f (g a)) l.
Proof. induction l as [|a l IH]; [reflexivity|]. cbn. now rewrite IH. Qed.

(** While no write raises, the pages of a run add their records to the
    file, in order. *)
Lemma pages_written_all current_year wl (pages : list result_page) :
  forall f,
    Forall (fun page =>
              Forall (fun c => write_raises current_year wl c = false)
                     (candidates page)) pages ->
    fold_left (fun f page => started_page_written current_year wl page f) pages f
    = _save_profiles_incrementally
        (map to_dict (flat_map (started_page_records current_year wl) pages)) f.
Proof.
  induction pages as [|page pages IH]; intros f Hall; [reflexivity|].
  inversion Hall as [|? ? Hpage Hpages]; subst.
  cbn [fold_left flat_map]. rewrite map_app, save_app, (IH _ Hpages). f_equal.
  unfold started_page_written, started_page_records, page_written, page_records.
  destruct (results_loaded page); [|reflexivity].
  destruct (panel_reached page); [|reflexivity].
  apply written_all. now apply visited_all.
Qed.

(** X19.  When a run returns and no write to the checkpoint file has raised
    on the way, the file it leaves gives back to [load_incremental_profiles]
    the records the run returns, in the same order, provided that no
    record's line holds a line boundary of [str.splitlines]. *)
Theorem run_file_recovers
  (urlparse : string -> outcome ParseResult)
  (parse_qsl : string -> list (string * string))
  (urlunparse : ParseResult -> string)
  current_year chrome wl config w profiles last w' :
  run_search urlparse parse_qsl urlunparse current_year chrome wl config w
  = (Returned (profiles, last), w') ->
  (forall k, Forall (fun c => write_raises current_year wl c = false)
                    (candidates (result_pages chrome k))) ->
  forallb (fun p => boundary_free (dumps (to_dict p))) profiles = true ->
  load_incremental_profiles (incremental w') = map to_dict profiles.
Proof.
  intros Hrun Hwrites Hb.
  assert (Hgiven : exists url parsed,
             saved_search_url config = Some url /\ url <> ""
             /\ urlparse url = Returned parsed /\ goto_ok chrome = true).
  { unfold run_search in Hrun.
    destruct (saved_search_url config) as [url|]; [|discriminate Hrun].
    exists url. destruct (String.eqb_spec url ""); [discriminate Hrun|].
    destruct (urlparse url) as [parsed|e]; [|discriminate Hrun].
    exists parsed. destruct (goto_ok chrome); [auto|discriminate Hrun]. }
  destruct Hgiven as (url & parsed & Hurl & Hne & Hparse & Hgoto).
  destruct (run_search_spec urlparse parse_qsl urlunparse current_year chrome
              wl config url parsed w Hurl Hne Hparse Hgoto) as (H1 & Hf & _).
  rewrite Hrun in H1, Hf. cbn [fst snd] in H1, Hf.
  destruct (existsb started_page_raises _); [discriminate H1|].
  injection H1 as Hps _.
  rewrite Hf, pages_written_all, <- Hps.
  - apply records_recovered; rewrite forallb_mapped.
    + apply forallb_true. exact to_dict_flat.
    + exact Hb.
  - apply Forall_map, Forall_forall. intros k _. apply Hwrites.
Qed.

Lemma run_file_recovers_witness :
  load_incremental_profiles
    (incremental
       (snd (run_search Samples.sample_urlparse Samples.sample_parse_qsl
               Samples.sample_urlunparse 2026
               {| goto_ok := true; result_pages := fun _ => Samples.quiet_page |}
               None (Samples.sample_config 3) Samples.interrupted)))
  = map to_dict (page_records 2026 None Samples.quiet_page).
Proof.
  apply (run_file_recovers Samples.sample_urlparse Samples.sample_parse_qsl
           Samples.sample_urlunparse 2026
           {| goto_ok := true; result_pages := fun _ => Samples.quiet_page |}
           None (Samples.sample_config 3) Samples.interrupted
           (page_records 2026 None Samples.quiet_page) 3%Z).
  - vm_compute. reflexivity.
  - intros k. repeat constructor.
  - vm_compute. reflexivity.
Defined.

(** Two pages on each of which the write of the second record raises: the
    run returns four records, and the file gives back two. *)
Example unsaved_records_not_recovered :
  let run :=
    run_search Samples.sample_urlparse Samples.sample_parse_qsl
      Samples.sample_urlunparse 2026
      {| goto_ok := true; result_pages := fun _ => Samples.unsaved_page |}
      None (Samples.sample_config 1) Samples.fresh in
  fst run = Returned (page_records 2026 None Samples.unsaved_page
                      ++ page_records 2026 None Samples.unsaved_page, 2%Z)%list
  /\ List.length (page_records 2026 None Samples.unsaved_page) = 2
  /\ load_incremental_profiles (incremental (snd run))
     = [to_dict Samples.ada_profile; to_dict Samples.ada_profile].
Proof. vm_compute. repeat split. Qed.

End Recovery.

(** ** The push to Airtable *)

Section AirtablePush.
Import PyStr PyDict Json AirtableExport.

Lemma firstn_add {A : Type} (n m : nat) (l : list A) :
  firstn (n + m) l = (firstn n l ++ firstn m (skipn n l))%list.
Proof.
  revert l. induction n as [|n IH]; intro l; [reflexivity|].
  destruct l as [|a l]; [cbn; now rewrite firstn_nil|].
  cbn [Nat.add firstn skipn app]. now rewrite IH.
Qed.

Lemma chunks_firstn {A : Type} (size k : nat) (l : list A) :
  List.concat (map (fun i => firstn size (skipn i l))
                   (map (fun j => j * size) (seq 0 k)))
  = firstn (k * size) l.
Proof.
  induction k as [|k IH]; [reflexivity|].
  rewrite seq_S, !map_app, concat_app, IH. cbn [map List.concat Nat.add].
  rewrite List.app_nil_r. replace (S k * size) with (k * size + size) by lia.
  now rewrite firstn_add.
Qed.

Lemma batches_cover (n : nat) : n <= (n + (batch_size - 1)) / batch_size * batch_size.
Proof.
  unfold batch_size.
  pose proof (Nat.div_mod_eq (n + (10 - 1)) 10) as H.
  pose proof (Nat.mod_upper_bound (n + (10 - 1)) 10). lia.
Qed.

Lemma batch_starts_inside (n i : nat) : In i (batch_starts n) -> i < n.
Proof.
  unfold batch_starts. intro H. apply in_map_iff in H.
  destruct H as (k & <- & Hk). apply in_seq in Hk. unfold batch_size in *.
  pose proof (Nat.div_mod_eq (n + (10 - 1)) 10) as H.
  pose proof (Nat.mod_upper_bound (n + (10 - 1)) 10). lia.
Qed.

Lemma batch_numbers (n : nat) :
  map (fun i => i / batch_size + 1) (batch_starts n)
  = seq 1 (List.length (batch_starts n)).
Proof.
  unfold batch_starts. rewrite map_map, length_map, length_seq.
  generalize ((n + (batch_size - 1)) / batch_size). intro k.
  rewrite <- (map_id (seq 1 k)), <- seq_shift, map_map.
  apply map_ext. intro j. unfold batch_size. rewrite Nat.div_mul by lia. cbn. lia.
Qed.

(** X20.  With an API key, a base and a table configured,
    [push_to_airtable] sends every record it has built exactly once and in
    order, in batches of at least one and at most ten records numbered from
    1, each with the merge field (the configured one, or "LinkedIn URL") as
    its only key field; whether a call returns or raises has no part in
    which batches follow. *)
Theorem airtable_batches (api_key : string) (service : nat -> bool)
  (profiles : list (dict value)) (config : airtable_config) (base table : string) :
  api_key <> "" ->
  base_id config = Some base ->
  table_name config = Some table ->
  let records :=
    build_records (match field_map config with Some m => m | None => [] end) profiles in
  exists calls,
    push_to_airtable (Some api_key) service profiles config = inr calls
    /\ List.concat (map batch calls) = records
    /\ map number calls = seq 1 (List.length calls)
    /\ Forall (fun c => 1 <= List.length (batch c) <= 10
                        /\ key_fields c
                           = [match merge_field config with
                              | Some field => field
                              | None => "LinkedIn URL"
                              end]
                        /\ returned c = service (number c - 1)) calls.
Proof.
  intros Hkey Hbase Htable records. unfold push_to_airtable.
  destruct api_key as [|c k]; [now contradiction Hkey|].
  rewrite Hbase, Htable. fold records.
  eexists. split; [reflexivity|]. split; [|split].
  - rewrite map_map. cbn [batch]. unfold batch_starts.
    rewrite (chunks_firstn batch_size _ records).
    apply firstn_all2, batches_cover.
  - rewrite map_map, length_map. cbn [number]. apply batch_numbers.
  - apply Forall_forall. intros c' Hin. apply in_map_iff in Hin.
    destruct Hin as (i & <- & Hi). cbn [batch returned number key_fields].
    apply batch_starts_inside in Hi.
    rewrite length_firstn, length_skipn. unfold batch_size.
    split; [lia|]. split; [reflexivity|]. f_equal. lia.
Qed.

Lemma dict_set_in {A : Type} (k c : string) (v x : A) (d : dict A) :
  In (c, x) (dict_set k v d) -> (c = k /\ x = v) \/ In (c, x) d.
Proof.
  induction d as [|[k' v'] d IH]; cbn [dict_set].
  - intros [[= <- <-] | []]. now left.
  - destruct (k' =? k) eqn:E.
    + intros [[= <- <-] | H]; [now left | right; now right].
    + intros [H | H]; [right; now left|].
      destruct (IH H) as [? | ?]; [now left | right; now right].
Qed.

Lemma fields_of_sendable (fm : dict string) (p : dict value) (col : string) (x : cell) :
  In (col, x) (fields_of fm p) ->
  exists key,
    In (key, col) fm
    /\ sendable (record_get p key) = true
    /\ x = (if is_number (record_get p key) then AsIs (record_get p key)
            else AsText (record_get p key)).
Proof.
  unfold fields_of.
  assert (H : forall items acc,
            (forall col x, In (col, x) acc ->
               exists key, In (key, col) fm
                 /\ sendable (record_get p key) = true
                 /\ x = (if is_number (record_get p key) then AsIs (record_get p key)
                         else AsText (record_get p key))) ->
            incl items fm ->
            forall col x,
              In (col, x)
                 (fold_left
                    (fun fields item =>
                       let val := record_get p (fst item) in
                       if sendable val
                       then dict_set (snd item)
                              (if is_number val then AsIs val else AsText val) fields
                       else fields) items acc) ->
              exists key, In (key, col) fm
                /\ sendable (record_get p key) = true
                /\ x = (if is_number (record_get p key) then AsIs (record_get p key)
                        else AsText (record_get p key))).
  { induction items as [|[key c] items IH]; intros acc Hacc Hincl col' x'; [apply Hacc|].
    cbn [fold_left fst snd]. apply IH.
    - intros col0 x0 Hin. cbv zeta in Hin.
      destruct (sendable (record_get p key)) eqn:Es; [|now apply Hacc].
      apply dict_set_in in Hin. destruct Hin as [[-> ->] | Hin]; [|now apply Hacc].
      exists key. split; [apply Hincl; now left | auto].
    - intros item Hitem. apply Hincl. now right. }
  apply H; [intros ? ? [] | apply incl_refl].
Qed.

(** X21.  What [push_to_airtable] puts into a record: every field comes from
    a pair of the field map, and its value is a value of the profile that is
    neither [None] nor the empty string, sent as it is when it is a number or
    a truth value and as its text otherwise; a profile that gives no field
    gives no record. *)
Theorem airtable_fields (fm : dict string) (profiles : list (dict value))
  (record : dict cell) :
  In record (build_records fm profiles) ->
  record <> []
  /\ exists p, In p profiles
       /\ record = fields_of fm p
       /\ forall col x, In (col, x) record ->
            exists key,
              In (key, col) fm
              /\ sendable (record_get p key) = true
              /\ x = (if is_number (record_get p key) then AsIs (record_get p key)
                      else AsText (record_get p key)).
Proof.
  unfold build_records. intro H. apply in_flat_map in H.
  destruct H as (p & Hp & Hin).
  destruct (fields_of fm p) as [|f fs] eqn:E; [destruct Hin|].
  destruct Hin as [<- | []]. split; [discriminate|].
  exists p. split; [exact Hp|]. split; [now rewrite E|].
  intros col x Hx. rewrite <- E in Hx. now apply fields_of_sendable.
Qed.


Lemma airtable_batches_witness :
  let config := {| base_id := Some "app1"; table_name := Some "Candidates";
                   field_map := Some [("full_name", "Name"); ("review", "Review")];
                   merge_field := None |} in
  let profiles :=
    (repeat [("full_name", JStr "Ada"); ("review", JStr "")] 11
     ++ [[("full_name", JNull); ("review", JStr "")]])%list in
  exists calls,
    push_to_airtable (Some "key") (fun k => (k =? 1)%nat) profiles config = inr calls
    /\ List.concat (map batch calls) = repeat [("Name", AsText (JStr "Ada"))] 11
    /\ map number calls = seq 1 (List.length calls)
    /\ Forall (fun c => 1 <= List.length (batch c) <= 10
                        /\ key_fields c = ["LinkedIn URL"]
                        /\ returned c = (number c - 1 =? 1)%nat) calls.
Proof.
  cbv zeta.
  apply (airtable_batches "key" (fun k => (k =? 1)%nat)
           (repeat [("full_name", JStr "Ada"); ("review", JStr "")] 11
            ++ [[("full_name", JNull); ("review", JStr "")]])%list
           {| base_id := Some "app1"; table_name := Some "Candidates";
              field_map := Some [("full_name", "Name"); ("review", "Review")];
              merge_field := None |} "app1" "Candidates").
  - discriminate.
  - reflexivity.
  - reflexivity.
Defined.

Lemma airtable_fields_witness :
  [("Name", AsText (JStr "Ada")); ("Year", AsIs (JInt 2015))] <> []
  /\ exists p, In p [[("full_name", JStr "Ada"); ("review", JStr "");
                      ("bachelors_grad_year", JInt 2015)]]
       /\ [("Name", AsText (JStr "Ada")); ("Year", AsIs (JInt 2015))]
          = fields_of [("full_name", "Name"); ("review", "Review");
                       ("bachelors_grad_year", "Year")] p
       /\ forall col x,
            In (col, x) [("Name", AsText (JStr "Ada")); ("Year", AsIs (JInt 2015))] ->
            exists key,
              In (key, col) [("full_name", "Name"); ("review", "Review");
                             ("bachelors_grad_year", "Year")]
              /\ sendable (record_get p key) = true
              /\ x = (if is_number (record_get p key) then AsIs (record_get p key)
                      else AsText (record_get p key)).
Proof.
  apply (airtable_fields
           [("full_name", "Name"); ("review", "Review"); ("bachelors_grad_year", "Year")]
           [[("full_name", JStr "Ada"); ("review", JStr "");
             ("bachelors_grad_year", JInt 2015)]]).
  vm_compute. now left.
Defined.

End AirtablePush.

(** ** The log line of a crashed tab *)

Section CrashLog.
Import PyStr Checkpoint ProfileNavigation Search Visits.

(** X22.  A page whose panel opens and whose tab has crashed when the turn
    of candidate number [k] comes (the candidates before it being reached
    with a healthy tab, and their records written without an error): the
    traversal returns, and the last line of its log reports as saved the
    number of records it returns, and names candidate [k] as the resume
    point, with the page number when the caller gives one. *)
Theorem crashed_tab_logged
  (current_year : Z) (page : result_page) (wl : Filters.whitelist)
  (page_num : Z) (w : world)
  (before : list candidate) (c : candidate) (after : list candidate) :
  first_link page = Value true ->
  first_link_click page = Value tt ->
  panel_opens page = true ->
  first_candidate page :: more_candidates page = (before ++ c :: after)%list ->
  Forall (fun x => crashed x = false /\ write_raises current_year wl x = false)
         before ->
  crashed c = true ->
  let result := process_page_via_navigation current_year page wl page_num w in
  exists profiles evs,
    fst result = Returned profiles
    /\ trace (snd result)
       = (trace w ++ evs
          ++ [Crashed (List.length profiles)
                      (resume_msg page_num (List.length before + 1))])%list.
Proof.
  intros Hlink Hclick Hpanel Hcs Hok Hc. cbv zeta.
  unfold process_page_via_navigation. rewrite Hlink, Hclick, Hpanel. cbn [negb].
  destruct before as [|first before].
  - cbn [app] in Hcs. injection Hcs as -> ->.
    rewrite (candidate_loop_crashed _ _ _ _ _ _ _ _ Hc). cbn [fst snd].
    exists [], []. split; reflexivity.
  - cbn [app] in Hcs. injection Hcs as -> ->.
    destruct (crash_stops_traversal current_year wl page_num before
                first c after 0 [] w Hok Hc) as [Hps (evs & Ht)].
    cbv zeta in Hps, Ht.
    destruct (candidate_loop current_year wl page_num first
                (before ++ c :: after) 0 [] w) as [profiles w'].
    cbn [fst snd] in *. subst profiles. rewrite Ht.
    eexists _, evs. split; [reflexivity|].
    cbn [List.length app Nat.add].
    now replace (List.length before + 2) with (S (List.length before + 1)) by lia.
Qed.

Lemma crashed_tab_logged_witness :
  exists profiles evs,
    fst (process_page_via_navigation 2026 Samples.crash_page None 7 Samples.fresh)
    = Returned profiles
    /\ trace (snd (process_page_via_navigation 2026 Samples.crash_page None 7
                     Samples.fresh))
       = (trace Samples.fresh ++ evs
          ++ [Crashed (List.length profiles)
                      (resume_msg 7 (List.length [Samples.ada] + 1))])%list.
Proof.
  apply (crashed_tab_logged 2026 Samples.crash_page None 7 Samples.fresh
           [Samples.ada] (Samples.crash Samples.bob) [Samples.cy]).
  - reflexivity.
  - reflexivity.
  - reflexivity.
  - reflexivity.
  - repeat constructor.
  - vm_compute. reflexivity.
Defined.

End CrashLog.

(** ** The year parser *)

Section YearParser.
Import PyStr Profile.

(** X23.  Whatever the text, the year parser returns nothing, 19 or 20:
    what it converts is what the group of the year pattern captured, the
    century, so no text is given a year of four digits. *)
Theorem reported_year_is_century (text : string) :
  In (_parse_bachelors_year_from_text text) [None; Some 19%Z; Some 20%Z].
Proof.
  destruct (_parse_bachelors_year_from_text text) as [y|] eqn:E; [|now left].
  destruct (parse_year_is_century text y E) as [-> | ->].
  - right. now left.
  - right. right. now left.
Qed.

End YearParser.

(** ** A run started from the window *)

Section WindowRun.
Import PyStr PyDict Checkpoint ProfileNavigation Search Visits GuiStart.

(** X24.  A run started from the window has a URL that holds
    "linkedin.com" and an end page not before its start page.  When
    [urlparse] accepts the URL and the first navigation succeeds, the run
    starts the start page and nothing but consecutive pages up to the end
    page at most; it raises when the traversal of the last page it started
    raises, and otherwise returns, and the last page it reports is the last
    it started, which lies between the two. *)
Theorem window_run_pages
  (urlparse : string -> outcome ParseResult)
  (parse_qsl : string -> list (string * string))
  (urlunparse : ParseResult -> string)
  (url_var : string) (pg_start pg_end : Z) (search : search_config)
  (filters : RecordFilters.filter_config) (parsed : ParseResult)
  current_year chrome wl w :
  _on_start url_var pg_start pg_end = Some (search, filters) ->
  urlparse (strip url_var) = Returned parsed ->
  goto_ok chrome = true ->
  let r := run_search urlparse parse_qsl urlunparse current_year chrome wl search w in
  contains "linkedin.com" (strip url_var) = true
  /\ filters = GuiApp.gui_filters
  /\ exists n,
       let last := (pg_start + Z.of_nat n - 1)%Z in
       1 <= n
       /\ (pg_start <= last <= pg_end)%Z
       /\ page_starts (trace (snd r))
          = (page_starts (trace w) ++ consecutive pg_start n)%list
       /\ fst r
          = (if started_page_raises (result_pages chrome last)
             then Raised PlaywrightError
             else Returned
                    (flat_map (started_page_records current_year wl)
                       (map (result_pages chrome) (consecutive pg_start n)),
                     last)).
Proof.
  unfold _on_start. cbv zeta.
  destruct (nonempty (strip url_var)) eqn:Hne; cbn [negb orb]; [|discriminate].
  destruct (contains "linkedin.com" (strip url_var)); cbn [negb]; [|discriminate].
  destruct (pg_end <? pg_start)%Z eqn:Hse; [discriminate|].
  apply Z.ltb_ge in Hse. intros [= <- <-] Hparse Hgoto.
  split; [reflexivity|]. split; [reflexivity|].
  assert (Hurl : strip url_var <> "").
  { unfold nonempty in Hne. intros Heq. rewrite Heq in Hne. discriminate Hne. }
  destruct (run_search_spec urlparse parse_qsl urlunparse current_year chrome wl
              {| saved_search_url := Some (strip url_var);
                 start_page := Some pg_start; max_pages := Some pg_end |}
              (strip url_var) parsed w eq_refl Hurl Hparse Hgoto)
    as (H1 & _ & evs & Ht & _ & Hst).
  cbn [start_page max_pages get] in H1, Ht, Hst.
  set (budget := Z.to_nat (pg_end + 1 - pg_start)) in *.
  destruct (started_pages chrome budget pg_start)
    as (n & Hn & Hpos & Hcons & Hraise & _).
  assert (Hn1 : 1 <= n) by (apply Hpos; unfold budget; lia).
  exists n. split; [exact Hn1|]. split; [unfold budget in Hn; lia|]. split.
  - rewrite Ht, page_starts_app. cbn [page_starts]. now rewrite Hst, Hcons.
  - rewrite H1, Hraise, Hcons, last_consecutive.
    replace (0 <? n)%nat with true by (symmetry; apply Nat.ltb_lt; lia).
    replace (n =? 0)%nat with false by (symmetry; apply Nat.eqb_neq; lia).
    reflexivity.
Qed.

Lemma window_run_pages_witness :
  contains "linkedin.com" (strip ("  " ++ Samples.sample_url ++ " ")) = true
  /\ GuiApp.gui_filters = GuiApp.gui_filters
  /\ exists n,
       1 <= n
       /\ (3 <= 3 + Z.of_nat n - 1 <= 5)%Z
       /\ page_starts
            (trace (snd (run_search Samples.sample_urlparse Samples.sample_parse_qsl
                           Samples.sample_urlunparse 2026
                           {| goto_ok := true;
                              result_pages := fun _ => Samples.quiet_page |}
                           None
                           {| saved_search_url := Some Samples.sample_url;
                              start_page := Some 3%Z; max_pages := Some 5%Z |}
                           Samples.fresh)))
          = (page_starts (trace Samples.fresh) ++ consecutive 3 n)%list
       /\ fst (run_search Samples.sample_urlparse Samples.sample_parse_qsl
                 Samples.sample_urlunparse 2026
                 {| goto_ok := true; result_pages := fun _ => Samples.quiet_page |}
                 None
                 {| saved_search_url := Some Samples.sample_url;
                    start_page := Some 3%Z; max_pages := Some 5%Z |}
                 Samples.fresh)
          = Returned
              (flat_map (started_page_records 2026 None)
                 (map (fun _ => Samples.quiet_page) (consecutive 3 n)),
               (3 + Z.of_nat n - 1)%Z).
Proof.
  refine (window_run_pages Samples.sample_urlparse Samples.sample_parse_qsl
            Samples.sample_urlunparse
            ("  " ++ Samples.sample_url ++ " ") 3 5
            {| saved_search_url := Some Samples.sample_url;
               start_page := Some 3%Z; max_pages := Some 5%Z |}
            GuiApp.gui_filters Samples.sample_parsed 2026
            {| goto_ok := true; result_pages := fun _ => Samples.quiet_page |}
            None Samples.fresh _ _ _).
  - vm_compute. reflexivity.
  - reflexivity.
  - reflexivity.
Defined.

End WindowRun.

(** ** Lines of the whitelist file *)

Section WhitelistLines.
Import PyStr Filters ProfileNavigation TitleWhitelist.

Lemma set_add_keeps (x y : string) (l : list string) :
  In y l -> In y (set_add x l).
Proof.
  unfold set_add. destruct (existsb (String.eqb x) l); [auto|].
  intro H. apply in_or_app. now left.
Qed.

Lemma set_add_holds (x : string) (l : list string) : In x (set_add x l).
Proof.
  unfold set_add. destruct (existsb (String.eqb x) l) eqn:E.
  - apply existsb_exists in E. destruct E as (y & Hy & E).
    apply String.eqb_eq in E. now subst.
  - apply in_or_app. right. now left.
Qed.

Lemma add_lines_keep (lines : list string) :
  forall acc x, In x acc -> In x (fold_left add_line lines acc).
Proof.
  induction lines as [|l lines IH]; intros acc x H; [exact H|].
  cbn [fold_left]. apply IH. unfold add_line.
  destruct (negb (strip (sub_groups 0 l) =? "")); [now apply set_add_keeps | exact H].
Qed.

Lemma add_lines_hold (lines : list string) (line : string) :
  forall acc,
    In line lines ->
    strip (sub_groups 0 line) <> "" ->
    In (lower (strip (sub_groups 0 line))) (fold_left add_line lines acc).
Proof.
  induction lines as [|l lines IH]; intros acc Hin Hne; [destruct Hin|].
  cbn [fold_left]. destruct Hin as [-> | Hin]; [|now apply IH].
  apply add_lines_keep. unfold add_line.
  apply String.eqb_neq in Hne. rewrite Hne. cbn [negb]. apply set_add_holds.
Qed.

(** X25.  A line of the whitelist file, without its bracketed parts and the
    white space around it, is matched in any letter case: a title that
    contains it, and no blacklist phrase, passes the matcher with the loaded
    whitelist. *)
Theorem whitelist_line_matches (text line title : string) :
  In line (Checkpoint.splitlines text) ->
  strip (sub_groups 0 line) <> "" ->
  contains (lower (strip (sub_groups 0 line))) (lower title) = true ->
  existsb (fun phrase => contains phrase (lower title)) TITLE_BLACKLIST = false ->
  fst (title_matches_whitelist title (load_title_whitelist (Some text))) = true.
Proof.
  intros Hin Hne Hsub Hblack. cbn [load_title_whitelist].
  pose proof (add_lines_hold _ line [] Hin Hne) as Hphrase.
  unfold title_matches_whitelist. rewrite Hblack.
  assert (Hany : existsb (fun phrase => contains phrase (lower title))
                   (fold_left add_line (Checkpoint.splitlines text) []) = true).
  { apply existsb_exists. eexists. split; [exact Hphrase | exact Hsub]. }
  destruct (fold_left add_line (Checkpoint.splitlines text) []) as [|a l];
    [destruct Hphrase|].
  cbn [truthy phrases andb]. rewrite Hany. cbn [negb].
  now destruct (find _ TITLE_REVIEW_FLAGS).
Qed.

Lemma whitelist_line_matches_witness :
  fst (title_matches_whitelist "Senior SOFTWARE Engineer"
         (load_title_whitelist
            (Some ("Data Scientist" ++ Checkpoint.newline
                   ++ "  Software Engineer (Snowflake alum) [2021]"
                   ++ Checkpoint.newline)))) = true.
Proof.
  apply (whitelist_line_matches _ "  Software Engineer (Snowflake alum) [2021]").
  - vm_compute. right. now left.
  - vm_compute. discriminate.
  - vm_compute. reflexivity.
  - vm_compute. reflexivity.
Defined.

End WhitelistLines.

(** ** Filtering twice *)

Section FilterTwice.
Import PyStr ProfileNavigation RecordFilters.

Lemma kept_again (config : filter_config) (p q : profile) :
  In q (kept config p) -> kept config q = [q].
Proof.
  unfold kept. cbv zeta.
  destruct (bachelors_grad_year p) as [y|] eqn:Hy.
  - destruct (bound_set (bachelors_grad_year_min config)
              && (y <? get_bound (bachelors_grad_year_min config))%Z) eqn:E1;
      [intros []|].
    destruct (bound_set (bachelors_grad_year_max config)
              && (get_bound (bachelors_grad_year_max config) <? y)%Z) eqn:E2;
      [intros []|].
    intros [<- | []]. rewrite Hy. now rewrite E1, E2.
  - destruct (_ =? "include") eqn:Ei.
    + intros [<- | []]. now rewrite Hy.
    + destruct (_ =? "flag") eqn:Ef; [|intros []].
      intros [<- | []]. cbn [flagged bachelors_grad_year]. now rewrite Hy.
Qed.

(** X26.  Filtering what the filter returned changes nothing. *)
Theorem apply_filters_idempotent (profiles : list profile) (config : filter_config) :
  apply_filters (apply_filters profiles config) config = apply_filters profiles config.
Proof.
  unfold apply_filters.
  destruct (negb (bound_set (bachelors_grad_year_min config))
            && negb (bound_set (bachelors_grad_year_max config))); [reflexivity|].
  induction profiles as [|p ps IH]; [reflexivity|].
  cbn [flat_map]. rewrite flat_map_app, IH. f_equal.
  assert (H : forall l, (forall q, In q l -> kept config q = [q]) ->
                        flat_map (kept config) l = l).
  { induction l as [|q l IHl]; intro Hl; [reflexivity|].
    cbn [flat_map]. rewrite (Hl q (or_introl eq_refl)), IHl; [reflexivity|].
    intros q' Hq'. apply Hl. now right. }
  apply H. intros q Hq. now apply (kept_again config p).
Qed.

End FilterTwice.
